(** * bikestoreapi: the reservation and scheduling core of [main.py]

    A shallow embedding of the Flask handlers that move stock, carts,
    product reservations, service slots and service appointments, over the
    tables declared in [models.py].

    Conventions of the embedding.
    - A table is the list of its rows in insertion order; [Query.first()] is
      [find], [Query.all()] is [filter].  A write to a loaded row is the SQL
      [UPDATE ... WHERE id = ?] the ORM emits, so it is written by primary key.
    - Every handler takes the committed database and returns the committed
      database together with its HTTP answer.  A handler that raises (an
      attribute read on [None]) answers 500 and leaves what it had committed
      before, since its session is dropped without a commit.
    - Integers are [Z].  A naive [datetime] is the number of microseconds
      since the calendar's origin, so a [timedelta] is a number of
      microseconds and a calendar day is a block of [86400 * 10^6] of them.
      The clock ([datetime.utcnow()], [datetime.now()]) is an argument.
    - A price is a Python float; the handlers below only copy prices, so a
      price is carried as the integer of its binary64 bit pattern. *)

From Stdlib Require Import ZArith List String Bool Lia.
Import ListNotations.
Open Scope Z_scope.

(** ** models.py *)

(** The status literals of [main.py]. *)
Definition RESERVADO : string := "RESERVADO".
Definition RETIRADO : string := "RETIRADO".
Definition CANCELADO : string := "CANCELADO".
Definition PENDENTE : string := "PENDENTE".
Definition ACEITO : string := "ACEITO".
Definition REJEITADA : string := "REJEITADA".

Module Produto.
Record t := mk {
  id : Z;
  nome_produto : string;
  preco : Z;
  loja_id : Z;
  quantidade_estoque : Z
}.
Definition com_estoque (q : Z) (p : t) : t :=
  mk (id p) (nome_produto p) (preco p) (loja_id p) q.
End Produto.

Module Carrinho.
Record t := mk {
  id : Z;
  cliente_id : Z;
  produto_id : Z;
  quantidade : Z
}.
Definition com_quantidade (q : Z) (i : t) : t :=
  mk (id i) (cliente_id i) (produto_id i) q.
End Carrinho.

Module ReservaProduto.
Record t := mk {
  id : Z;
  cliente_id : Z;
  loja_id : Z;
  data_reserva : Z;
  status : string;
  data_limite : option Z
}.
Definition com_status (s : string) (r : t) : t :=
  mk (id r) (cliente_id r) (loja_id r) (data_reserva r) s (data_limite r).
End ReservaProduto.

Module ItemReserva.
Record t := mk {
  id : Z;
  reserva_id : Z;
  produto_id : Z;
  quantidade : Z;
  preco_unitario : Z
}.
End ItemReserva.

Module Servico.
Record t := mk {
  id : Z;
  loja_id : Z
}.
End Servico.

Module ServicoHorario.
Record t := mk {
  id : Z;
  servico_id : Z;
  horario : Z;
  is_disponivel : bool
}.
Definition com_disponivel (b : bool) (h : t) : t :=
  mk (id h) (servico_id h) (horario h) b.
End ServicoHorario.

Module ReservaServico.
Record t := mk {
  id : Z;
  cliente_id : Z;
  loja_id : Z;
  servico_id : Z;
  data_horario : Z;
  status : string
}.
Definition com_status (s : string) (r : t) : t :=
  mk (id r) (cliente_id r) (loja_id r) (servico_id r) (data_horario r) s.
End ReservaServico.

(** The database.  [clientes] and [lojas] are kept as their primary keys:
    the handlers below only ask whether a row with a given key exists. *)
Record DB := mkDB {
  clientes : list Z;
  lojas : list Z;
  servicos : list Servico.t;
  produtos : list Produto.t;
  carrinho : list Carrinho.t;
  reservas_produtos : list ReservaProduto.t;
  itens_reserva : list ItemReserva.t;
  servicos_horarios : list ServicoHorario.t;
  reservas_servicos : list ReservaServico.t
}.

Definition db_vazio : DB := mkDB [] [] [] [] [] [] [] [] [].

Definition com_lojas (v : list Z) (d : DB) : DB :=
  mkDB (clientes d) v (servicos d) (produtos d) (carrinho d)
       (reservas_produtos d) (itens_reserva d) (servicos_horarios d)
       (reservas_servicos d).
Definition com_clientes (v : list Z) (d : DB) : DB :=
  mkDB v (lojas d) (servicos d) (produtos d) (carrinho d)
       (reservas_produtos d) (itens_reserva d) (servicos_horarios d)
       (reservas_servicos d).
Definition com_produtos (v : list Produto.t) (d : DB) : DB :=
  mkDB (clientes d) (lojas d) (servicos d) v (carrinho d)
       (reservas_produtos d) (itens_reserva d) (servicos_horarios d)
       (reservas_servicos d).
Definition com_carrinho (v : list Carrinho.t) (d : DB) : DB :=
  mkDB (clientes d) (lojas d) (servicos d) (produtos d) v
       (reservas_produtos d) (itens_reserva d) (servicos_horarios d)
       (reservas_servicos d).
Definition com_reservas_produtos (v : list ReservaProduto.t) (d : DB) : DB :=
  mkDB (clientes d) (lojas d) (servicos d) (produtos d) (carrinho d)
       v (itens_reserva d) (servicos_horarios d) (reservas_servicos d).
Definition com_itens_reserva (v : list ItemReserva.t) (d : DB) : DB :=
  mkDB (clientes d) (lojas d) (servicos d) (produtos d) (carrinho d)
       (reservas_produtos d) v (servicos_horarios d) (reservas_servicos d).
Definition com_servicos_horarios (v : list ServicoHorario.t) (d : DB) : DB :=
  mkDB (clientes d) (lojas d) (servicos d) (produtos d) (carrinho d)
       (reservas_produtos d) (itens_reserva d) v (reservas_servicos d).
Definition com_reservas_servicos (v : list ReservaServico.t) (d : DB) : DB :=
  mkDB (clientes d) (lojas d) (servicos d) (produtos d) (carrinho d)
       (reservas_produtos d) (itens_reserva d) (servicos_horarios d) v.

(** The key the database gives a new row: one more than the largest key of
    the table.  The theorems only use that it is not in the table. *)
Definition next_id (ids : list Z) : Z := 1 + fold_right Z.max 0 ids.

(** [timedelta(days=n)] in microseconds. *)
Definition dias (n : Z) : Z := n * 86400000000.

(** ** Row access by primary key *)

Definition produto_por_id (pid : Z) (ps : list Produto.t) : option Produto.t :=
  find (fun p => Produto.id p =? pid) ps.

Definition gravar_estoque (pid q : Z) (ps : list Produto.t) : list Produto.t :=
  map (fun p => if Produto.id p =? pid then Produto.com_estoque q p else p) ps.

Definition gravar_status_rp (rid : Z) (s : string)
    (rs : list ReservaProduto.t) : list ReservaProduto.t :=
  map (fun r => if ReservaProduto.id r =? rid
                then ReservaProduto.com_status s r else r) rs.

Definition gravar_quantidade (cid q : Z) (cs : list Carrinho.t)
    : list Carrinho.t :=
  map (fun i => if Carrinho.id i =? cid then Carrinho.com_quantidade q i else i) cs.

Definition apagar_carrinho (cid : Z) (cs : list Carrinho.t) : list Carrinho.t :=
  filter (fun i => negb (Carrinho.id i =? cid)) cs.

Definition apagar_produto (pid : Z) (ps : list Produto.t) : list Produto.t :=
  filter (fun p => negb (Produto.id p =? pid)) ps.

Definition existe (k : Z) (ids : list Z) : bool := existsb (Z.eqb k) ids.

(** ** Products *)

Inductive resp_produto :=
| ProdutoLojaNaoEncontrada
| ProdutoCadastrado (produto_id : Z)
| ProdutoNaoEncontrado
| ProdutoRemovido.

(** [cadastrar_produto_com_imagem], after the form and the image have been
    accepted: [preco] is [float(preco)] and [estoque] is
    [int(quantidade_estoque)], any integer the form's text denotes. *)
Definition cadastrar_produto_com_imagem (loja_id : Z) (nome : string)
    (preco estoque : Z) (db : DB) : DB * resp_produto :=
  if existe loja_id (lojas db) then
    let pid := next_id (map Produto.id (produtos db)) in
    (com_produtos (produtos db ++ [Produto.mk pid nome preco loja_id estoque]) db,
     ProdutoCadastrado pid)
  else (db, ProdutoLojaNaoEncontrada).

Definition remover_produto (loja_id produto_id : Z) (db : DB)
    : DB * resp_produto :=
  match find (fun p => (Produto.id p =? produto_id)
                       && (Produto.loja_id p =? loja_id)) (produtos db) with
  | None => (db, ProdutoNaoEncontrado)
  | Some p => (com_produtos (apagar_produto (Produto.id p) (produtos db)) db,
               ProdutoRemovido)
  end.

(** ** Cart *)

Definition itens_do_cliente (cliente_id : Z) (cs : list Carrinho.t)
    : list Carrinho.t :=
  filter (fun i => Carrinho.cliente_id i =? cliente_id) cs.

Inductive resp_carrinho :=
| FaltaProdutoId
| CarrinhoClienteNaoEncontrado
| CarrinhoProdutoNaoEncontrado
| CarrinhoOutraLoja
| QuantidadeAtualizada
| ProdutoAdicionado
| ItemNaoEstaNoCarrinho
| ItemRemovido
| CarrinhoErro500.

(** The end of [adicionar_item_carrinho], from the query for
    [item_existente] on: the line of this customer and product gets [q]
    more, or a new line is inserted. *)
Definition inserir_ou_somar (cliente_id produto_id q : Z) (db : DB)
    : DB * resp_carrinho :=
  match find (fun i => (Carrinho.cliente_id i =? cliente_id)
                       && (Carrinho.produto_id i =? produto_id))
             (carrinho db) with
  | Some item_existente =>
      (com_carrinho
         (gravar_quantidade (Carrinho.id item_existente)
            (Carrinho.quantidade item_existente + q) (carrinho db)) db,
       QuantidadeAtualizada)
  | None =>
      (com_carrinho
         (carrinho db ++
            [Carrinho.mk (next_id (map Carrinho.id (carrinho db)))
                         cliente_id produto_id q]) db,
       ProdutoAdicionado)
  end.

(** [adicionar_item_carrinho]: [quantidade] is the body's optional field,
    1 when absent. *)
Definition adicionar_item_carrinho (cliente_id produto_id : Z)
    (quantidade : option Z) (db : DB) : DB * resp_carrinho :=
  let q := match quantidade with Some q => q | None => 1 end in
  if produto_id =? 0 then (db, FaltaProdutoId) else
  if negb (existe cliente_id (clientes db)) then
    (db, CarrinhoClienteNaoEncontrado) else
  match produto_por_id produto_id (produtos db) with
  | None => (db, CarrinhoProdutoNaoEncontrado)
  | Some produto =>
    match itens_do_cliente cliente_id (carrinho db) with
    | [] => inserir_ou_somar cliente_id produto_id q db
    | primeiro_item :: _ =>
        match produto_por_id (Carrinho.produto_id primeiro_item)
                             (produtos db) with
        | None => (db, CarrinhoErro500)
        | Some produto_primeiro_item =>
            if negb (Produto.loja_id produto_primeiro_item
                     =? Produto.loja_id produto)
            then (db, CarrinhoOutraLoja)
            else inserir_ou_somar cliente_id produto_id q db
        end
    end
  end.

(** [remover_item_carrinho], [produto_id] being the query's
    [int(produto_id)]. *)
Definition remover_item_carrinho (cliente_id produto_id : Z) (db : DB)
    : DB * resp_carrinho :=
  if negb (existe cliente_id (clientes db)) then
    (db, CarrinhoClienteNaoEncontrado) else
  match find (fun i => (Carrinho.cliente_id i =? cliente_id)
                       && (Carrinho.produto_id i =? produto_id))
             (carrinho db) with
  | None => (db, ItemNaoEstaNoCarrinho)
  | Some item =>
      (com_carrinho (apagar_carrinho (Carrinho.id item) (carrinho db)) db,
       ItemRemovido)
  end.

(** ** Checkout *)

Inductive resp_finalizar :=
| CarrinhoVazio
| ProdutoNoCarrinhoNaoExiste
| LojasDiferentes
| EstoqueInsuficiente (nome_produto : string)
| ReservaCriada (reserva_id : Z) (data_limite : Z)
| FinalizarErro500.

(** The validation loop; [loja_id] is the loop's variable of that name. *)
Fixpoint validar_carrinho (ps : list Produto.t) (itens : list Carrinho.t)
    (loja_id : option Z) : resp_finalizar + option Z :=
  match itens with
  | [] => inr loja_id
  | item :: resto =>
      match produto_por_id (Carrinho.produto_id item) ps with
      | None => inl ProdutoNoCarrinhoNaoExiste
      | Some produto =>
          let continuar (l : Z) :=
            if Produto.quantidade_estoque produto <? Carrinho.quantidade item
            then inl (EstoqueInsuficiente (Produto.nome_produto produto))
            else validar_carrinho ps resto (Some l) in
          match loja_id with
          | None => continuar (Produto.loja_id produto)
          | Some l =>
              if negb (Produto.loja_id produto =? l) then inl LojasDiferentes
              else continuar l
          end
      end
  end.

(** "Abater estoque": one commit per line; [None] product is the raise. *)
Fixpoint abater_estoque (itens : list Carrinho.t) (ps : list Produto.t)
    : list Produto.t * bool :=
  match itens with
  | [] => (ps, true)
  | item :: resto =>
      match produto_por_id (Carrinho.produto_id item) ps with
      | None => (ps, false)
      | Some produto =>
          abater_estoque resto
            (gravar_estoque (Produto.id produto)
               (Produto.quantidade_estoque produto - Carrinho.quantidade item)
               ps)
      end
  end.

(** "Criar itens de reserva": the rows added to the session, committed
    together; [acc] is the table as the pending rows will extend it. *)
Fixpoint criar_itens (reserva_id : Z) (ps : list Produto.t)
    (itens : list Carrinho.t) (acc : list ItemReserva.t)
    : option (list ItemReserva.t) :=
  match itens with
  | [] => Some acc
  | item :: resto =>
      match produto_por_id (Carrinho.produto_id item) ps with
      | None => None
      | Some produto =>
          criar_itens reserva_id ps resto
            (acc ++ [ItemReserva.mk (next_id (map ItemReserva.id acc))
                       reserva_id (Produto.id produto)
                       (Carrinho.quantidade item) (Produto.preco produto)])
      end
  end.

(** "Limpar carrinho". *)
Definition limpar_carrinho (itens : list Carrinho.t) (cs : list Carrinho.t)
    : list Carrinho.t :=
  fold_left (fun acc item => apagar_carrinho (Carrinho.id item) acc) itens cs.

Definition finalizar_carrinho (agora : Z) (cliente_id : Z) (db : DB)
    : DB * resp_finalizar :=
  let itens_carrinho := itens_do_cliente cliente_id (carrinho db) in
  match itens_carrinho with
  | [] => (db, CarrinhoVazio)
  | _ =>
    match validar_carrinho (produtos db) itens_carrinho None with
    | inl erro => (db, erro)
    | inr None => (db, FinalizarErro500)
    | inr (Some loja_id) =>
      match abater_estoque itens_carrinho (produtos db) with
      | (ps, false) => (com_produtos ps db, FinalizarErro500)
      | (ps, true) =>
        let db1 := com_produtos ps db in
        let reserva :=
          ReservaProduto.mk
            (next_id (map ReservaProduto.id (reservas_produtos db1)))
            cliente_id loja_id agora RESERVADO (Some (agora + dias 2)) in
        let db2 := com_reservas_produtos (reservas_produtos db1 ++ [reserva]) db1 in
        match criar_itens (ReservaProduto.id reserva) (produtos db2)
                          itens_carrinho (itens_reserva db2) with
        | None => (db2, FinalizarErro500)
        | Some its =>
          let db3 := com_itens_reserva its db2 in
          let db4 := com_carrinho (limpar_carrinho itens_carrinho (carrinho db3)) db3 in
          (db4, ReservaCriada (ReservaProduto.id reserva) (agora + dias 2))
        end
      end
    end
  end.

(** ** Pickup of a product reservation *)

Inductive resp_retirada :=
| ReservaNaoEncontrada
| StatusInvalido
| PassaramQuatroDias
| MarcadaComoRetirada.

(** [marcar_retirada]: the store's path. *)
Definition marcar_retirada (loja_id reserva_id : Z) (db : DB)
    : DB * resp_retirada :=
  match find (fun r => (ReservaProduto.id r =? reserva_id)
                       && (ReservaProduto.loja_id r =? loja_id))
             (reservas_produtos db) with
  | None => (db, ReservaNaoEncontrada)
  | Some reserva =>
      if negb (ReservaProduto.status reserva =? RESERVADO)%string
      then (db, StatusInvalido)
      else (com_reservas_produtos
              (gravar_status_rp (ReservaProduto.id reserva) RETIRADO
                 (reservas_produtos db)) db,
            MarcadaComoRetirada)
  end.

(** [cliente_marcar_retirada]: the customer's path. *)
Definition cliente_marcar_retirada (agora : Z) (cliente_id reserva_id : Z)
    (db : DB) : DB * resp_retirada :=
  match find (fun r => (ReservaProduto.id r =? reserva_id)
                       && (ReservaProduto.cliente_id r =? cliente_id))
             (reservas_produtos db) with
  | None => (db, ReservaNaoEncontrada)
  | Some reserva =>
      if negb (ReservaProduto.status reserva =? RESERVADO)%string
      then (db, StatusInvalido)
      else
        let limite_4_dias := ReservaProduto.data_reserva reserva + dias 4 in
        if limite_4_dias <? agora then (db, PassaramQuatroDias)
        else (com_reservas_produtos
                (gravar_status_rp (ReservaProduto.id reserva) RETIRADO
                   (reservas_produtos db)) db,
              MarcadaComoRetirada)
  end.

(** ** Expiry sweep *)

Inductive resp_expiradas :=
| ExpiradasCanceladas
| ExpiradasErro500.

(** [reserva.itens]. *)
Definition itens_da_reserva (reserva_id : Z) (its : list ItemReserva.t)
    : list ItemReserva.t :=
  filter (fun i => ItemReserva.reserva_id i =? reserva_id) its.

(** The inner loop over [reserva.itens]; [None] is the raise on a missing
    product row. *)
Fixpoint devolver_estoque (itens : list ItemReserva.t) (ps : list Produto.t)
    : option (list Produto.t) :=
  match itens with
  | [] => Some ps
  | item :: resto =>
      match produto_por_id (ItemReserva.produto_id item) ps with
      | None => None
      | Some produto =>
          devolver_estoque resto
            (gravar_estoque (Produto.id produto)
               (Produto.quantidade_estoque produto + ItemReserva.quantidade item)
               ps)
      end
  end.

(** The body of either outer loop, up to its commit. *)
Definition cancelar_uma (reserva : ReservaProduto.t) (db : DB) : option DB :=
  match devolver_estoque
          (itens_da_reserva (ReservaProduto.id reserva) (itens_reserva db))
          (produtos db) with
  | None => None
  | Some ps =>
      Some (com_produtos ps
              (com_reservas_produtos
                 (gravar_status_rp (ReservaProduto.id reserva) CANCELADO
                    (reservas_produtos db)) db))
  end.

(** An outer loop over the rows a query returned; [false] is the raise,
    with the database as of the last commit. *)
Fixpoint cancelar_todas (reservas : list ReservaProduto.t) (db : DB)
    : DB * bool :=
  match reservas with
  | [] => (db, true)
  | reserva :: resto =>
      match cancelar_uma reserva db with
      | None => (db, false)
      | Some db' => cancelar_todas resto db'
      end
  end.

Definition expirada_2dias (loja_id agora : Z) (r : ReservaProduto.t) : bool :=
  (ReservaProduto.loja_id r =? loja_id)
  && (ReservaProduto.status r =? RESERVADO)%string
  && match ReservaProduto.data_limite r with
     | Some limite => limite <? agora
     | None => false
     end.

Definition expirada_4dias (loja_id agora : Z) (r : ReservaProduto.t) : bool :=
  (ReservaProduto.loja_id r =? loja_id)
  && (ReservaProduto.status r =? RESERVADO)%string
  && (ReservaProduto.data_reserva r + dias 4 <? agora).

Definition cancelar_expiradas (agora : Z) (loja_id : Z) (db : DB)
    : DB * resp_expiradas :=
  let reservas_expiradas_2dias :=
    filter (expirada_2dias loja_id agora) (reservas_produtos db) in
  match cancelar_todas reservas_expiradas_2dias db with
  | (db1, false) => (db1, ExpiradasErro500)
  | (db1, true) =>
      let reservas_expiradas_4dias :=
        filter (expirada_4dias loja_id agora) (reservas_produtos db1) in
      match cancelar_todas reservas_expiradas_4dias db1 with
      | (db2, false) => (db2, ExpiradasErro500)
      | (db2, true) => (db2, ExpiradasCanceladas)
      end
  end.

(** ** Service slots *)

Inductive resp_horarios :=
| FaltaListaHorarios
| ServicoNaoEncontradoParaLoja
| HorariosAdicionados.

Definition horario_em (servico_id h : Z) (s : ServicoHorario.t) : bool :=
  (ServicoHorario.servico_id s =? servico_id) && (ServicoHorario.horario s =? h).

Section CriarHorarios.
  (** [SessionLocal] is made in [database.py], which is not part of the
      sources: whether its sessions flush pending rows before a query is
      the flag [autoflush].  [fromisoformat] is [datetime.fromisoformat] on
      a string, [None] when it raises [ValueError]. *)
Variable autoflush : bool.
Variable fromisoformat : string -> option Z.

  (** The loop of [criar_horarios_servico]: [tabela] is the committed
      table, [pendentes] the rows added to the session so far. *)
Fixpoint criar_horarios_loop (servico_id : Z) (horarios : list string)
      (tabela pendentes : list ServicoHorario.t) : list ServicoHorario.t :=
    match horarios with
    | [] => pendentes
    | h_str :: resto =>
        match fromisoformat h_str with
        | None => criar_horarios_loop servico_id resto tabela pendentes
        | Some h =>
            let visiveis := if autoflush then tabela ++ pendentes else tabela in
            match find (horario_em servico_id h) visiveis with
            | Some _ => criar_horarios_loop servico_id resto tabela pendentes
            | None =>
                let novo_horario :=
                  ServicoHorario.mk
                    (next_id (map ServicoHorario.id (tabela ++ pendentes)))
                    servico_id h true in
                criar_horarios_loop servico_id resto tabela
                  (pendentes ++ [novo_horario])
            end
        end
    end.

  (** [horarios] is the body's ["horarios"] list, [None] when the body or
      the key is missing. *)
Definition criar_horarios_servico (loja_id servico_id : Z)
      (horarios : option (list string)) (db : DB) : DB * resp_horarios :=
    match horarios with
    | None => (db, FaltaListaHorarios)
    | Some horarios =>
        match find (fun s => (Servico.id s =? servico_id)
                             && (Servico.loja_id s =? loja_id))
                   (servicos db) with
        | None => (db, ServicoNaoEncontradoParaLoja)
        | Some _ =>
            (com_servicos_horarios
               (servicos_horarios db ++
                  criar_horarios_loop servico_id horarios
                    (servicos_horarios db) []) db,
             HorariosAdicionados)
        end
    end.
End CriarHorarios.

(** ** Service appointments *)

Definition gravar_disponivel (hid : Z) (b : bool)
    (hs : list ServicoHorario.t) : list ServicoHorario.t :=
  map (fun h => if ServicoHorario.id h =? hid
                then ServicoHorario.com_disponivel b h else h) hs.

Definition gravar_status_rs (rid : Z) (s : string)
    (rs : list ReservaServico.t) : list ReservaServico.t :=
  map (fun r => if ReservaServico.id r =? rid
                then ReservaServico.com_status s r else r) rs.

Definition microssegundos_por_dia : Z := 86400000000.

(** [t.date()], as the number of the day. *)
Definition date (t : Z) : Z := t / microssegundos_por_dia.

(** [datetime(d.year, d.month, d.day, hh, mm, ss)] for the day [d]. *)
Definition datetime_do_dia (d hh mm ss : Z) : Z :=
  d * microssegundos_por_dia + (hh * 3600 + mm * 60 + ss) * 1000000.

Inductive resp_agendar :=
| FaltaHorarioId
| AgendarClienteNaoEncontrado
| AgendarServicoNaoEncontrado
| HorarioIndisponivel
| JaTemAgendamentoNesteDia
| ServicoAgendado (reserva_id : Z).

(** [agendar_servico]; [horario_id] is the body's field, 0 standing for
    every value Python takes as false. *)
Definition agendar_servico (cliente_id servico_id horario_id : Z) (db : DB)
    : DB * resp_agendar :=
  if horario_id =? 0 then (db, FaltaHorarioId) else
  if negb (existe cliente_id (clientes db)) then
    (db, AgendarClienteNaoEncontrado) else
  match find (fun s => Servico.id s =? servico_id) (servicos db) with
  | None => (db, AgendarServicoNaoEncontrado)
  | Some servico =>
    match find (fun h => (ServicoHorario.id h =? horario_id)
                         && (ServicoHorario.servico_id h =? servico_id)
                         && ServicoHorario.is_disponivel h)
               (servicos_horarios db) with
    | None => (db, HorarioIndisponivel)
    | Some horario_disponivel =>
      let data_alvo := date (ServicoHorario.horario horario_disponivel) in
      let reservas_mesmo_dia :=
        filter (fun r =>
                  (ReservaServico.cliente_id r =? cliente_id)
                  && (datetime_do_dia data_alvo 0 0 0
                        <=? ReservaServico.data_horario r)
                  && (ReservaServico.data_horario r
                        <=? datetime_do_dia data_alvo 23 59 59))
               (reservas_servicos db) in
      match reservas_mesmo_dia with
      | _ :: _ => (db, JaTemAgendamentoNesteDia)
      | [] =>
        let nova_reserva :=
          ReservaServico.mk
            (next_id (map ReservaServico.id (reservas_servicos db)))
            cliente_id (Servico.loja_id servico) servico_id
            (ServicoHorario.horario horario_disponivel) PENDENTE in
        (com_servicos_horarios
           (gravar_disponivel (ServicoHorario.id horario_disponivel) false
              (servicos_horarios db))
           (com_reservas_servicos (reservas_servicos db ++ [nova_reserva]) db),
         ServicoAgendado (ReservaServico.id nova_reserva))
      end
    end
  end.

Inductive resp_cancelar :=
| CancelarReservaNaoEncontrada
| JaCanceladaOuRejeitada
| MenosDeUmaHora
| StatusNaoCancelavel
| ReservaCancelada.

(** One hour, as [total_seconds() < 3600] reads it: the difference of two
    datetimes is a whole number of microseconds, and its quotient by [10^6]
    is below 3600 exactly when that number is below [3600 * 10^6]. *)
Definition uma_hora : Z := 3600000000.

(** [cancelar_reserva]; [agora] is [datetime.now()]. *)
Definition cancelar_reserva (agora : Z) (cliente_id reserva_id : Z) (db : DB)
    : DB * resp_cancelar :=
  match find (fun r => (ReservaServico.id r =? reserva_id)
                       && (ReservaServico.cliente_id r =? cliente_id))
             (reservas_servicos db) with
  | None => (db, CancelarReservaNaoEncontrada)
  | Some reserva =>
    let st := ReservaServico.status reserva in
    if ((st =? CANCELADO) || (st =? REJEITADA))%string
    then (db, JaCanceladaOuRejeitada) else
    let diferenca := ReservaServico.data_horario reserva - agora in
    if diferenca <? uma_hora then (db, MenosDeUmaHora) else
    if negb ((st =? PENDENTE) || (st =? ACEITO))%string
    then (db, StatusNaoCancelavel) else
    let db1 :=
      com_reservas_servicos
        (gravar_status_rs (ReservaServico.id reserva) CANCELADO
           (reservas_servicos db)) db in
    match find (horario_em (ReservaServico.servico_id reserva)
                           (ReservaServico.data_horario reserva))
               (servicos_horarios db1) with
    | Some horario_disponivel =>
        (com_servicos_horarios
           (gravar_disponivel (ServicoHorario.id horario_disponivel) true
              (servicos_horarios db1)) db1,
         ReservaCancelada)
    | None => (db1, ReservaCancelada)
    end
  end.

(** ** The store as a transition system *)

(** [registrar_loja] and [registrar_cliente] on their success path, seen
    through the primary key: a new row is added. *)
Definition registrar_loja (db : DB) : DB :=
  com_lojas (lojas db ++ [next_id (lojas db)]) db.

Definition registrar_cliente (db : DB) : DB :=
  com_clientes (clientes db ++ [next_id (clientes db)]) db.

Inductive operacao :=
| RegistrarLoja
| RegistrarCliente
| CadastrarProduto (loja_id : Z) (nome : string) (preco estoque : Z)
| RemoverProduto (loja_id produto_id : Z)
| AdicionarItem (cliente_id produto_id : Z) (quantidade : option Z)
| RemoverItem (cliente_id produto_id : Z)
| Finalizar (agora cliente_id : Z)
| MarcarRetirada (loja_id reserva_id : Z)
| ClienteMarcarRetirada (agora cliente_id reserva_id : Z)
| CancelarExpiradas (agora loja_id : Z).

Definition executar (o : operacao) (db : DB) : DB :=
  match o with
  | RegistrarLoja => registrar_loja db
  | RegistrarCliente => registrar_cliente db
  | CadastrarProduto l n p e => fst (cadastrar_produto_com_imagem l n p e db)
  | RemoverProduto l p => fst (remover_produto l p db)
  | AdicionarItem c p q => fst (adicionar_item_carrinho c p q db)
  | RemoverItem c p => fst (remover_item_carrinho c p db)
  | Finalizar a c => fst (finalizar_carrinho a c db)
  | MarcarRetirada l r => fst (marcar_retirada l r db)
  | ClienteMarcarRetirada a c r => fst (cliente_marcar_retirada a c r db)
  | CancelarExpiradas a l => fst (cancelar_expiradas a l db)
  end.

(** The states the empty database reaches through operations allowed by
    [permitida]. *)
Inductive alcancavel (permitida : operacao -> Prop) : DB -> Prop :=
| alcancavel_vazio : alcancavel permitida db_vazio
| alcancavel_passo o db :
    alcancavel permitida db -> permitida o ->
    alcancavel permitida (executar o db).

Definition qualquer (_ : operacao) : Prop := True.

(** The quantities a request brings are not negative. *)
Definition quantidades_nao_negativas (o : operacao) : Prop :=
  match o with
  | CadastrarProduto _ _ _ estoque => 0 <= estoque
  | AdicionarItem _ _ (Some q) => 0 <= q
  | _ => True
  end.

(** ** Vocabulary of the statements *)

Definition soma {A : Type} (f : A -> Z) (l : list A) : Z :=
  fold_right (fun x acc => f x + acc) 0 l.

(** What the lines of a cart ask of the product [pid]. *)
Definition quantidade_pedida (pid : Z) (itens : list Carrinho.t) : Z :=
  soma (fun i => if Carrinho.produto_id i =? pid
                 then Carrinho.quantidade i else 0) itens.

(** What the line items [its] hold of the product [pid]. *)
Definition quantidade_reservada (pid : Z) (its : list ItemReserva.t) : Z :=
  soma (fun i => if ItemReserva.produto_id i =? pid
                 then ItemReserva.quantidade i else 0) its.

(** A reservation the sweep of [loja_id] at [agora] has to cancel. *)
Definition deve_cancelar (loja_id agora : Z) (r : ReservaProduto.t) : bool :=
  expirada_2dias loja_id agora r || expirada_4dias loja_id agora r.

(** What the line items of the reservations [rs] hold of [pid]. *)
Definition quantidade_devolvida (pid : Z) (rs : list ReservaProduto.t)
    (its : list ItemReserva.t) : Z :=
  soma (fun r => quantidade_reservada pid
                   (itens_da_reserva (ReservaProduto.id r) its)) rs.

Definition chave_carrinho (i : Carrinho.t) : Z * Z :=
  (Carrinho.cliente_id i, Carrinho.produto_id i).

(** At most one cart line per customer and product. *)
Definition carrinho_unico (cs : list Carrinho.t) : Prop :=
  NoDup (map chave_carrinho cs).

Definition estoque_nao_negativo (db : DB) : Prop :=
  forall p, In p (produtos db) -> 0 <= Produto.quantidade_estoque p.

(** Primary keys. *)
Definition chaves_produtos (db : DB) : Prop :=
  NoDup (map Produto.id (produtos db)).
Definition chaves_carrinho (db : DB) : Prop :=
  NoDup (map Carrinho.id (carrinho db)).
Definition chaves_reservas_produtos (db : DB) : Prop :=
  NoDup (map ReservaProduto.id (reservas_produtos db)).

(** The foreign key [itens_reserva.produto_id -> produtos.id] on the line
    items of the reservations a sweep would cancel. *)
Definition itens_com_produto (loja_id agora : Z) (db : DB) : Prop :=
  forall r it,
    In r (reservas_produtos db) -> deve_cancelar loja_id agora r = true ->
    In it (itens_reserva db) ->
    ItemReserva.reserva_id it = ReservaProduto.id r ->
    exists p, In p (produtos db) /\ Produto.id p = ItemReserva.produto_id it.

(** A run of stock adjustments [(produto_id, delta)], the common shape of
    the loops that take stock and that give it back. *)
Fixpoint ajustar (ds : list (Z * Z)) (ps : list Produto.t)
    : option (list Produto.t) :=
  match ds with
  | [] => Some ps
  | (pid, d) :: resto =>
      match produto_por_id pid ps with
      | None => None
      | Some produto =>
          ajustar resto
            (gravar_estoque (Produto.id produto)
               (Produto.quantidade_estoque produto + d) ps)
      end
  end.

Definition ajuste_total (pid : Z) (ds : list (Z * Z)) : Z :=
  soma (fun d => if fst d =? pid then snd d else 0) ds.

(** ** Vocabulary of the proofs and example databases *)

(** Customer 1 has 2 bikes in the cart. *)
Definition db_exemplo_carrinho : DB :=
  mkDB [1] [1] [] [Produto.mk 1 "bike" 100 1 5; Produto.mk 2 "capacete" 30 1 4]
       [Carrinho.mk 1 1 1 2] [] [] [] [].

(** What makes a cart fail the validation loop. *)
Definition lojas_misturadas (ps : list Produto.t) (cart : list Carrinho.t) : Prop :=
  exists i j p q,
    In i cart /\ In j cart
    /\ produto_por_id (Carrinho.produto_id i) ps = Some p
    /\ produto_por_id (Carrinho.produto_id j) ps = Some q
    /\ Produto.loja_id p <> Produto.loja_id q.

Definition estoque_insuficiente (ps : list Produto.t) (cart : list Carrinho.t)
    (nome : string) : Prop :=
  exists i p,
    In i cart /\ produto_por_id (Carrinho.produto_id i) ps = Some p
    /\ Produto.quantidade_estoque p < Carrinho.quantidade i
    /\ Produto.nome_produto p = nome.

Definition falha_de_validacao (ps : list Produto.t) (cart : list Carrinho.t)
    (e : resp_finalizar) : Prop :=
  e = ProdutoNoCarrinhoNaoExiste
  \/ (e = LojasDiferentes /\ lojas_misturadas ps cart)
  \/ (exists nome, e = EstoqueInsuficiente nome
                   /\ estoque_insuficiente ps cart nome).

(** What a new line item keeps of the cart line it comes from. *)
Definition item_da_linha (reserva_id : Z) (ps : list Produto.t)
    (linha : Carrinho.t) (it : ItemReserva.t) : Prop :=
  ItemReserva.reserva_id it = reserva_id
  /\ ItemReserva.produto_id it = Carrinho.produto_id linha
  /\ ItemReserva.quantidade it = Carrinho.quantidade linha
  /\ exists p, produto_por_id (Carrinho.produto_id linha) ps = Some p
               /\ ItemReserva.preco_unitario it = Produto.preco p.

Definition esta_em (r : ReservaProduto.t) (l : list ReservaProduto.t) : bool :=
  existsb (fun d => ReservaProduto.id d =? ReservaProduto.id r) l.

(** The reservations table once the reservations [feitas] are cancelled. *)
Definition cancelar_em (feitas rs : list ReservaProduto.t)
    : list ReservaProduto.t :=
  map (fun r => if esta_em r feitas
                then ReservaProduto.com_status CANCELADO r else r) rs.

(** A predicate of the sweep's queries: it asks for RESERVADO. *)
Definition pede_reservado (pred : ReservaProduto.t -> bool) : Prop :=
  forall r, pred (ReservaProduto.com_status CANCELADO r) = false.

(** The line items of the reservations [L] name products of the table. *)
Definition itens_tem_produto (L : list ReservaProduto.t) (db : DB) : Prop :=
  forall r it,
    In r L -> In it (itens_reserva db) ->
    ItemReserva.reserva_id it = ReservaProduto.id r ->
    exists p, In p (produtos db) /\ Produto.id p = ItemReserva.produto_id it.

(** 28 March 2025, in days since 0001-01-01. *)
Definition dia_exemplo : Z := 739337.
Definition horario_noite : Z := datetime_do_dia dia_exemplo 23 59 59 + 500000.
Definition horario_manha : Z := datetime_do_dia dia_exemplo 10 0 0.

(** A customer, two services of one store, a slot of the first at
    23:59:59.5 and a slot of the second at 10:00:00 of the same day. *)
Definition db_exemplo_agenda : DB :=
  mkDB [1] [1] [Servico.mk 1 1; Servico.mk 2 1] [] [] [] []
       [ServicoHorario.mk 1 1 horario_noite true;
        ServicoHorario.mk 2 2 horario_manha true] [].

Definition chaves_reservas_servicos (db : DB) : Prop :=
  NoDup (map ReservaServico.id (reservas_servicos db)).

Definition minutos (n : Z) : Z := n * 60000000.

(** The invariant carried along the reachable states. *)
Definition invariante (db : DB) : Prop :=
  estoque_nao_negativo db
  /\ carrinho_unico (carrinho db)
  /\ (forall i, In i (carrinho db) -> 0 <= Carrinho.quantidade i)
  /\ (forall it, In it (itens_reserva db) -> 0 <= ItemReserva.quantidade it).

(** Stocks registered non-negative can still fall below zero through a
    cart line of negative quantity: customer 1 reserves -3 of a product
    of stock 2 (stock 5), customer 2 reserves 5 three days later (stock
    0), and the sweep gives the first reservation's -3 back. *)
Definition operacoes_quantidade_negativa : list operacao :=
  [RegistrarLoja; RegistrarCliente; RegistrarCliente;
   CadastrarProduto 1 "bike" 100 2;
   AdicionarItem 1 1 (Some (-3)); Finalizar 0 1;
   AdicionarItem 2 1 (Some 5); Finalizar (dias 3) 2;
   CancelarExpiradas (dias 3 + 1) 1].

(** Store 1 sells a bike (stock 5) and a helmet (stock 4); customer 1 has
    3 bikes and 1 helmet in the cart, customer 2 has 1 bike. *)
Definition db_exemplo_checkout : DB :=
  mkDB [1; 2] [1; 2] []
       [Produto.mk 1 "bike" 100 1 5; Produto.mk 2 "capacete" 30 1 4;
        Produto.mk 3 "luva" 10 2 7]
       [Carrinho.mk 1 1 1 3; Carrinho.mk 2 2 1 1; Carrinho.mk 3 1 2 1]
       [] [] [] [].

(** Customer 1 holds a bike of store 1 and a glove of store 2; customer 2
    asks for 9 helmets of a stock of 4. *)
Definition db_exemplo_falha : DB :=
  mkDB [1; 2] [1; 2] []
       [Produto.mk 1 "bike" 100 1 5; Produto.mk 2 "capacete" 30 1 4;
        Produto.mk 3 "luva" 10 2 7]
       [Carrinho.mk 1 1 1 3; Carrinho.mk 2 1 3 1; Carrinho.mk 3 2 2 9]
       [] [] [] [].

Definition db_exemplo_alcancavel : DB :=
  executar (CadastrarProduto 1 "bike" 100 5) (executar RegistrarLoja db_vazio).

(** Store 1 at the clock [dias 5]: reservation 1 (created at 0) is past its
    limit, 2 was picked up, 3 (created at [dias 4]) is not yet due, 4 has
    no limit and is past the four days; reservation 5 is of store 2. *)
Definition db_exemplo_expiradas : DB :=
  mkDB [1; 2] [1; 2] []
       [Produto.mk 1 "bike" 100 1 2; Produto.mk 2 "capacete" 30 1 0;
        Produto.mk 3 "luva" 10 2 7]
       []
       [ReservaProduto.mk 1 1 1 0 RESERVADO (Some (dias 2));
        ReservaProduto.mk 2 1 1 0 RETIRADO (Some (dias 2));
        ReservaProduto.mk 3 2 1 (dias 4) RESERVADO (Some (dias 6));
        ReservaProduto.mk 4 2 1 0 RESERVADO None;
        ReservaProduto.mk 5 1 2 0 RESERVADO (Some (dias 2))]
       [ItemReserva.mk 1 1 1 3 100; ItemReserva.mk 2 1 2 1 30;
        ItemReserva.mk 3 2 1 1 100; ItemReserva.mk 4 3 2 2 30;
        ItemReserva.mk 5 4 1 1 100; ItemReserva.mk 6 5 3 1 10]
       [] [].

Definition reserva_exemplo : ReservaProduto.t :=
  ReservaProduto.mk 3 2 1 (dias 4) RESERVADO (Some (dias 6)).

(** Customer 1 holds a pending appointment of service 1 at 10:00:00, whose
    slot is taken. *)
Definition agendamento_exemplo : ReservaServico.t :=
  ReservaServico.mk 1 1 1 1 horario_manha PENDENTE.

Definition db_exemplo_cancelar : DB :=
  mkDB [1] [1] [Servico.mk 1 1] [] [] [] []
       [ServicoHorario.mk 1 1 horario_manha false] [agendamento_exemplo].

(** A fragment of [datetime.fromisoformat], enough for the examples. *)
Definition fromisoformat_exemplo (s : string) : option Z :=
  if (s =? "2025-03-28T13:00:00")%string
  then Some (datetime_do_dia dia_exemplo 13 0 0)
  else if (s =? "2025-03-28 13:00:00")%string
  then Some (datetime_do_dia dia_exemplo 13 0 0)
  else if (s =? "2025-03-28T14:00:00")%string
  then Some (datetime_do_dia dia_exemplo 14 0 0)
  else None.

Definition horarios_exemplo : list string :=
  ["2025-03-28T13:00:00"; "amanha"; "2025-03-28 13:00:00";
   "2025-03-28T14:00:00"]%string.

Definition db_exemplo_horarios : DB :=
  mkDB [] [1] [Servico.mk 1 1] [] [] [] []
       [ServicoHorario.mk 1 1 (datetime_do_dia dia_exemplo 14 0 0) false] [].

(** ** Handlers beside the reservation core *)

Inductive resp_decisao :=
| DecisaoReservaNaoEncontrada
| JaEstaAceita
| JaEstaRejeitada
| ReservaAceita
| ReservaRejeitada.

(** [aceitar_reserva]: the store accepts an appointment. *)
Definition aceitar_reserva (reserva_id : Z) (db : DB) : DB * resp_decisao :=
  match find (fun r => ReservaServico.id r =? reserva_id)
             (reservas_servicos db) with
  | None => (db, DecisaoReservaNaoEncontrada)
  | Some reserva =>
      if (ReservaServico.status reserva =? ACEITO)%string
      then (db, JaEstaAceita)
      else (com_reservas_servicos
              (gravar_status_rs (ReservaServico.id reserva) ACEITO
                 (reservas_servicos db)) db,
            ReservaAceita)
  end.


(** [listar_horarios_disponiveis]: the pairs [(horario_id, datahora)] of
    the answer. *)
Definition listar_horarios_disponiveis (servico_id : Z) (db : DB)
    : list (Z * Z) :=
  map (fun h => (ServicoHorario.id h, ServicoHorario.horario h))
      (filter (fun h => (ServicoHorario.servico_id h =? servico_id)
                        && ServicoHorario.is_disponivel h)
              (servicos_horarios db)).

(** [listar_horarios_servico]: the triples [(id, horario, is_disponivel)]
    of the answer, [None] for the 404. *)
Definition listar_horarios_servico (loja_id servico_id : Z) (db : DB)
    : option (list (Z * Z * bool)) :=
  match find (fun s => (Servico.id s =? servico_id)
                       && (Servico.loja_id s =? loja_id)) (servicos db) with
  | None => None
  | Some _ =>
      Some (map (fun h => (ServicoHorario.id h, ServicoHorario.horario h,
                           ServicoHorario.is_disponivel h))
                (filter (fun h => ServicoHorario.servico_id h =? servico_id)
                        (servicos_horarios db)))
  end.

(** [ver_agenda_cliente]: the rows behind the answer. *)
Definition ver_agenda_cliente (cliente_id : Z) (db : DB)
    : list ReservaServico.t :=
  filter (fun r => ReservaServico.cliente_id r =? cliente_id)
         (reservas_servicos db).

(** [ver_agenda_reservas]: the rows behind the answer, [None] for the 404. *)
Definition ver_agenda_reservas (loja_id : Z) (db : DB)
    : option (list ReservaServico.t) :=
  if existe loja_id (lojas db)
  then Some (filter (fun r => ReservaServico.loja_id r =? loja_id)
                    (reservas_servicos db))
  else None.

(** [listar_produtos_loja]: the rows behind the answer, [None] for the 404. *)
Definition listar_produtos_loja (loja_id : Z) (db : DB)
    : option (list Produto.t) :=
  if existe loja_id (lojas db)
  then Some (filter (fun p => Produto.loja_id p =? loja_id) (produtos db))
  else None.

(** ** Customer accounts

    The [clientes] table with the columns registration and login read.
    [hash_password] draws a salt, so it is a function of the salt too;
    [verify_password] is passlib's check of a password against a digest. *)

Module Cliente.
Record t := mk {
  id : Z;
  nome : string;
  idade : Z;
  cpf : string;
  senha_hash : string
}.
End Cliente.

Inductive resp_conta :=
| DadosIncompletos
| CpfJaCadastrado
| ClienteRegistrado (cliente_id : Z)
| CpfNaoEncontrado
| SenhaIncorreta
| LoginRealizado (cliente_id : Z).

Definition vazia (s : string) : bool := (s =? "")%string.

Module Contas.
Section Senhas.
Variable hash_password : string -> string -> string.
Variable verify_password : string -> string -> bool.

(** [registrar_cliente]; [idade] is the body's field, 0 standing for
    every value Python takes as false, and [sal] the salt the hash draws. *)
Definition registrar_cliente (sal nome : string) (idade : Z)
    (cpf senha : string) (cs : list Cliente.t) : list Cliente.t * resp_conta :=
  if vazia nome || (idade =? 0) || vazia cpf || vazia senha
  then (cs, DadosIncompletos)
  else
    match find (fun c => (Cliente.cpf c =? cpf)%string) cs with
    | Some _ => (cs, CpfJaCadastrado)
    | None =>
        let novo_cliente :=
          Cliente.mk (next_id (map Cliente.id cs)) nome idade cpf
                     (hash_password sal senha) in
        (cs ++ [novo_cliente], ClienteRegistrado (Cliente.id novo_cliente))
    end.

(** [login_cliente]. *)
Definition login_cliente (cpf senha : string) (cs : list Cliente.t)
    : resp_conta :=
  if vazia cpf || vazia senha then DadosIncompletos
  else
    match find (fun c => (Cliente.cpf c =? cpf)%string) cs with
    | None => CpfNaoEncontrado
    | Some cliente_db =>
        if negb (verify_password senha (Cliente.senha_hash cliente_db))
        then SenhaIncorreta
        else LoginRealizado (Cliente.id cliente_db)
    end.
End Senhas.
End Contas.

(** ** Vocabulary of the further properties *)

Definition chaves_itens_reserva (db : DB) : Prop :=
  NoDup (map ItemReserva.id (itens_reserva db)).

Definition chaves_horarios (db : DB) : Prop :=
  NoDup (map ServicoHorario.id (servicos_horarios db)).

(** The foreign key [itens_reserva.reserva_id -> reservas_produtos.id]. *)
Definition itens_com_reserva (db : DB) : Prop :=
  forall it, In it (itens_reserva db) ->
    In (ItemReserva.reserva_id it) (map ReservaProduto.id (reservas_produtos db)).

(** Every line of the cart [cart] names an existing product of store [l]. *)
Definition carrinho_da_loja (ps : list Produto.t) (cart : list Carrinho.t)
    (l : Z) : Prop :=
  forall i, In i cart ->
    exists p, produto_por_id (Carrinho.produto_id i) ps = Some p
              /\ Produto.loja_id p = l.

(** A status a product reservation does not leave. *)
Definition status_final (s : string) : Prop := s = RETIRADO \/ s = CANCELADO.

(** Every operation but the removal of a product. *)
Definition sem_remocao_de_produto (o : operacao) : Prop :=
  match o with
  | RemoverProduto _ _ => False
  | _ => True
  end.

(** The foreign keys to [produtos.id], of cart lines and of line items. *)
Definition referencias_a_produtos (db : DB) : Prop :=
  (forall i, In i (carrinho db) ->
     In (Carrinho.produto_id i) (map Produto.id (produtos db)))
  /\ (forall it, In it (itens_reserva db) ->
        In (ItemReserva.produto_id it) (map Produto.id (produtos db))).

(** At most one slot per service and timestamp. *)
Definition horarios_unicos (hs : list ServicoHorario.t) : Prop :=
  NoDup (map (fun h => (ServicoHorario.servico_id h, ServicoHorario.horario h)) hs).

Definition cpfs_unicos (cs : list Cliente.t) : Prop :=
  NoDup (map Cliente.cpf cs).

(** The primary keys of the tables the reservation core writes. *)
Definition chaves_primarias (db : DB) : Prop :=
  chaves_produtos db /\ chaves_carrinho db
  /\ chaves_reservas_produtos db /\ chaves_itens_reserva db.

(** A stand-in for passlib in the examples: the digest is the salt's
    first character (or the zero character) followed by the password, and the check compares the
    digest's tail with the password. *)
Definition hash_exemplo (sal senha : string) : string :=
  match sal with
  | EmptyString => String Ascii.zero senha
  | String a _ => String a senha
  end.

Definition verify_exemplo (senha digest : string) : bool :=
  match digest with
  | EmptyString => false
  | String _ resto => (senha =? resto)%string
  end.

Definition reserva_retirada_exemplo : ReservaProduto.t :=
  ReservaProduto.mk 2 1 1 0 RETIRADO (Some (dias 2)).

(** ** Further example data *)

(** A run of requests from a state. *)
Definition executar_todas (ops : list operacao) (db : DB) : DB :=
  fold_left (fun d o => executar o d) ops db.

(** Customer 1 reserves 2 bikes and a helmet at the clock 0; customer 2
    reserves a bike a day later and the store hands it over; customer 1
    then puts 2 helmets in the cart.  No product is removed. *)
Definition operacoes_exemplo_reservas : list operacao :=
  [RegistrarLoja; RegistrarCliente; RegistrarCliente;
   CadastrarProduto 1 "bike" 100 5; CadastrarProduto 1 "capacete" 30 4;
   AdicionarItem 1 1 (Some 2); AdicionarItem 1 2 None; Finalizar 0 1;
   AdicionarItem 2 1 (Some 1); Finalizar 86400000000 2;
   AdicionarItem 1 2 (Some 2); MarcarRetirada 1 2].

Definition db_exemplo_reservas : DB :=
  executar_todas operacoes_exemplo_reservas db_vazio.

(** The same requests, after which a cart line is removed, the bike is
    taken off the catalogue while two reservations hold it, gloves are
    registered, customer 2 reserves helmets and picks them up, and
    customer 1 puts gloves in the cart. *)
Definition operacoes_exemplo_geral : list operacao :=
  operacoes_exemplo_reservas
  ++ [RemoverItem 1 2; AdicionarItem 2 2 (Some 3); RemoverProduto 1 1;
      CadastrarProduto 1 "luva" 10 7; AdicionarItem 1 3 None;
      Finalizar 172800000000 2; ClienteMarcarRetirada 259200000000 2 3].

Definition db_exemplo_geral : DB :=
  executar_todas operacoes_exemplo_geral db_vazio.



(** Two registered customers. *)
Definition clientes_exemplo : list Cliente.t :=
  [Cliente.mk 1 "Ana" 30 "123" (hash_exemplo "a" "segredo");
   Cliente.mk 2 "Bia" 25 "456" (hash_exemplo "b" "senha")].

(** The appointment of [db_exemplo_cancelar] when its service has no slot
    at 10:00:00, only one at 23:59:59.5. *)
Definition db_exemplo_sem_horario : DB :=
  mkDB [1] [1] [Servico.mk 1 1] [] [] [] []
       [ServicoHorario.mk 1 1 horario_noite false] [agendamento_exemplo].

(** The same appointment once the store has rejected it. *)
Definition db_exemplo_rejeitada : DB :=
  mkDB [1] [1] [Servico.mk 1 1] [] [] [] []
       [ServicoHorario.mk 1 1 horario_manha false]
       [ReservaServico.mk 1 1 1 1 horario_manha "REJEITADA"].

(** Store 1 offers the services 1 and 2, store 2 the service 3.  Customer
    2 holds the slot of service 1; customer 1 holds an appointment of
    service 3 on the day before and the slot 2 of service 2 is free. *)
Definition db_exemplo_agendas : DB :=
  mkDB [1; 2] [1; 2] [Servico.mk 1 1; Servico.mk 2 1; Servico.mk 3 2] [] [] [] []
       [ServicoHorario.mk 1 1 horario_noite false;
        ServicoHorario.mk 2 2 horario_manha true;
        ServicoHorario.mk 3 3 (horario_manha - 86400000000) false]
       [ReservaServico.mk 1 2 1 1 horario_noite "ACEITO";
        ReservaServico.mk 2 1 2 3 (horario_manha - 86400000000) "PENDENTE"].

(** ** Basic facts *)

Lemma next_id_maior (ids : list Z) (x : Z) : In x ids -> x < next_id ids.
Proof.
  unfold next_id. induction ids as [|y ys IH]; cbn [fold_right In]; [easy|].
  intros [->|H]; [lia|]. specialize (IH H). lia.
Qed.

Lemma next_id_novo (ids : list Z) : ~ In (next_id ids) ids.
Proof. intros H. apply next_id_maior in H. lia. Qed.

Lemma com_estoque_mesmo (p : Produto.t) :
  Produto.com_estoque (Produto.quantidade_estoque p) p = p.
Proof. now destruct p. Qed.

Lemma produto_por_id_Some pid ps p :
  produto_por_id pid ps = Some p -> In p ps /\ Produto.id p = pid.
Proof.
  unfold produto_por_id. intros H. apply find_some in H.
  destruct H as [H1 H2]. split; [easy|lia].
Qed.

Lemma produto_por_id_NoDup ps p :
  NoDup (map Produto.id ps) -> In p ps ->
  produto_por_id (Produto.id p) ps = Some p.
Proof.
  unfold produto_por_id. induction ps as [|x xs IH]; simpl; [easy|].
  intros Hnd Hin. inversion Hnd as [|? ? Hx Hxs]; subst.
  destruct Hin as [->|Hin]; [now rewrite Z.eqb_refl|].
  destruct (Produto.id x =? Produto.id p) eqn:E; [|now apply IH].
  exfalso. apply Hx. apply Z.eqb_eq in E. rewrite E. now apply in_map.
Qed.

Lemma produto_por_id_existe ps pid :
  (exists p, In p ps /\ Produto.id p = pid) ->
  exists p, produto_por_id pid ps = Some p.
Proof.
  intros [p [Hin Hid]]. unfold produto_por_id.
  destruct (find (fun p0 => Produto.id p0 =? pid) ps) eqn:E; [eauto|].
  exfalso. eapply find_none in E; [|exact Hin]. simpl in E. lia.
Qed.

Lemma gravar_estoque_ids pid q ps :
  map Produto.id (gravar_estoque pid q ps) = map Produto.id ps.
Proof.
  unfold gravar_estoque. rewrite map_map. apply map_ext.
  intros p. now destruct (Produto.id p =? pid).
Qed.

Lemma soma_app {A} (f : A -> Z) l1 l2 :
  soma f (l1 ++ l2) = soma f l1 + soma f l2.
Proof. unfold soma. induction l1; simpl; lia. Qed.

Lemma soma_nao_negativa {A} (f : A -> Z) l :
  (forall x, In x l -> 0 <= f x) -> 0 <= soma f l.
Proof.
  unfold soma. induction l as [|x xs IH]; simpl; intros H; [lia|].
  assert (0 <= f x) by (apply H; now left).
  assert (0 <= fold_right (fun x acc => f x + acc) 0 xs)
    by (apply IH; intros; apply H; now right).
  lia.
Qed.

(** A run of adjustments on a table with unique keys, every adjusted
    product present: each row moves by the total of its adjustments. *)
Lemma ajustar_total ds : forall ps,
  NoDup (map Produto.id ps) ->
  (forall d, In d ds -> exists p, In p ps /\ Produto.id p = fst d) ->
  ajustar ds ps =
    Some (map (fun p => Produto.com_estoque
                          (Produto.quantidade_estoque p
                           + ajuste_total (Produto.id p) ds) p) ps).
Proof.
  induction ds as [|[pid d] ds IH]; intros ps Hnd Hex; simpl.
  - f_equal. rewrite <- (map_id ps) at 1. apply map_ext.
    intros p. unfold ajuste_total; simpl.
    now rewrite Z.add_0_r, com_estoque_mesmo.
  - destruct (produto_por_id_existe ps pid) as [p0 Hp0].
    { destruct (Hex (pid, d)) as [p Hp]; [now left|]. now exists p. }
    rewrite Hp0. apply produto_por_id_Some in Hp0 as Hp0'.
    destruct Hp0' as [Hin0 Hid0].
    rewrite IH.
    + f_equal. unfold gravar_estoque. rewrite map_map.
      apply map_ext_in. intros p Hp.
      unfold ajuste_total; simpl.
      destruct (Produto.id p =? Produto.id p0) eqn:E.
      * apply Z.eqb_eq in E.
        assert (p = p0).
        { pose proof (produto_por_id_NoDup ps p Hnd Hp) as H1.
          pose proof (produto_por_id_NoDup ps p0 Hnd Hin0) as H2.
          rewrite E in H1. congruence. }
        subst p pid. rewrite Z.eqb_refl.
        destruct p0; unfold Produto.com_estoque; simpl. f_equal. lia.
      * assert ((pid =? Produto.id p) = false) as ->.
        { apply Z.eqb_neq. apply Z.eqb_neq in E. congruence. }
        reflexivity.
    + now rewrite gravar_estoque_ids.
    + intros d' Hd'. destruct (Hex d') as [p [Hp Hid]]; [now right|].
      unfold gravar_estoque.
      exists (if Produto.id p =? Produto.id p0
              then Produto.com_estoque (Produto.quantidade_estoque p0 + d) p
              else p).
      split.
      * apply in_map_iff. exists p. split; [reflexivity|exact Hp].
      * now destruct (Produto.id p =? Produto.id p0).
Qed.

(** Case analysis on the next [match] or [if] of the goal. *)
Ltac quebrar :=
  match goal with
  | |- context [match ?x with _ => _ end] =>
      first [is_var x; destruct x | destruct x eqn:?]
  end.

(** ** The cart holds one line per customer and product *)

Lemma NoDup_map_filter {A B} (f : A -> B) (g : A -> bool) l :
  NoDup (map f l) -> NoDup (map f (filter g l)).
Proof.
  induction l as [|x xs IH]; simpl; [easy|].
  intros H. inversion H as [|? ? Hx Hxs]; subst.
  destruct (g x); simpl; [|now apply IH].
  constructor; [|now apply IH].
  intros Hin. apply Hx. apply in_map_iff in Hin.
  destruct Hin as [y [Hy Hin]]. apply filter_In in Hin.
  apply in_map_iff. exists y. tauto.
Qed.

Lemma gravar_quantidade_chaves cid q cs :
  map chave_carrinho (gravar_quantidade cid q cs) = map chave_carrinho cs.
Proof.
  unfold gravar_quantidade. rewrite map_map. apply map_ext.
  intros i. now destruct (Carrinho.id i =? cid).
Qed.

Lemma limpar_carrinho_filter itens : forall cs,
  limpar_carrinho itens cs =
  filter (fun i => negb (existsb (fun j => Carrinho.id i =? Carrinho.id j) itens)) cs.
Proof.
  unfold limpar_carrinho.
  induction itens as [|j js IH]; intros cs; simpl.
  - induction cs as [|x xs IHx]; simpl; [easy|]. now rewrite <- IHx.
  - rewrite IH. unfold apagar_carrinho.
    induction cs as [|x xs IHx]; simpl; [easy|].
    destruct (Carrinho.id x =? Carrinho.id j); simpl.
    + exact IHx.
    + destruct (existsb _ js); simpl; [exact IHx|now rewrite IHx].
Qed.


Lemma inserir_ou_somar_unico c pid q db :
  carrinho_unico (carrinho db) ->
  carrinho_unico (carrinho (fst (inserir_ou_somar c pid q db))).
Proof.
  intros Hu. unfold inserir_ou_somar.
  destruct (find _ (carrinho db)) eqn:E; simpl.
  - unfold carrinho_unico. now rewrite gravar_quantidade_chaves.
  - unfold carrinho_unico. rewrite map_app. simpl.
    apply NoDup_app; repeat split; [exact Hu|repeat constructor; easy|].
    intros k Hk [<-|[]]. apply in_map_iff in Hk.
    destruct Hk as [i [Hi Hin]]. eapply find_none in E; [|exact Hin].
    unfold chave_carrinho in Hi. inversion Hi as [[H1 H2]].
    simpl in E. rewrite H1, H2, !Z.eqb_refl in E. discriminate.
Qed.




Lemma NoDup_map_igual {A B} (f : A -> B) l x y :
  NoDup (map f l) -> In x l -> In y l -> f x = f y -> x = y.
Proof.
  induction l as [|z zs IH]; simpl; [easy|].
  intros H Hx Hy E. inversion H as [|? ? Hz Hzs]; subst.
  destruct Hx as [->|Hx], Hy as [->|Hy]; try easy.
  - exfalso. apply Hz. rewrite E. now apply in_map.
  - exfalso. apply Hz. rewrite <- E. now apply in_map.
  - now apply IH.
Qed.

(** A decided closed [NoDup]. *)
Ltac chaves_distintas :=
  repeat (constructor; [simpl; intuition (try discriminate; try lia)|]);
  constructor.




(** ** Checkout *)

Lemma validar_inr ps itens : forall lo x,
  validar_carrinho ps itens lo = inr x ->
  (lo <> None -> x = lo)
  /\ forall i, In i itens ->
       exists p, produto_por_id (Carrinho.produto_id i) ps = Some p
                 /\ x = Some (Produto.loja_id p)
                 /\ Carrinho.quantidade i <= Produto.quantidade_estoque p.
Proof.
  induction itens as [|i rest IH]; intros lo x H; simpl in H.
  - inversion H; subst. split; [easy|]. intros i [].
  - destruct (produto_por_id (Carrinho.produto_id i) ps) as [p|] eqn:Ep;
      [|discriminate].
    destruct lo as [l|].
    + destruct (Produto.loja_id p =? l) eqn:El; simpl in H; [|discriminate].
      destruct (Produto.quantidade_estoque p <? Carrinho.quantidade i) eqn:Eq;
        [discriminate|].
      apply IH in H. destruct H as [Hx Hall].
      assert (x = Some l) by (apply Hx; discriminate). subst x.
      split; [easy|]. intros j [<-|Hj]; [|now apply Hall].
      exists p. apply Z.eqb_eq in El. apply Z.ltb_ge in Eq.
      repeat split; [exact Ep|congruence|lia].
    + destruct (Produto.quantidade_estoque p <? Carrinho.quantidade i) eqn:Eq;
        [discriminate|].
      apply IH in H. destruct H as [Hx Hall].
      assert (x = Some (Produto.loja_id p)) by (apply Hx; discriminate).
      subst x. split; [easy|]. intros j [<-|Hj]; [|now apply Hall].
      exists p. apply Z.ltb_ge in Eq. repeat split; [exact Ep|lia].
Qed.

Lemma validar_sucesso ps itens l : forall lo,
  lo = None \/ lo = Some l ->
  (forall i, In i itens ->
     exists p, produto_por_id (Carrinho.produto_id i) ps = Some p
               /\ Produto.loja_id p = l
               /\ Carrinho.quantidade i <= Produto.quantidade_estoque p) ->
  validar_carrinho ps itens lo
  = inr (match itens with [] => lo | _ => Some l end).
Proof.
  induction itens as [|i rest IH]; intros lo Hlo Hall; simpl; [easy|].
  destruct (Hall i) as [p [Ep [El Eq]]]; [now left|]. rewrite Ep.
  assert ((Produto.quantidade_estoque p <? Carrinho.quantidade i) = false)
    as Eq' by (apply Z.ltb_ge; lia).
  assert (Hrest : validar_carrinho ps rest (Some l) = inr (Some l)).
  { rewrite IH; [now destruct rest|now right|].
    intros j Hj. apply Hall. now right. }
  destruct Hlo as [->| ->].
  - now rewrite Eq', El.
  - rewrite El, Z.eqb_refl. simpl. now rewrite Eq'.
Qed.

Lemma validar_inl_com_loja ps itens : forall l e,
  validar_carrinho ps itens (Some l) = inl e ->
  e = ProdutoNoCarrinhoNaoExiste
  \/ (e = LojasDiferentes
      /\ exists j q, In j itens
           /\ produto_por_id (Carrinho.produto_id j) ps = Some q
           /\ Produto.loja_id q <> l)
  \/ (exists nome, e = EstoqueInsuficiente nome
                   /\ estoque_insuficiente ps itens nome).
Proof.
  induction itens as [|i rest IH]; intros l e H; simpl in H; [discriminate|].
  destruct (produto_por_id (Carrinho.produto_id i) ps) as [p|] eqn:Ep.
  2:{ left. congruence. }
  destruct (Produto.loja_id p =? l) eqn:El; simpl in H.
  2:{ right; left. split; [congruence|]. exists i, p.
      apply Z.eqb_neq in El. repeat split; [now left|exact Ep|exact El]. }
  destruct (Produto.quantidade_estoque p <? Carrinho.quantidade i) eqn:Eq.
  { right; right. exists (Produto.nome_produto p). split; [congruence|].
    exists i, p. apply Z.ltb_lt in Eq.
    repeat split; [now left|exact Ep|exact Eq]. }
  apply IH in H. destruct H as [H|[[H [j [q [Hj [Hq Hl]]]]]|[n [H Hn]]]].
  - now left.
  - right; left. split; [exact H|]. exists j, q.
    repeat split; [now right|exact Hq|exact Hl].
  - right; right. exists n. split; [exact H|].
    destruct Hn as [j [q [Hj Hrest]]]. exists j, q. split; [now right|exact Hrest].
Qed.

Lemma validar_inl ps itens e :
  validar_carrinho ps itens None = inl e -> falha_de_validacao ps itens e.
Proof.
  unfold falha_de_validacao.
  destruct itens as [|i rest]; simpl; [discriminate|].
  destruct (produto_por_id (Carrinho.produto_id i) ps) as [p|] eqn:Ep.
  2:{ left. congruence. }
  destruct (Produto.quantidade_estoque p <? Carrinho.quantidade i) eqn:Eq.
  { intros H. right; right. exists (Produto.nome_produto p).
    split; [congruence|]. exists i, p. apply Z.ltb_lt in Eq.
    repeat split; [now left|exact Ep|exact Eq]. }
  intros H. apply validar_inl_com_loja in H.
  destruct H as [H|[[H [j [q [Hj [Hq Hl]]]]]|[n [H Hn]]]].
  - now left.
  - right; left. split; [exact H|]. exists j, i, q, p.
    repeat split; [now right|now left|exact Hq|exact Ep|exact Hl].
  - right; right. exists n. split; [exact H|].
    destruct Hn as [j [q [Hj Hrest]]]. exists j, q. split; [now right|exact Hrest].
Qed.

(** C2.  A checkout that fails leaves everything as it was: when two lines
    of the customer's cart name products of different stores, or a line
    asks more than its product's stock, the checkout answers an error of
    the validation loop and returns the database it was given; and whenever
    it answers "different stores" or "insufficient stock for product n",
    the database is the one it was given, the cart does hold two lines of
    different stores, respectively a line asking more than the stock of a
    product named n. *)
Theorem finalizar_carrinho_tudo_ou_nada agora c db :
  let cart := itens_do_cliente c (carrinho db) in
  (lojas_misturadas (produtos db) cart
   \/ (exists nome, estoque_insuficiente (produtos db) cart nome) ->
   exists erro,
     finalizar_carrinho agora c db = (db, erro)
     /\ falha_de_validacao (produtos db) cart erro)
  /\ (forall db' erro,
        finalizar_carrinho agora c db = (db', erro) ->
        erro = LojasDiferentes \/ (exists nome, erro = EstoqueInsuficiente nome) ->
        db' = db /\ falha_de_validacao (produtos db) cart erro).
Proof.
  intros cart. split.
  - intros Hfalha. unfold finalizar_carrinho. fold cart.
    destruct (validar_carrinho (produtos db) cart None) as [e|x] eqn:Ev.
    + exists e. split; [now destruct cart|now apply validar_inl].
    + exfalso. apply validar_inr in Ev. destruct Ev as [_ Hall].
      destruct Hfalha as [[i [j [p [q [Hi [Hj [Hp [Hq Hne]]]]]]]]
                         |[n [i [p [Hi [Hp [Hlt _]]]]]]].
      * destruct (Hall i Hi) as [p' [Hp' [Hx _]]].
        destruct (Hall j Hj) as [q' [Hq' [Hy _]]]. congruence.
      * destruct (Hall i Hi) as [p' [Hp' [_ Hle]]].
        assert (p' = p) by congruence. subst. lia.
  - intros db' erro. unfold finalizar_carrinho. fold cart.
    destruct cart as [|i0 rest] eqn:Ec.
    { intros H [->|[n ->]]; inversion H. }
    rewrite <- Ec.
    destruct (validar_carrinho (produtos db) cart None) as [e|[l|]] eqn:Ev.
    + intros H _. inversion H; subst. split; [easy|now apply validar_inl].
    + destruct (abater_estoque cart (produtos db)) as [ps [|]].
      * destruct (criar_itens _ _ _ _);
          intros H [->|[n ->]]; inversion H.
      * intros H [->|[n ->]]; inversion H.
    + intros H [->|[n ->]]; inversion H.
Qed.

Lemma abater_ajustar cart : forall ps ps',
  ajustar (map (fun i => (Carrinho.produto_id i, - Carrinho.quantidade i)) cart) ps
  = Some ps' ->
  abater_estoque cart ps = (ps', true).
Proof.
  induction cart as [|i rest IH]; intros ps ps' H; simpl in *.
  - congruence.
  - destruct (produto_por_id (Carrinho.produto_id i) ps) as [p|];
      [|discriminate].
    apply IH. exact H.
Qed.

Lemma ajuste_total_pedida pid cart :
  ajuste_total pid
    (map (fun i => (Carrinho.produto_id i, - Carrinho.quantidade i)) cart)
  = - quantidade_pedida pid cart.
Proof.
  unfold ajuste_total, quantidade_pedida, soma.
  induction cart as [|i rest IH]; simpl; [easy|].
  rewrite IH. destruct (Carrinho.produto_id i =? pid); lia.
Qed.

Lemma produto_por_id_map (g : Produto.t -> Z) pid ps :
  produto_por_id pid (map (fun p => Produto.com_estoque (g p) p) ps)
  = option_map (fun p => Produto.com_estoque (g p) p) (produto_por_id pid ps).
Proof.
  unfold produto_por_id. induction ps as [|x xs IH]; simpl; [easy|].
  destruct (Produto.id x =? pid); simpl; [easy|exact IH].
Qed.

Lemma criar_itens_ok rid (g : Produto.t -> Z) ps cart : forall acc,
  (forall i, In i cart ->
     exists p, produto_por_id (Carrinho.produto_id i) ps = Some p) ->
  exists novos,
    criar_itens rid (map (fun p => Produto.com_estoque (g p) p) ps) cart acc
    = Some (acc ++ novos)
    /\ Forall2 (item_da_linha rid ps) cart novos.
Proof.
  induction cart as [|i rest IH]; intros acc Hall; simpl.
  - exists []. rewrite app_nil_r. split; [easy|constructor].
  - destruct (Hall i) as [p Hp]; [now left|].
    rewrite produto_por_id_map, Hp. simpl.
    edestruct IH as [novos [E F]]; [intros j Hj; apply Hall; now right|].
    rewrite E. eexists (_ :: novos). rewrite <- app_assoc. simpl.
    split; [reflexivity|]. constructor; [|exact F].
    unfold item_da_linha; simpl. apply produto_por_id_Some in Hp as Hp'.
    destruct Hp' as [_ Hid]. repeat split; [exact Hid|]. now exists p.
Qed.

Lemma limpar_carrinho_do_cliente c cs :
  NoDup (map Carrinho.id cs) ->
  limpar_carrinho (itens_do_cliente c cs) cs
  = filter (fun i => negb (Carrinho.cliente_id i =? c)) cs.
Proof.
  intros Hnd. rewrite limpar_carrinho_filter. apply filter_ext_in.
  intros i Hi. f_equal.
  destruct (Carrinho.cliente_id i =? c) eqn:E.
  - apply existsb_exists. exists i. split; [|apply Z.eqb_refl].
    apply filter_In. now split.
  - destruct (existsb _ _) eqn:Ex; [|easy].
    apply existsb_exists in Ex. destruct Ex as [j [Hj Hij]].
    apply filter_In in Hj. destruct Hj as [Hj Hc]. apply Z.eqb_eq in Hij.
    assert (i = j) by (eapply NoDup_map_igual; eauto). subst. congruence.
Qed.

Lemma criar_itens_acrescenta rid ps cart : forall acc its,
  criar_itens rid ps cart acc = Some its -> exists novos, its = acc ++ novos.
Proof.
  induction cart as [|i rest IH]; intros acc its H; simpl in H.
  - inversion H; subst. exists []. now rewrite app_nil_r.
  - destruct (produto_por_id (Carrinho.produto_id i) ps); [|discriminate].
    apply IH in H. destruct H as [novos ->]. rewrite <- app_assoc. eauto.
Qed.

Lemma cancelar_todas_itens L : forall db,
  itens_reserva (fst (cancelar_todas L db)) = itens_reserva db.
Proof.
  induction L as [|r rest IH]; intros db; simpl; [easy|].
  destruct (cancelar_uma r db) as [db1|] eqn:E; [|easy].
  rewrite IH. unfold cancelar_uma in E.
  destruct (devolver_estoque _ _); [|discriminate]. now inversion E.
Qed.

(** No operation rewrites or deletes a line item: the table only grows. *)
Lemma itens_reserva_so_cresce o db :
  exists novos, itens_reserva (executar o db) = itens_reserva db ++ novos.
Proof.
  assert (Hnada : forall d : DB,
            itens_reserva d = itens_reserva db ->
            exists novos, itens_reserva d = itens_reserva db ++ novos).
  { intros d ->. exists []. now rewrite app_nil_r. }
  destruct o; simpl.
  - now apply Hnada.
  - now apply Hnada.
  - apply Hnada. unfold cadastrar_produto_com_imagem. now quebrar.
  - apply Hnada. unfold remover_produto. now quebrar.
  - apply Hnada. unfold adicionar_item_carrinho, inserir_ou_somar.
    repeat (quebrar; simpl; try easy).
  - apply Hnada. unfold remover_item_carrinho. repeat (quebrar; simpl; try easy).
  - unfold finalizar_carrinho.
    set (cart := itens_do_cliente cliente_id (carrinho db)).
    destruct cart as [|i0 rest] eqn:Ec; [now apply Hnada|]. rewrite <- Ec.
    destruct (validar_carrinho (produtos db) cart None) as [e|[l|]];
      try (now apply Hnada).
    destruct (abater_estoque cart (produtos db)) as [ps [|]];
      [|now apply Hnada].
    cbn [produtos com_reservas_produtos com_produtos itens_reserva
         reservas_produtos].
    destruct (criar_itens _ ps cart (itens_reserva db)) as [its|] eqn:Ei;
      [|now apply Hnada].
    apply criar_itens_acrescenta in Ei. destruct Ei as [novos ->].
    now exists novos.
  - apply Hnada. unfold marcar_retirada. repeat (quebrar; simpl; try easy).
  - apply Hnada. unfold cliente_marcar_retirada.
    repeat (quebrar; simpl; try easy).
  - apply Hnada. unfold cancelar_expiradas.
    pose proof (cancelar_todas_itens
                  (filter (expirada_2dias loja_id agora) (reservas_produtos db))
                  db) as H1.
    destruct (cancelar_todas _ db) as [db1 [|]]; simpl in H1; [|exact H1].
    pose proof (cancelar_todas_itens
                  (filter (expirada_4dias loja_id agora) (reservas_produtos db1))
                  db1) as H2.
    destruct (cancelar_todas _ db1) as [db2 [|]]; simpl in *; congruence.
Qed.

(** ** Pickup *)

Lemma find_por_chave {A} (key : A -> Z) (g : A -> bool) l x :
  NoDup (map key l) -> In x l -> g x = true ->
  find (fun y => (key y =? key x) && g y) l = Some x.
Proof.
  induction l as [|z zs IH]; simpl; [easy|].
  intros Hnd Hin Hg. inversion Hnd as [|? ? Hz Hzs]; subst.
  destruct Hin as [->|Hin]; [now rewrite Z.eqb_refl, Hg|].
  destruct (key z =? key x) eqn:E; simpl; [|now apply IH].
  exfalso. apply Hz. apply Z.eqb_eq in E. rewrite E. now apply in_map.
Qed.

Lemma gravar_status_rp_In rid s rs r :
  In r rs -> ReservaProduto.id r = rid ->
  In (ReservaProduto.com_status s r) (gravar_status_rp rid s rs).
Proof.
  intros Hin Hid. unfold gravar_status_rp. apply in_map_iff.
  exists r. split; [|exact Hin]. now rewrite Hid, Z.eqb_refl.
Qed.

Lemma gravar_status_rp_outras rid s rs x :
  In x rs -> ReservaProduto.id x <> rid -> In x (gravar_status_rp rid s rs).
Proof.
  intros Hin Hid. unfold gravar_status_rp. apply in_map_iff.
  exists x. split; [|exact Hin].
  apply Z.eqb_neq in Hid. now rewrite Hid.
Qed.

(** ** Expiry sweep *)

Lemma expirada_2dias_pede l a : pede_reservado (expirada_2dias l a).
Proof.
  intros r. unfold expirada_2dias. simpl.
  now rewrite andb_false_r.
Qed.

Lemma expirada_4dias_pede l a : pede_reservado (expirada_4dias l a).
Proof.
  intros r. unfold expirada_4dias. simpl.
  now rewrite andb_false_r.
Qed.

Lemma cancelar_em_nil rs : cancelar_em [] rs = rs.
Proof. unfold cancelar_em. simpl. apply map_id. Qed.

Lemma cancelar_em_cons r feitas rs :
  cancelar_em feitas (gravar_status_rp (ReservaProduto.id r) CANCELADO rs)
  = cancelar_em (r :: feitas) rs.
Proof.
  unfold cancelar_em, gravar_status_rp. rewrite map_map. apply map_ext.
  intros x. unfold esta_em. simpl. rewrite (Z.eqb_sym (ReservaProduto.id r)).
  destruct (ReservaProduto.id x =? ReservaProduto.id r); simpl;
    now destruct (existsb _ feitas).
Qed.

Lemma cancelar_em_ids feitas rs :
  map ReservaProduto.id (cancelar_em feitas rs) = map ReservaProduto.id rs.
Proof.
  unfold cancelar_em. rewrite map_map. apply map_ext.
  intros r. now destruct (esta_em r feitas).
Qed.

(** The shape of a loop of the sweep: a prefix of the rows is cancelled,
    and a raise comes from the first row left. *)
Lemma cancelar_todas_forma L : forall db db' ok,
  cancelar_todas L db = (db', ok) ->
  exists feitas resto,
    L = feitas ++ resto
    /\ reservas_produtos db' = cancelar_em feitas (reservas_produtos db)
    /\ (ok = true -> resto = [])
    /\ (ok = false ->
        exists r resto', resto = r :: resto' /\ cancelar_uma r db' = None).
Proof.
  induction L as [|r rest IH]; intros db db' ok H; simpl in H.
  - inversion H; subst. exists [], []. rewrite cancelar_em_nil.
    split; [reflexivity|]. split; [reflexivity|]. split; [easy|discriminate].
  - destruct (cancelar_uma r db) as [db1|] eqn:E1.
    + apply IH in H. destruct H as [feitas [resto [HL [Hr [Hok Hfail]]]]].
      exists (r :: feitas), resto. subst rest. split; [easy|].
      split; [|easy]. rewrite Hr. unfold cancelar_uma in E1.
      destruct (devolver_estoque _ _); [|discriminate].
      inversion E1; subst. simpl. apply cancelar_em_cons.
    + inversion H; subst. exists [], (r :: rest). rewrite cancelar_em_nil.
      split; [reflexivity|]. split; [reflexivity|]. split; [discriminate|].
      intros _. now exists r, rest.
Qed.

Lemma filter_cancelar_em pred feitas rs :
  pede_reservado pred ->
  filter pred (cancelar_em feitas rs)
  = filter (fun r => pred r && negb (esta_em r feitas)) rs.
Proof.
  intros Hp. unfold cancelar_em.
  induction rs as [|x xs IH]; simpl; [easy|].
  destruct (esta_em x feitas); simpl.
  - now rewrite Hp, andb_false_r.
  - rewrite andb_true_r. destruct (pred x); [now rewrite IH|exact IH].
Qed.

Lemma filter_e {A} (f g : A -> bool) l :
  filter (fun x => f x && g x) l = filter g (filter f l).
Proof.
  induction l as [|x xs IH]; simpl; [easy|].
  destruct (f x); simpl; [|exact IH]. destruct (g x); now rewrite IH.
Qed.

Lemma filter_nenhum {A} (g : A -> bool) l :
  (forall x, In x l -> g x = false) -> filter g l = [].
Proof.
  induction l as [|x xs IH]; simpl; intros H; [easy|].
  rewrite (H x) by now left. apply IH. intros y Hy. apply H. now right.
Qed.

Lemma filter_todos {A} (g : A -> bool) l :
  (forall x, In x l -> g x = true) -> filter g l = l.
Proof.
  induction l as [|x xs IH]; simpl; intros H; [easy|].
  rewrite (H x) by now left. f_equal. apply IH. intros y Hy. apply H. now right.
Qed.

Lemma esta_em_In r l : In r l -> esta_em r l = true.
Proof.
  intros H. unfold esta_em. apply existsb_exists. exists r.
  split; [exact H|apply Z.eqb_refl].
Qed.

(** After a loop over the rows [filter pred rs], the same query returns
    the rows the loop did not reach. *)
Lemma filter_apos_cancelar pred rs feitas resto :
  pede_reservado pred ->
  NoDup (map ReservaProduto.id rs) ->
  filter pred rs = feitas ++ resto ->
  filter pred (cancelar_em feitas rs) = resto.
Proof.
  intros Hp Hnd HL. rewrite filter_cancelar_em by exact Hp.
  rewrite filter_e, HL, filter_app.
  assert (Hnd' : NoDup (map ReservaProduto.id (feitas ++ resto))).
  { rewrite <- HL. now apply NoDup_map_filter. }
  assert (H1 : filter (fun r => negb (esta_em r feitas)) feitas = []).
  { apply filter_nenhum.
    intros x Hx. apply negb_false_iff. now apply esta_em_In. }
  assert (H2 : filter (fun r => negb (esta_em r feitas)) resto = resto).
  { apply filter_todos.
    intros x Hx. apply negb_true_iff.
    destruct (esta_em x feitas) eqn:E; [|easy]. exfalso.
    apply existsb_exists in E. destruct E as [d [Hd Hid]].
    apply Z.eqb_eq in Hid. rewrite map_app in Hnd'.
    assert (In (ReservaProduto.id x) (map ReservaProduto.id feitas))
      by (rewrite <- Hid; now apply in_map).
    assert (In (ReservaProduto.id x) (map ReservaProduto.id resto))
      by now apply in_map.
    clear - Hnd' H H0.
    induction (map ReservaProduto.id feitas) as [|k ks IH]; simpl in *; [easy|].
    inversion Hnd' as [|? ? Hk Hks]; subst. destruct H as [->|H].
    + apply Hk. apply in_or_app. now right.
    + now apply IH. }
  now rewrite H1, H2.
Qed.

(** One loop of the sweep, run again on its own result, stops where it
    stopped and changes nothing. *)
Lemma cancelar_todas_de_novo pred db db' ok :
  pede_reservado pred -> chaves_reservas_produtos db ->
  cancelar_todas (filter pred (reservas_produtos db)) db = (db', ok) ->
  cancelar_todas (filter pred (reservas_produtos db')) db' = (db', ok)
  /\ chaves_reservas_produtos db'
  /\ (ok = true -> filter pred (reservas_produtos db') = [])
  /\ exists feitas, reservas_produtos db' = cancelar_em feitas (reservas_produtos db).
Proof.
  intros Hp Hk H. apply cancelar_todas_forma in H.
  destruct H as [feitas [resto [HL [Hr [Hok Hfail]]]]].
  assert (Hf : filter pred (reservas_produtos db') = resto).
  { rewrite Hr. now apply filter_apos_cancelar. }
  rewrite Hf. repeat split.
  - destruct ok.
    + now rewrite Hok.
    + destruct Hfail as [r [resto' [-> Hnone]]]; [easy|]. simpl. now rewrite Hnone.
  - unfold chaves_reservas_produtos. now rewrite Hr, cancelar_em_ids.
  - exact Hok.
  - now exists feitas.
Qed.

(** C5.  With the reservations' keys unique, the sweep run a second time
    for the same store at the same clock reading returns the database and
    the answer of the first run: no status and no stock moves again. *)
Theorem cancelar_expiradas_idempotente agora loja_id db :
  chaves_reservas_produtos db ->
  cancelar_expiradas agora loja_id (fst (cancelar_expiradas agora loja_id db))
  = cancelar_expiradas agora loja_id db.
Proof.
  intros Hk. unfold cancelar_expiradas at 2 3.
  destruct (cancelar_todas (filter (expirada_2dias loja_id agora)
                              (reservas_produtos db)) db) as [db1 ok1] eqn:E1.
  apply cancelar_todas_de_novo in E1 as [E1 [Hk1 [Hv1 _]]];
    [|apply expirada_2dias_pede|exact Hk].
  destruct ok1.
  - destruct (cancelar_todas (filter (expirada_4dias loja_id agora)
                                (reservas_produtos db1)) db1) as [db2 ok2] eqn:E2.
    apply cancelar_todas_de_novo in E2 as [E2 [Hk2 [Hv2 [feitas Hr2]]]];
      [|apply expirada_4dias_pede|exact Hk1].
    assert (H2d : filter (expirada_2dias loja_id agora) (reservas_produtos db2) = []).
    { rewrite Hr2, filter_cancelar_em by apply expirada_2dias_pede.
      rewrite filter_e, Hv1; easy. }
    assert (Hrun : cancelar_expiradas agora loja_id db2
                   = (db2, if ok2 then ExpiradasCanceladas
                           else ExpiradasErro500)).
    { unfold cancelar_expiradas. rewrite H2d. simpl. rewrite E2. now destruct ok2. }
    destruct ok2; simpl; exact Hrun.
  - simpl. unfold cancelar_expiradas. now rewrite E1.
Qed.

Lemma devolver_ajustar its : forall ps,
  devolver_estoque its ps
  = ajustar (map (fun it => (ItemReserva.produto_id it, ItemReserva.quantidade it))
                 its) ps.
Proof.
  induction its as [|it rest IH]; intros ps; simpl; [easy|].
  destruct (produto_por_id (ItemReserva.produto_id it) ps); [apply IH|easy].
Qed.

Lemma ajuste_total_reservada pid its :
  ajuste_total pid
    (map (fun it => (ItemReserva.produto_id it, ItemReserva.quantidade it)) its)
  = quantidade_reservada pid its.
Proof.
  unfold ajuste_total, quantidade_reservada, soma.
  induction its as [|it rest IH]; simpl; [easy|]. now rewrite IH.
Qed.

Lemma db_eta db :
  com_produtos (produtos db) (com_reservas_produtos (reservas_produtos db) db) = db.
Proof. now destruct db. Qed.

Lemma cancelar_todas_total L : forall db,
  chaves_produtos db -> itens_tem_produto L db ->
  cancelar_todas L db =
    (com_produtos
       (map (fun p => Produto.com_estoque
                        (Produto.quantidade_estoque p
                         + quantidade_devolvida (Produto.id p) L (itens_reserva db))
                        p) (produtos db))
       (com_reservas_produtos (cancelar_em L (reservas_produtos db)) db),
     true).
Proof.
  induction L as [|r rest IH]; intros db Hk Hi; cbn [cancelar_todas].
  - assert (E : map (fun p => Produto.com_estoque
                                (Produto.quantidade_estoque p
                                 + quantidade_devolvida (Produto.id p) []
                                     (itens_reserva db)) p) (produtos db)
                = produtos db).
    { erewrite map_ext; [apply map_id|]. intros p.
      unfold quantidade_devolvida, soma; simpl.
      now rewrite Z.add_0_r, com_estoque_mesmo. }
    now rewrite E, cancelar_em_nil, db_eta.
  - unfold cancelar_uma. rewrite devolver_ajustar, ajustar_total.
    2:{ exact Hk. }
    2:{ intros d Hd. apply in_map_iff in Hd. destruct Hd as [it [<- Hit]].
        apply filter_In in Hit. destruct Hit as [Hit Hr]. apply Z.eqb_eq in Hr.
        simpl. apply (Hi r it); [now left|exact Hit|exact Hr]. }
    rewrite IH.
    + f_equal. unfold com_produtos, com_reservas_produtos; simpl.
      f_equal.
      * rewrite map_map. apply map_ext. intros p.
        rewrite ajuste_total_reservada.
        unfold quantidade_devolvida, soma; simpl.
        destruct p; unfold Produto.com_estoque; simpl. f_equal. lia.
      * apply cancelar_em_cons.
    + unfold chaves_produtos in *; simpl. rewrite map_map. simpl.
      exact Hk.
    + intros r' it Hr' Hit Hid. simpl in *.
      destruct (Hi r' it) as [p [Hp Hpid]]; [now right|exact Hit|exact Hid|].
      eexists. split; [apply in_map; exact Hp|exact Hpid].
Qed.

Lemma esta_em_filter pred rs r :
  NoDup (map ReservaProduto.id rs) -> In r rs ->
  esta_em r (filter pred rs) = pred r.
Proof.
  intros Hnd Hin. destruct (pred r) eqn:E.
  - apply esta_em_In. apply filter_In. now split.
  - destruct (esta_em r (filter pred rs)) eqn:Ee; [|easy].
    apply existsb_exists in Ee. destruct Ee as [d [Hd Hid]].
    apply filter_In in Hd. destruct Hd as [Hd Hp]. apply Z.eqb_eq in Hid.
    assert (d = r) by (eapply NoDup_map_igual; eauto). subst. congruence.
Qed.

Lemma soma_filter_ou {A} (f : A -> Z) (a b : A -> bool) l :
  soma f (filter (fun x => a x || b x) l)
  = soma f (filter a l) + soma f (filter (fun x => b x && negb (a x)) l).
Proof.
  unfold soma. induction l as [|x xs IH]; simpl; [easy|].
  destruct (a x), (b x); simpl; lia.
Qed.


(** ** Booking a service *)

(** C7, at the failing input.  The customer books the slot of 23:59:59.5
    and then the slot of 10:00:00 of the same calendar day: both bookings
    are accepted, and the customer holds two appointments on that day. *)
Theorem agendar_servico_duas_vezes_no_mesmo_dia :
  date horario_noite = date horario_manha
  /\ snd (agendar_servico 1 1 1 db_exemplo_agenda) = ServicoAgendado 1
  /\ snd (agendar_servico 1 2 2 (fst (agendar_servico 1 1 1 db_exemplo_agenda)))
     = ServicoAgendado 2
  /\ reservas_servicos
       (fst (agendar_servico 1 2 2 (fst (agendar_servico 1 1 1 db_exemplo_agenda))))
     = [ReservaServico.mk 1 1 1 1 horario_noite PENDENTE;
        ReservaServico.mk 2 1 1 2 horario_manha PENDENTE].
Proof. vm_compute. repeat split. Qed.

(** What [agendar_servico] does decide on: an appointment of the customer
    between 00:00:00 and 23:59:59 of the slot's day, both included, in any
    status, refuses the booking; with none, the booking is made. *)
Lemma agendar_servico_janela c sid hid db s h :
  hid <> 0 -> existe c (clientes db) = true ->
  find (fun x => Servico.id x =? sid) (servicos db) = Some s ->
  find (fun x => (ServicoHorario.id x =? hid)
                 && (ServicoHorario.servico_id x =? sid)
                 && ServicoHorario.is_disponivel x) (servicos_horarios db)
    = Some h ->
  let d := date (ServicoHorario.horario h) in
  ((exists r, In r (reservas_servicos db)
              /\ ReservaServico.cliente_id r = c
              /\ datetime_do_dia d 0 0 0 <= ReservaServico.data_horario r
                 <= datetime_do_dia d 23 59 59) ->
   agendar_servico c sid hid db = (db, JaTemAgendamentoNesteDia))
  /\ ((forall r, In r (reservas_servicos db) ->
         ReservaServico.cliente_id r = c ->
         ~ (datetime_do_dia d 0 0 0 <= ReservaServico.data_horario r
            <= datetime_do_dia d 23 59 59)) ->
      let rid := next_id (map ReservaServico.id (reservas_servicos db)) in
      agendar_servico c sid hid db =
        (com_servicos_horarios
           (gravar_disponivel (ServicoHorario.id h) false (servicos_horarios db))
           (com_reservas_servicos
              (reservas_servicos db
                 ++ [ReservaServico.mk rid c (Servico.loja_id s) sid
                       (ServicoHorario.horario h) PENDENTE]) db),
         ServicoAgendado rid)).
Proof.
  intros Hh Hc Hs Hf d. unfold agendar_servico.
  assert ((hid =? 0) = false) as -> by now apply Z.eqb_neq.
  rewrite Hc, Hs, Hf. simpl. fold d. split.
  - intros [r [Hr [Hrc [H1 H2]]]].
    destruct (filter _ (reservas_servicos db)) as [|x xs] eqn:E; [|easy].
    exfalso. assert (In r []) as []. rewrite <- E. apply filter_In.
    split; [exact Hr|]. rewrite !andb_true_iff.
    repeat split; [now apply Z.eqb_eq|now apply Z.leb_le|now apply Z.leb_le].
  - intros Hnone.
    rewrite filter_nenhum; [reflexivity|].
    intros r Hr.
    destruct (ReservaServico.cliente_id r =? c) eqn:E1; [|easy].
    destruct (datetime_do_dia d 0 0 0 <=? ReservaServico.data_horario r) eqn:E2;
      [|easy].
    destruct (ReservaServico.data_horario r <=? datetime_do_dia d 23 59 59) eqn:E3;
      [|easy].
    exfalso. apply (Hnone r Hr); [now apply Z.eqb_eq|].
    split; [now apply Z.leb_le|now apply Z.leb_le].
Qed.

(** ** Creating slots *)

Section CriarHorariosProps.
Variable autoflush : bool.
Variable fromisoformat : string -> option Z.
Variable servico_id : Z.

  (** What the loop adds: [novos], after the rows already pending. *)
Lemma criar_horarios_loop_spec hs : forall tabela pend,
    exists novos,
      criar_horarios_loop autoflush fromisoformat servico_id hs tabela pend
      = pend ++ novos
      /\ (forall n, In n novos ->
            ServicoHorario.servico_id n = servico_id
            /\ ServicoHorario.is_disponivel n = true
            /\ (exists h_str, In h_str hs
                  /\ fromisoformat h_str = Some (ServicoHorario.horario n))
            /\ find (horario_em servico_id (ServicoHorario.horario n)) tabela = None
            /\ (autoflush = true ->
                find (horario_em servico_id (ServicoHorario.horario n)) pend = None))
      /\ (forall h_str h, In h_str hs -> fromisoformat h_str = Some h ->
            exists x, In x (tabela ++ pend ++ novos)
                      /\ horario_em servico_id h x = true)
      /\ (autoflush = true ->
          forall h, (List.length (filter (horario_em servico_id h) novos) <= 1)%nat).
  Proof.
    induction hs as [|h_str resto IH]; intros tabela pend.
    - exists []. rewrite app_nil_r. repeat split; try easy. simpl; lia.
    - cbn [criar_horarios_loop].
      destruct (fromisoformat h_str) as [h|] eqn:Ep.
      2:{ destruct (IH tabela pend) as [novos [E [Hn [Hc Hd]]]].
          exists novos. split; [exact E|]. split; [|split; [|exact Hd]].
          - intros n Hin. destruct (Hn n Hin) as [A [B [[s [Hs1 Hs2]] D]]].
            repeat split; try easy. exists s. split; [now right|exact Hs2].
          - intros s h [<-|Hs] Hp; [congruence|]. now apply (Hc s h). }
      destruct (find (horario_em servico_id h)
                     (if autoflush then tabela ++ pend else tabela))
        as [x|] eqn:Ef.
      + destruct (IH tabela pend) as [novos [E [Hn [Hc Hd]]]].
        exists novos. split; [exact E|]. split; [|split; [|exact Hd]].
        * intros n Hin. destruct (Hn n Hin) as [A [B [[s [Hs1 Hs2]] D]]].
          repeat split; try easy. exists s. split; [now right|exact Hs2].
        * intros s h' [<-|Hs] Hp; [|now apply (Hc s h')].
          assert (h' = h) by congruence. subst h'.
          apply find_some in Ef. destruct Ef as [Hx1 Hx2].
          exists x. split; [|exact Hx2].
          destruct autoflush.
          -- rewrite app_assoc. apply in_or_app. now left.
          -- apply in_or_app. now left.
      + set (novo := ServicoHorario.mk
                       (next_id (map ServicoHorario.id (tabela ++ pend)))
                       servico_id h true).
        destruct (IH tabela (pend ++ [novo])) as [novos [E [Hn [Hc Hd]]]].
        exists (novo :: novos). split.
        { rewrite E, <- app_assoc. reflexivity. }
        assert (Hnovo : horario_em servico_id h novo = true).
        { unfold horario_em; simpl. now rewrite !Z.eqb_refl. }
        assert (Htab : find (horario_em servico_id h) tabela = None).
        { destruct autoflush; [|exact Ef].
          destruct (find (horario_em servico_id h) tabela) as [y|] eqn:Ey; [|easy].
          apply find_some in Ey. destruct Ey as [Hy1 Hy2].
          eapply find_none in Ef; [|apply in_or_app; left; exact Hy1].
          congruence. }
        split; [|split].
        * intros n [<-|Hin].
          -- simpl. repeat split; try easy.
             ++ exists h_str. split; [now left|exact Ep].
             ++ intros ->.
                destruct (find (horario_em servico_id h) pend) as [y|] eqn:Ey;
                  [|easy].
                apply find_some in Ey. destruct Ey as [Hy1 Hy2].
                eapply find_none in Ef; [|apply in_or_app; right; exact Hy1].
                congruence.
          -- destruct (Hn n Hin) as [A [B [[s [Hs1 Hs2]] [D F]]]].
             repeat split; try easy.
             ++ exists s. split; [now right|exact Hs2].
             ++ intros Haf. specialize (F Haf).
                destruct (find (horario_em servico_id (ServicoHorario.horario n))
                               pend) as [y|] eqn:Ey; [|easy].
                apply find_some in Ey. destruct Ey as [Hy1 Hy2].
                eapply find_none in F; [|apply in_or_app; left; exact Hy1].
                congruence.
        * intros s h' [<-|Hs] Hp.
          -- assert (h' = h) by congruence. subst h'.
             exists novo. split; [|exact Hnovo].
             apply in_or_app; right. apply in_or_app; right. now left.
          -- destruct (Hc s h' Hs Hp) as [x [Hx1 Hx2]].
             exists x. split; [|exact Hx2].
             rewrite <- app_assoc in Hx1. exact Hx1.
        * intros Haf h'. simpl.
          destruct (horario_em servico_id h' novo) eqn:En; [|now apply Hd].
          simpl. rewrite filter_nenhum; [simpl; lia|].
          intros n Hin. destruct (Hn n Hin) as [A [_ [_ [_ F]]]].
          specialize (F Haf).
          destruct (horario_em servico_id h' n) eqn:E'; [|easy].
          eapply find_none in F; [|apply in_or_app; right; now left].
          unfold horario_em in *. simpl in *.
          rewrite Z.eqb_refl in *. simpl in *.
          apply andb_true_iff in E'. destruct E' as [_ E'].
          apply Z.eqb_eq in En, E'. rewrite E', <- En, Z.eqb_refl in F.
          discriminate.
  Qed.

  (** With a slot at every timestamp of the list, the loop adds nothing. *)
Lemma criar_horarios_loop_nada hs tabela : forall pend,
    (forall h_str h, In h_str hs -> fromisoformat h_str = Some h ->
       exists x, In x tabela /\ horario_em servico_id h x = true) ->
    criar_horarios_loop autoflush fromisoformat servico_id hs tabela pend = pend.
  Proof.
    induction hs as [|h_str resto IH]; intros pend Hc; [easy|].
    cbn [criar_horarios_loop].
    assert (Hresto : criar_horarios_loop autoflush fromisoformat servico_id
                       resto tabela pend = pend).
    { apply IH. intros s h Hs. apply Hc. now right. }
    destruct (fromisoformat h_str) as [h|] eqn:Ep; [|exact Hresto].
    destruct (Hc h_str h) as [x [Hx1 Hx2]]; [now left|exact Ep|].
    destruct (find _ _) eqn:Ef; [exact Hresto|].
    exfalso. eapply find_none in Ef; [rewrite Hx2 in Ef; discriminate|].
    destruct autoflush; [apply in_or_app; now left|exact Hx1].
  Qed.
End CriarHorariosProps.

(** C9.  For a service of the store and any list of strings, whatever the
    session's flush setting and whatever [fromisoformat] accepts:
    [criar_horarios_servico] answers success, having appended slots
    [novos] to the table and touched nothing else; each new slot is of the
    service, available, at the timestamp of a string of the list that
    parses, a timestamp at which the table had no slot of the service
    (strings that do not parse and timestamps already taken add nothing);
    every string that parses has a slot of the service at its timestamp
    afterwards; a session that flushes before queries adds at most one slot
    per timestamp; and the same request on the resulting database answers
    success and returns that database unchanged. *)
Theorem criar_horarios_servico_entradas autoflush fromisoformat
    loja_id servico_id hs db s :
  find (fun s => (Servico.id s =? servico_id) && (Servico.loja_id s =? loja_id))
       (servicos db) = Some s ->
  exists novos,
    let db' := com_servicos_horarios (servicos_horarios db ++ novos) db in
    criar_horarios_servico autoflush fromisoformat loja_id servico_id (Some hs) db
      = (db', HorariosAdicionados)
    /\ (forall n, In n novos ->
          ServicoHorario.servico_id n = servico_id
          /\ ServicoHorario.is_disponivel n = true
          /\ (exists h_str, In h_str hs
                /\ fromisoformat h_str = Some (ServicoHorario.horario n))
          /\ find (horario_em servico_id (ServicoHorario.horario n))
                  (servicos_horarios db) = None)
    /\ (forall h_str h, In h_str hs -> fromisoformat h_str = Some h ->
          exists x, In x (servicos_horarios db')
                    /\ ServicoHorario.servico_id x = servico_id
                    /\ ServicoHorario.horario x = h)
    /\ (forall h_str h, In h_str hs -> fromisoformat h_str = Some h ->
          find (horario_em servico_id h) (servicos_horarios db) = None ->
          exists n, In n novos /\ ServicoHorario.horario n = h)
    /\ (autoflush = true ->
        forall h, (List.length (filter (horario_em servico_id h) novos) <= 1)%nat)
    /\ criar_horarios_servico autoflush fromisoformat loja_id servico_id (Some hs) db'
       = (db', HorariosAdicionados).
Proof.
  intros Hs.
  destruct (criar_horarios_loop_spec autoflush fromisoformat servico_id hs
              (servicos_horarios db) []) as [novos [E [Hn [Hc Hd]]]].
  simpl in E, Hc. exists novos. intros db'.
  assert (Hcob : forall h_str h, In h_str hs -> fromisoformat h_str = Some h ->
            exists x, In x (servicos_horarios db ++ novos)
                      /\ horario_em servico_id h x = true).
  { intros h_str h H1 H2. destruct (Hc h_str h H1 H2) as [x Hx]. now exists x. }
  split; [|split; [|split; [|split; [|split]]]].
  - unfold criar_horarios_servico. now rewrite Hs, E.
  - intros n Hin. destruct (Hn n Hin) as [A [B [C [D _]]]]. easy.
  - intros h_str h H1 H2. destruct (Hcob h_str h H1 H2) as [x [Hx1 Hx2]].
    exists x. unfold horario_em in Hx2. apply andb_true_iff in Hx2.
    destruct Hx2 as [Hx2 Hx3]. apply Z.eqb_eq in Hx2, Hx3. easy.
  - intros h_str h H1 H2 Hnone.
    destruct (Hcob h_str h H1 H2) as [x [Hx1 Hx2]].
    apply in_app_or in Hx1. destruct Hx1 as [Hx1|Hx1].
    + eapply find_none in Hnone; [|exact Hx1]. congruence.
    + exists x. split; [exact Hx1|].
      unfold horario_em in Hx2. apply andb_true_iff in Hx2.
      destruct Hx2 as [_ Hx3]. now apply Z.eqb_eq in Hx3.
  - exact Hd.
  - unfold criar_horarios_servico. subst db'. simpl. rewrite Hs.
    rewrite criar_horarios_loop_nada; [|exact Hcob].
    now rewrite app_nil_r.
Qed.

(** ** Stock is never negative *)

Lemma gravar_estoque_nao_negativo pid q ps :
  0 <= q ->
  (forall p, In p ps -> 0 <= Produto.quantidade_estoque p) ->
  forall p, In p (gravar_estoque pid q ps) -> 0 <= Produto.quantidade_estoque p.
Proof.
  intros Hq Hps p Hp. unfold gravar_estoque in Hp. apply in_map_iff in Hp.
  destruct Hp as [x [<- Hx]].
  destruct (Produto.id x =? pid); simpl; [exact Hq|now apply Hps].
Qed.

Lemma produto_por_id_gravar_outro pid k q ps :
  k <> pid ->
  produto_por_id k (gravar_estoque pid q ps) = produto_por_id k ps.
Proof.
  intros Hne. unfold produto_por_id, gravar_estoque.
  induction ps as [|x xs IH]; simpl; [easy|].
  destruct (Produto.id x =? pid) eqn:E; simpl.
  - apply Z.eqb_eq in E.
    assert ((Produto.id x =? k) = false) as -> by (apply Z.eqb_neq; congruence).
    exact IH.
  - destruct (Produto.id x =? k); [reflexivity|exact IH].
Qed.

Lemma abater_estoque_nao_negativo cart : forall ps,
  NoDup (map Carrinho.produto_id cart) ->
  (forall i, In i cart ->
     exists p, produto_por_id (Carrinho.produto_id i) ps = Some p
               /\ Carrinho.quantidade i <= Produto.quantidade_estoque p) ->
  (forall p, In p ps -> 0 <= Produto.quantidade_estoque p) ->
  forall p, In p (fst (abater_estoque cart ps)) ->
            0 <= Produto.quantidade_estoque p.
Proof.
  induction cart as [|i rest IH]; intros ps Hnd Hall Hps; simpl; [exact Hps|].
  destruct (Hall i) as [p0 [Hp0 Hq0]]; [now left|]. rewrite Hp0.
  inversion Hnd as [|? ? Hi Hrest]; subst.
  apply produto_por_id_Some in Hp0 as Hp0'. destruct Hp0' as [_ Hid0].
  apply IH; [exact Hrest| |].
  - intros j Hj. destruct (Hall j) as [p [Hp Hq]]; [now right|].
    exists p. split; [|exact Hq].
    rewrite produto_por_id_gravar_outro; [exact Hp|].
    rewrite Hid0. intros E. apply Hi. rewrite <- E. now apply in_map.
  - apply gravar_estoque_nao_negativo; [lia|exact Hps].
Qed.

Lemma produtos_distintos_do_cliente c cs :
  carrinho_unico cs ->
  NoDup (map Carrinho.produto_id (itens_do_cliente c cs)).
Proof.
  unfold carrinho_unico, itens_do_cliente.
  induction cs as [|x xs IH]; simpl; [constructor|].
  intros H. inversion H as [|? ? Hx Hxs]; subst.
  destruct (Carrinho.cliente_id x =? c) eqn:E; [|now apply IH].
  simpl. constructor; [|now apply IH].
  intros Hin. apply Hx. apply in_map_iff in Hin.
  destruct Hin as [y [Hy Hin]]. apply filter_In in Hin.
  destruct Hin as [Hin Hc]. apply Z.eqb_eq in E, Hc.
  apply in_map_iff. exists y. split; [|exact Hin].
  unfold chave_carrinho. congruence.
Qed.

Lemma criar_itens_quantidades rid ps cart : forall acc its,
  criar_itens rid ps cart acc = Some its ->
  (forall it, In it acc -> 0 <= ItemReserva.quantidade it) ->
  (forall i, In i cart -> 0 <= Carrinho.quantidade i) ->
  forall it, In it its -> 0 <= ItemReserva.quantidade it.
Proof.
  induction cart as [|i rest IH]; intros acc its H Hacc Hcart; simpl in H.
  - inversion H; subst. exact Hacc.
  - destruct (produto_por_id (Carrinho.produto_id i) ps); [|discriminate].
    eapply IH; [exact H| |].
    + intros it Hit. apply in_app_or in Hit. destruct Hit as [Hit|[<-|[]]].
      * now apply Hacc.
      * simpl. apply Hcart. now left.
    + intros j Hj. apply Hcart. now right.
Qed.

Lemma devolver_estoque_nao_negativo its : forall ps ps',
  devolver_estoque its ps = Some ps' ->
  (forall it, In it its -> 0 <= ItemReserva.quantidade it) ->
  (forall p, In p ps -> 0 <= Produto.quantidade_estoque p) ->
  forall p, In p ps' -> 0 <= Produto.quantidade_estoque p.
Proof.
  induction its as [|it rest IH]; intros ps ps' H Hits Hps; simpl in H.
  - inversion H; subst. exact Hps.
  - destruct (produto_por_id (ItemReserva.produto_id it) ps) as [p0|] eqn:E;
      [|discriminate].
    eapply IH; [exact H| |].
    + intros x Hx. apply Hits. now right.
    + apply produto_por_id_Some in E. destruct E as [Hin0 _].
      assert (0 <= ItemReserva.quantidade it) by (apply Hits; now left).
      assert (0 <= Produto.quantidade_estoque p0) by now apply Hps.
      apply gravar_estoque_nao_negativo; [lia|exact Hps].
Qed.

Lemma cancelar_todas_invariante L : forall db,
  invariante db -> invariante (fst (cancelar_todas L db)).
Proof.
  induction L as [|r rest IH]; intros db Hinv; simpl; [exact Hinv|].
  destruct (cancelar_uma r db) as [db1|] eqn:E; [|exact Hinv].
  apply IH. unfold cancelar_uma in E.
  destruct (devolver_estoque _ _) as [ps|] eqn:Ed; [|discriminate].
  inversion E; subst. destruct Hinv as [H1 [H2 [H3 H4]]].
  repeat split; simpl; try easy.
  unfold estoque_nao_negativo; simpl.
  eapply devolver_estoque_nao_negativo; [exact Ed| |exact H1].
  intros it Hit. apply H4. apply filter_In in Hit. tauto.
Qed.

Lemma cancelar_expiradas_invariante agora loja_id db :
  invariante db -> invariante (fst (cancelar_expiradas agora loja_id db)).
Proof.
  intros Hinv. unfold cancelar_expiradas.
  pose proof (cancelar_todas_invariante
                (filter (expirada_2dias loja_id agora) (reservas_produtos db))
                db Hinv) as H1.
  destruct (cancelar_todas _ db) as [db1 [|]]; simpl in H1; [|exact H1].
  pose proof (cancelar_todas_invariante
                (filter (expirada_4dias loja_id agora) (reservas_produtos db1))
                db1 H1) as H2.
  destruct (cancelar_todas _ db1) as [db2 [|]]; exact H2.
Qed.

Lemma finalizar_invariante agora c db :
  invariante db -> invariante (fst (finalizar_carrinho agora c db)).
Proof.
  intros Hinv. pose proof Hinv as [H1 [H2 [H3 H4]]].
  unfold finalizar_carrinho.
  set (cart := itens_do_cliente c (carrinho db)).
  destruct cart as [|i0 rest] eqn:Ec; [exact Hinv|]. rewrite <- Ec.
  destruct (validar_carrinho (produtos db) cart None) as [e|[l|]] eqn:Ev;
    try exact Hinv.
  apply validar_inr in Ev. destruct Ev as [_ Hall].
  assert (Hcart : forall i, In i cart -> 0 <= Carrinho.quantidade i).
  { intros i Hi. apply H3. unfold cart in Hi. apply filter_In in Hi. tauto. }
  assert (Hps : forall p, In p (fst (abater_estoque cart (produtos db))) ->
                          0 <= Produto.quantidade_estoque p).
  { apply abater_estoque_nao_negativo.
    - now apply produtos_distintos_do_cliente.
    - intros i Hi. destruct (Hall i Hi) as [p [Hp [_ Hq]]]. now exists p.
    - exact H1. }
  destruct (abater_estoque cart (produtos db)) as [ps ok]. simpl in Hps.
  destruct ok.
  2:{ repeat split; simpl; easy. }
  cbn [produtos com_reservas_produtos com_produtos itens_reserva
       reservas_produtos].
  destruct (criar_itens _ ps cart (itens_reserva db)) as [its|] eqn:Ei.
  2:{ repeat split; simpl; easy. }
  repeat split; simpl.
  - exact Hps.
  - rewrite limpar_carrinho_filter. now apply NoDup_map_filter.
  - intros i Hi. rewrite limpar_carrinho_filter in Hi.
    apply filter_In in Hi. apply H3. tauto.
  - eapply criar_itens_quantidades; [exact Ei|exact H4|exact Hcart].
Qed.

Lemma inserir_ou_somar_invariante c pid q db :
  0 <= q -> invariante db -> invariante (fst (inserir_ou_somar c pid q db)).
Proof.
  intros Hq [H1 [H2 [H3 H4]]].
  split; [|split; [now apply inserir_ou_somar_unico|split]];
    unfold inserir_ou_somar;
    destruct (find _ (carrinho db)) as [item|] eqn:E; simpl; try easy.
  - intros i Hi. unfold gravar_quantidade in Hi. apply in_map_iff in Hi.
    destruct Hi as [x [<- Hx]].
    destruct (Carrinho.id x =? Carrinho.id item); simpl; [|now apply H3].
    apply find_some in E.
    assert (0 <= Carrinho.quantidade item) by (apply H3; tauto). lia.
  - intros i Hi. apply in_app_or in Hi. destruct Hi as [Hi|[<-|[]]];
      [now apply H3|exact Hq].
Qed.

Lemma adicionar_invariante c pid q db :
  0 <= match q with Some n => n | None => 1 end ->
  invariante db -> invariante (fst (adicionar_item_carrinho c pid q db)).
Proof.
  intros Hq Hinv. unfold adicionar_item_carrinho.
  repeat (quebrar; try exact Hinv;
          try (now apply inserir_ou_somar_invariante)).
Qed.

Lemma executar_invariante o db :
  quantidades_nao_negativas o -> invariante db -> invariante (executar o db).
Proof.
  intros Ho Hinv. pose proof Hinv as [H1 [H2 [H3 H4]]].
  destruct o; simpl in *.
  - exact Hinv.
  - exact Hinv.
  - unfold cadastrar_produto_com_imagem.
    destruct (existe loja_id (lojas db)); [|exact Hinv].
    repeat split; simpl; try easy.
    intros p Hp. simpl in Hp. apply in_app_or in Hp.
    destruct Hp as [Hp|[<-|[]]]; [now apply H1|exact Ho].
  - unfold remover_produto. quebrar; [|exact Hinv].
    repeat split; simpl; try easy.
    intros p Hp. simpl in Hp. apply filter_In in Hp. apply H1. tauto.
  - apply adicionar_invariante; [|exact Hinv]. destruct quantidade; [exact Ho|lia].
  - unfold remover_item_carrinho. repeat (quebrar; try exact Hinv).
    repeat split; simpl; try easy.
    + now apply NoDup_map_filter.
    + intros i Hi. apply filter_In in Hi. apply H3. tauto.
  - now apply finalizar_invariante.
  - unfold marcar_retirada. repeat (quebrar; try exact Hinv).
  - unfold cliente_marcar_retirada. repeat (quebrar; try exact Hinv).
  - now apply cancelar_expiradas_invariante.
Qed.

Lemma alcancavel_invariante db :
  alcancavel quantidades_nao_negativas db -> invariante db.
Proof.
  induction 1 as [|o db Hdb IH Ho].
  - repeat split; simpl; try easy. constructor.
  - now apply executar_invariante.
Qed.

(** C3, as the code has it.  In every state the empty database reaches
    through registrations of stores and customers, product registration
    and removal, cart additions and removals, checkout, pickup by the
    store or the customer and the expiry sweep, where every product
    registration brings a stock that is not negative and every cart
    addition a quantity that is not negative, no product's stock is
    negative, before and after any such operation. *)
Theorem estoque_nunca_negativo db o :
  alcancavel quantidades_nao_negativas db ->
  quantidades_nao_negativas o ->
  estoque_nao_negativo db /\ estoque_nao_negativo (executar o db).
Proof.
  intros Hdb Ho. split.
  - now apply alcancavel_invariante.
  - apply alcancavel_invariante. now constructor.
Qed.

(** C3 as stated fails: a store registers a product with the stock -5. *)
Lemma estoque_negativo_no_cadastro :
  let db := executar RegistrarLoja db_vazio in
  alcancavel qualquer db
  /\ estoque_nao_negativo db
  /\ executar (CadastrarProduto 1 "bike" 100 (-5)) db
     = com_produtos [Produto.mk 1 "bike" 100 1 (-5)] db
  /\ ~ estoque_nao_negativo (executar (CadastrarProduto 1 "bike" 100 (-5)) db).
Proof.
  simpl. split; [|split; [|split]].
  - apply (alcancavel_passo qualquer RegistrarLoja db_vazio);
      [constructor|exact I].
  - intros p [].
  - reflexivity.
  - intros H. specialize (H (Produto.mk 1 "bike" 100 1 (-5))).
    simpl in H. unfold cadastrar_produto_com_imagem in H. simpl in H.
    assert (0 <= -5) by (apply H; now left). lia.
Qed.

Example estoque_negativo_pela_quantidade :
  map Produto.quantidade_estoque
      (produtos (fold_left (fun db o => executar o db)
                           operacoes_quantidade_negativa db_vazio))
  = [-3].
Proof. vm_compute. reflexivity. Qed.

(** ** The theorems at concrete databases *)

Example finalizar_carrinho_exemplo :
  finalizar_carrinho 1000 1 db_exemplo_checkout
  = (mkDB [1; 2] [1; 2] []
       [Produto.mk 1 "bike" 100 1 2; Produto.mk 2 "capacete" 30 1 3;
        Produto.mk 3 "luva" 10 2 7]
       [Carrinho.mk 2 2 1 1]
       [ReservaProduto.mk 1 1 1 1000 RESERVADO (Some (1000 + dias 2))]
       [ItemReserva.mk 1 1 1 3 100; ItemReserva.mk 2 1 2 1 30] [] [],
     ReservaCriada 1 (1000 + dias 2)).
Proof. vm_compute. reflexivity. Qed.

Lemma finalizar_carrinho_tudo_ou_nada_witness :
  lojas_misturadas (produtos db_exemplo_falha)
                   (itens_do_cliente 1 (carrinho db_exemplo_falha))
  /\ estoque_insuficiente (produtos db_exemplo_falha)
                          (itens_do_cliente 2 (carrinho db_exemplo_falha))
                          "capacete"
  /\ (exists erro,
        finalizar_carrinho 1000 1 db_exemplo_falha = (db_exemplo_falha, erro)
        /\ falha_de_validacao (produtos db_exemplo_falha)
             (itens_do_cliente 1 (carrinho db_exemplo_falha)) erro)
  /\ (exists erro,
        finalizar_carrinho 1000 2 db_exemplo_falha = (db_exemplo_falha, erro)
        /\ falha_de_validacao (produtos db_exemplo_falha)
             (itens_do_cliente 2 (carrinho db_exemplo_falha)) erro).
Proof.
  assert (H1 : lojas_misturadas (produtos db_exemplo_falha)
                 (itens_do_cliente 1 (carrinho db_exemplo_falha))).
  { exists (Carrinho.mk 1 1 1 3), (Carrinho.mk 2 1 3 1),
           (Produto.mk 1 "bike" 100 1 5), (Produto.mk 3 "luva" 10 2 7).
    simpl. repeat split; try (now left); try (right; now left).
    simpl. discriminate. }
  assert (H2 : estoque_insuficiente (produtos db_exemplo_falha)
                 (itens_do_cliente 2 (carrinho db_exemplo_falha)) "capacete").
  { exists (Carrinho.mk 3 2 2 9), (Produto.mk 2 "capacete" 30 1 4).
    simpl. repeat split; try (now left); try lia. }
  split; [exact H1|]. split; [exact H2|]. split.
  - apply (proj1 (finalizar_carrinho_tudo_ou_nada 1000 1 db_exemplo_falha)).
    left. exact H1.
  - apply (proj1 (finalizar_carrinho_tudo_ou_nada 1000 2 db_exemplo_falha)).
    right. exists "capacete"%string. exact H2.
Defined.

Example finalizar_carrinho_falha_exemplo :
  finalizar_carrinho 1000 1 db_exemplo_falha = (db_exemplo_falha, LojasDiferentes)
  /\ finalizar_carrinho 1000 2 db_exemplo_falha
     = (db_exemplo_falha, EstoqueInsuficiente "capacete").
Proof. vm_compute. split; reflexivity. Qed.

Lemma estoque_nunca_negativo_witness :
  alcancavel quantidades_nao_negativas db_exemplo_alcancavel
  /\ quantidades_nao_negativas (CadastrarProduto 1 "capacete" 30 0)
  /\ estoque_nao_negativo db_exemplo_alcancavel
  /\ estoque_nao_negativo
       (executar (CadastrarProduto 1 "capacete" 30 0) db_exemplo_alcancavel).
Proof.
  assert (H1 : alcancavel quantidades_nao_negativas db_exemplo_alcancavel).
  { unfold db_exemplo_alcancavel.
    apply alcancavel_passo; [|simpl; lia].
    apply alcancavel_passo; [|exact I]. apply alcancavel_vazio. }
  assert (H2 : quantidades_nao_negativas (CadastrarProduto 1 "capacete" 30 0))
    by (simpl; lia).
  split; [exact H1|]. split; [exact H2|].
  exact (estoque_nunca_negativo db_exemplo_alcancavel
           (CadastrarProduto 1 "capacete" 30 0) H1 H2).
Defined.

Example cancelar_expiradas_exemplo :
  cancelar_expiradas (dias 5) 1 db_exemplo_expiradas
  = (mkDB [1; 2] [1; 2] []
       [Produto.mk 1 "bike" 100 1 6; Produto.mk 2 "capacete" 30 1 1;
        Produto.mk 3 "luva" 10 2 7]
       []
       [ReservaProduto.mk 1 1 1 0 CANCELADO (Some (dias 2));
        ReservaProduto.mk 2 1 1 0 RETIRADO (Some (dias 2));
        ReservaProduto.mk 3 2 1 (dias 4) RESERVADO (Some (dias 6));
        ReservaProduto.mk 4 2 1 0 CANCELADO None;
        ReservaProduto.mk 5 1 2 0 RESERVADO (Some (dias 2))]
       (itens_reserva db_exemplo_expiradas) [] [],
     ExpiradasCanceladas).
Proof. vm_compute. reflexivity. Qed.

(** A line item whose product row is gone makes the sweep raise: here on
    its first reservation, with nothing committed. *)
Example cancelar_expiradas_produto_removido :
  let db := fst (remover_produto 1 2 db_exemplo_expiradas) in
  cancelar_expiradas (dias 5) 1 db = (db, ExpiradasErro500).
Proof. vm_compute. reflexivity. Qed.

Lemma chaves_reservas_exemplo : chaves_reservas_produtos db_exemplo_expiradas.
Proof. unfold chaves_reservas_produtos; simpl; chaves_distintas. Defined.


Lemma itens_com_produto_exemplo :
  itens_com_produto 1 (dias 5) db_exemplo_expiradas.
Proof.
  intros r it _ _ Hit _. simpl in Hit.
  repeat (destruct Hit as [<-|Hit];
          [first [ exists (Produto.mk 1 "bike" 100 1 2);
                   split; [simpl; tauto|reflexivity]
                 | exists (Produto.mk 2 "capacete" 30 1 0);
                   split; [simpl; tauto|reflexivity]
                 | exists (Produto.mk 3 "luva" 10 2 7);
                   split; [simpl; tauto|reflexivity] ]|]).
  destruct Hit.
Defined.

Lemma cancelar_expiradas_idempotente_witness :
  chaves_reservas_produtos db_exemplo_expiradas
  /\ cancelar_expiradas (dias 5) 1
       (fst (cancelar_expiradas (dias 5) 1 db_exemplo_expiradas))
     = cancelar_expiradas (dias 5) 1 db_exemplo_expiradas.
Proof.
  split; [exact chaves_reservas_exemplo|].
  exact (cancelar_expiradas_idempotente (dias 5) 1 db_exemplo_expiradas
           chaves_reservas_exemplo).
Defined.

Example cancelar_reserva_exemplo :
  cancelar_reserva (horario_manha - minutos 120) 1 1 db_exemplo_cancelar
  = (mkDB [1] [1] [Servico.mk 1 1] [] [] [] []
       [ServicoHorario.mk 1 1 horario_manha true]
       [ReservaServico.mk 1 1 1 1 horario_manha CANCELADO],
     ReservaCancelada).
Proof. vm_compute. reflexivity. Qed.

Lemma criar_horarios_servico_entradas_witness :
  find (fun s => (Servico.id s =? 1) && (Servico.loja_id s =? 1))
       (servicos db_exemplo_horarios) = Some (Servico.mk 1 1)
  /\ exists novos,
       criar_horarios_servico false fromisoformat_exemplo 1 1
         (Some horarios_exemplo) db_exemplo_horarios
       = (com_servicos_horarios (servicos_horarios db_exemplo_horarios ++ novos)
            db_exemplo_horarios, HorariosAdicionados)
       /\ criar_horarios_servico false fromisoformat_exemplo 1 1
            (Some horarios_exemplo)
            (com_servicos_horarios (servicos_horarios db_exemplo_horarios ++ novos)
               db_exemplo_horarios)
          = (com_servicos_horarios (servicos_horarios db_exemplo_horarios ++ novos)
               db_exemplo_horarios, HorariosAdicionados).
Proof.
  assert (H : find (fun s => (Servico.id s =? 1) && (Servico.loja_id s =? 1))
                   (servicos db_exemplo_horarios) = Some (Servico.mk 1 1))
    by reflexivity.
  split; [exact H|].
  destruct (criar_horarios_servico_entradas false fromisoformat_exemplo 1 1
              horarios_exemplo db_exemplo_horarios (Servico.mk 1 1) H)
    as [novos [H1 [_ [_ [_ [_ H2]]]]]].
  exists novos. split; [exact H1|exact H2].
Defined.

(** The flush setting shows on a list that names one timestamp twice. *)
Example criar_horarios_servico_exemplo :
  servicos_horarios
    (fst (criar_horarios_servico true fromisoformat_exemplo 1 1
            (Some horarios_exemplo) db_exemplo_horarios))
  = [ServicoHorario.mk 1 1 (datetime_do_dia dia_exemplo 14 0 0) false;
     ServicoHorario.mk 2 1 (datetime_do_dia dia_exemplo 13 0 0) true]
  /\ servicos_horarios
       (fst (criar_horarios_servico false fromisoformat_exemplo 1 1
               (Some horarios_exemplo) db_exemplo_horarios))
     = [ServicoHorario.mk 1 1 (datetime_do_dia dia_exemplo 14 0 0) false;
        ServicoHorario.mk 2 1 (datetime_do_dia dia_exemplo 13 0 0) true;
        ServicoHorario.mk 3 1 (datetime_do_dia dia_exemplo 13 0 0) true].
Proof. vm_compute. split; reflexivity. Qed.

(** ** Further properties of the cart and the checkout *)

Lemma com_carrinho_mesmo db : com_carrinho (carrinho db) db = db.
Proof. now destruct db. Qed.

Lemma itens_do_cliente_limpo c cs :
  itens_do_cliente c (limpar_carrinho (itens_do_cliente c cs) cs) = [].
Proof.
  rewrite limpar_carrinho_filter. unfold itens_do_cliente at 1.
  apply filter_nenhum. intros i Hi. apply filter_In in Hi.
  destruct Hi as [Hi Hn].
  destruct (Carrinho.cliente_id i =? c) eqn:E; [|easy].
  exfalso. apply negb_true_iff in Hn.
  assert (existsb (fun j => Carrinho.id i =? Carrinho.id j)
                  (itens_do_cliente c cs) = true) as Hx.
  { apply existsb_exists. exists i. split; [|apply Z.eqb_refl].
    apply filter_In. now split. }
  congruence.
Qed.

(** X1.  A checkout that succeeds leaves the customer's cart empty: the
    same customer's next checkout answers "cart empty" and changes
    nothing. *)
Theorem finalizar_carrinho_duas_vezes agora agora' c db db' rid limite :
  finalizar_carrinho agora c db = (db', ReservaCriada rid limite) ->
  itens_do_cliente c (carrinho db') = []
  /\ finalizar_carrinho agora' c db' = (db', CarrinhoVazio).
Proof.
  intros H.
  assert (Hvazio : itens_do_cliente c (carrinho db') = []).
  { unfold finalizar_carrinho in H.
    set (cart := itens_do_cliente c (carrinho db)) in *.
    destruct cart as [|i0 rest] eqn:Ec; [discriminate|]. rewrite <- Ec in H.
    destruct (validar_carrinho (produtos db) cart None) as [e|[l|]] eqn:Ev.
    - inversion H; subst.
      apply validar_inl in Ev. destruct Ev as [Ev|[[Ev _]|[n [Ev _]]]];
        discriminate.
    - destruct (abater_estoque cart (produtos db)) as [ps [|]];
        [|discriminate].
      cbn [produtos com_reservas_produtos com_produtos itens_reserva
           reservas_produtos] in H.
      destruct (criar_itens _ ps cart (itens_reserva db)); [|discriminate].
      inversion H; subst. simpl. unfold cart. apply itens_do_cliente_limpo.
    - discriminate. }
  split; [exact Hvazio|].
  unfold finalizar_carrinho. now rewrite Hvazio.
Qed.




Lemma apagar_carrinho_novo cs nova :
  Carrinho.id nova = next_id (map Carrinho.id cs) ->
  apagar_carrinho (Carrinho.id nova) (cs ++ [nova]) = cs.
Proof.
  intros Hid. unfold apagar_carrinho. rewrite filter_app. simpl.
  rewrite Z.eqb_refl. simpl. rewrite app_nil_r. apply filter_todos.
  intros x Hx. apply negb_true_iff. apply Z.eqb_neq.
  assert (Carrinho.id x < next_id (map Carrinho.id cs))
    by (apply next_id_maior; now apply in_map).
  lia.
Qed.

Lemma find_app_novo {A} (f : A -> bool) l x :
  find f l = None -> f x = true -> find f (l ++ [x]) = Some x.
Proof.
  induction l as [|y ys IH]; simpl; intros Hn Hx; [now rewrite Hx|].
  destruct (f y); [discriminate|now apply IH].
Qed.

(** X3.  Adding a product the cart does not hold and removing it again
    gives back the database as it was. *)
Theorem adicionar_e_remover c pid q db db1 :
  adicionar_item_carrinho c pid q db = (db1, ProdutoAdicionado) ->
  remover_item_carrinho c pid db1 = (db, ItemRemovido).
Proof.
  intros H.
  assert (Hcli : existe c (clientes db) = true).
  { unfold adicionar_item_carrinho in H.
    destruct (pid =? 0); [discriminate|].
    destruct (existe c (clientes db)); [reflexivity|discriminate]. }
  assert (Hins : inserir_ou_somar c pid
                   (match q with Some n => n | None => 1 end) db
                 = (db1, ProdutoAdicionado)).
  { unfold adicionar_item_carrinho in H.
    destruct (pid =? 0); [discriminate|].
    destruct (negb (existe c (clientes db))); [discriminate|].
    destruct (produto_por_id pid (produtos db)); [|discriminate].
    destruct (itens_do_cliente c (carrinho db)); [exact H|].
    destruct (produto_por_id _ (produtos db)); [|discriminate].
    destruct (negb _); [discriminate|exact H]. }
  unfold inserir_ou_somar in Hins.
  destruct (find _ (carrinho db)) as [x|] eqn:Ef; [discriminate|].
  inversion Hins; subst db1. clear Hins H.
  unfold remover_item_carrinho. cbn [clientes carrinho com_carrinho].
  rewrite Hcli. simpl negb. cbv iota.
  erewrite find_app_novo; [|exact Ef|simpl; now rewrite !Z.eqb_refl].
  rewrite apagar_carrinho_novo by reflexivity.
  f_equal. now destruct db.
Qed.

Lemma itens_do_cliente_gravar c cid q cs i :
  In i (itens_do_cliente c (gravar_quantidade cid q cs)) ->
  exists j, In j (itens_do_cliente c cs)
            /\ Carrinho.produto_id i = Carrinho.produto_id j.
Proof.
  unfold itens_do_cliente, gravar_quantidade. intros Hi.
  apply filter_In in Hi. destruct Hi as [Hi Hc].
  apply in_map_iff in Hi. destruct Hi as [j [<- Hj]].
  exists j. split.
  - apply filter_In. split; [exact Hj|].
    now destruct (Carrinho.id j =? cid).
  - now destruct (Carrinho.id j =? cid).
Qed.

Lemma inserir_ou_somar_uma_loja c pid q db l p :
  produto_por_id pid (produtos db) = Some p -> Produto.loja_id p = l ->
  carrinho_da_loja (produtos db) (itens_do_cliente c (carrinho db)) l ->
  carrinho_da_loja (produtos (fst (inserir_ou_somar c pid q db)))
    (itens_do_cliente c (carrinho (fst (inserir_ou_somar c pid q db)))) l.
Proof.
  intros Hp Hl Hcart. unfold inserir_ou_somar.
  destruct (find _ (carrinho db)) as [item|] eqn:E; simpl.
  - intros i Hi. apply itens_do_cliente_gravar in Hi.
    destruct Hi as [j [Hj ->]]. now apply Hcart.
  - intros i Hi. unfold itens_do_cliente in Hi. rewrite filter_app in Hi.
    apply in_app_or in Hi. destruct Hi as [Hi|Hi]; [now apply Hcart|].
    simpl in Hi. destruct (c =? c); [|easy].
    destruct Hi as [<-|[]]. simpl. now exists p.
Qed.

Lemma finalizar_nao_mistura agora c db l :
  carrinho_da_loja (produtos db) (itens_do_cliente c (carrinho db)) l ->
  snd (finalizar_carrinho agora c db) <> LojasDiferentes.
Proof.
  intros Hcart. unfold finalizar_carrinho.
  set (cart := itens_do_cliente c (carrinho db)) in *.
  destruct cart as [|i0 rest] eqn:Ec; [discriminate|]. rewrite <- Ec in *.
  destruct (validar_carrinho (produtos db) cart None) as [e|[l'|]] eqn:Ev.
  - simpl. intros ->. apply validar_inl in Ev.
    destruct Ev as [Ev|[[_ Hm]|[n [Ev _]]]]; try discriminate.
    destruct Hm as [i [j [p [q [Hi [Hj [Hp [Hq Hne]]]]]]]].
    destruct (Hcart i Hi) as [p' [Hp' Hl1]].
    destruct (Hcart j Hj) as [q' [Hq' Hl2]]. congruence.
  - destruct (abater_estoque cart (produtos db)) as [ps [|]];
      [|discriminate].
    cbn [produtos com_reservas_produtos com_produtos itens_reserva
         reservas_produtos].
    destruct (criar_itens _ ps cart (itens_reserva db)); discriminate.
  - discriminate.
Qed.

(** X4.  A cart whose lines all name existing products of one store is
    still such a cart after any request to add an item, accepted or not;
    a checkout that follows never answers "products of different
    stores". *)
Theorem adicionar_mantem_uma_loja c pid q db l :
  carrinho_da_loja (produtos db) (itens_do_cliente c (carrinho db)) l ->
  let db' := fst (adicionar_item_carrinho c pid q db) in
  (exists l',
     carrinho_da_loja (produtos db') (itens_do_cliente c (carrinho db')) l')
  /\ forall agora, snd (finalizar_carrinho agora c db') <> LojasDiferentes.
Proof.
  intros Hcart db'.
  assert (H : exists l',
            carrinho_da_loja (produtos db')
              (itens_do_cliente c (carrinho db')) l').
  { subst db'. unfold adicionar_item_carrinho.
    destruct (pid =? 0); [now exists l|].
    destruct (negb (existe c (clientes db))); [now exists l|].
    destruct (produto_por_id pid (produtos db)) as [p|] eqn:Ep;
      [|now exists l].
    destruct (itens_do_cliente c (carrinho db)) as [|x xs] eqn:Ec.
    - exists (Produto.loja_id p).
      apply inserir_ou_somar_uma_loja with (p := p); [exact Ep|reflexivity|].
      rewrite Ec. intros i [].
    - destruct (Hcart x) as [px [Hpx Hlx]]; [now left|].
      rewrite Hpx.
      destruct (Produto.loja_id px =? Produto.loja_id p) eqn:El; simpl.
      + exists l. apply Z.eqb_eq in El.
        apply inserir_ou_somar_uma_loja with (p := p);
          [exact Ep|congruence|]. now rewrite Ec.
      + exists l. now rewrite Ec. }
  split; [exact H|]. intros agora. destruct H as [l' H].
  now apply finalizar_nao_mistura with (l := l').
Qed.

Lemma find_chave_outra {A} (key : A -> Z) (g : A -> bool) l x :
  NoDup (map key l) -> In x l -> g x = false ->
  find (fun y => (key y =? key x) && g y) l = None.
Proof.
  intros Hnd Hin Hg. destruct (find _ l) as [y|] eqn:E; [|easy].
  apply find_some in E. destruct E as [Hy E].
  apply andb_true_iff in E. destruct E as [E1 E2]. apply Z.eqb_eq in E1.
  assert (y = x) by (eapply NoDup_map_igual; eauto). subst. congruence.
Qed.

(** X5.  A product reservation is reached only through its own store and
    its own customer: with keys unique, the store's pickup request from
    another store, and the customer's pickup request from another
    customer, answer "not found" and change nothing. *)
Theorem marcar_retirada_de_outro agora db r l c :
  chaves_reservas_produtos db -> In r (reservas_produtos db) ->
  (l <> ReservaProduto.loja_id r ->
   marcar_retirada l (ReservaProduto.id r) db = (db, ReservaNaoEncontrada))
  /\ (c <> ReservaProduto.cliente_id r ->
      cliente_marcar_retirada agora c (ReservaProduto.id r) db
      = (db, ReservaNaoEncontrada)).
Proof.
  intros Hk Hin. split; intros Hne.
  - unfold marcar_retirada.
    rewrite (find_chave_outra ReservaProduto.id
               (fun x => ReservaProduto.loja_id x =? l)); try easy.
    apply Z.eqb_neq. congruence.
  - unfold cliente_marcar_retirada.
    rewrite (find_chave_outra ReservaProduto.id
               (fun x => ReservaProduto.cliente_id x =? c)); try easy.
    apply Z.eqb_neq. congruence.
Qed.

(** ** Statuses of a product reservation *)

Lemma status_final_nao_reservado s : status_final s -> s <> RESERVADO.
Proof. intros [-> | ->]; discriminate. Qed.

Lemma finalizar_reservas agora c db :
  exists novas,
    reservas_produtos (fst (finalizar_carrinho agora c db))
    = reservas_produtos db ++ novas.
Proof.
  assert (Hnada : exists novas,
            reservas_produtos db = reservas_produtos db ++ novas)
    by (exists []; now rewrite app_nil_r).
  unfold finalizar_carrinho.
  set (cart := itens_do_cliente c (carrinho db)).
  destruct cart as [|i0 rest] eqn:Ec; [exact Hnada|]. rewrite <- Ec.
  destruct (validar_carrinho (produtos db) cart None) as [e|[l|]];
    try exact Hnada.
  destruct (abater_estoque cart (produtos db)) as [ps [|]]; [|exact Hnada].
  cbn [produtos com_reservas_produtos com_produtos itens_reserva
       reservas_produtos].
  destruct (criar_itens _ ps cart (itens_reserva db)); simpl; eauto.
Qed.

Lemma cancelar_em_final feitas rs r :
  NoDup (map ReservaProduto.id rs) ->
  (forall d, In d feitas ->
     In d rs /\ ReservaProduto.status d = RESERVADO) ->
  In r rs -> ReservaProduto.status r <> RESERVADO ->
  In r (cancelar_em feitas rs).
Proof.
  intros Hnd Hf Hin Hst. unfold cancelar_em. apply in_map_iff.
  exists r. split; [|exact Hin].
  destruct (esta_em r feitas) eqn:E; [|reflexivity].
  exfalso. apply existsb_exists in E. destruct E as [d [Hd Hid]].
  apply Z.eqb_eq in Hid. destruct (Hf d Hd) as [Hd1 Hd2].
  assert (d = r) by (eapply NoDup_map_igual; eauto). subst. contradiction.
Qed.

Lemma cancelar_todas_final pred db db' ok r :
  (forall x, pred x = true -> ReservaProduto.status x = RESERVADO) ->
  chaves_reservas_produtos db ->
  cancelar_todas (filter pred (reservas_produtos db)) db = (db', ok) ->
  In r (reservas_produtos db) -> ReservaProduto.status r <> RESERVADO ->
  In r (reservas_produtos db') /\ chaves_reservas_produtos db'.
Proof.
  intros Hp Hk H Hin Hst. apply cancelar_todas_forma in H.
  destruct H as [feitas [resto [HL [Hr _]]]]. split.
  - rewrite Hr. apply cancelar_em_final; try easy.
    intros d Hd.
    assert (In d (filter pred (reservas_produtos db)))
      by (rewrite HL; apply in_or_app; now left).
    apply filter_In in H. destruct H as [H1 H2]. split; [exact H1|now apply Hp].
  - unfold chaves_reservas_produtos. now rewrite Hr, cancelar_em_ids.
Qed.

Lemma expirada_2dias_reservado l a x :
  expirada_2dias l a x = true -> ReservaProduto.status x = RESERVADO.
Proof.
  unfold expirada_2dias. rewrite !andb_true_iff.
  intros [[_ H] _]. now apply String.eqb_eq.
Qed.

Lemma expirada_4dias_reservado l a x :
  expirada_4dias l a x = true -> ReservaProduto.status x = RESERVADO.
Proof.
  unfold expirada_4dias. rewrite !andb_true_iff.
  intros [[_ H] _]. now apply String.eqb_eq.
Qed.

Lemma gravar_status_rp_final rid s rs reserva r :
  NoDup (map ReservaProduto.id rs) ->
  In reserva rs -> ReservaProduto.id reserva = rid ->
  ReservaProduto.status reserva = RESERVADO ->
  In r rs -> ReservaProduto.status r <> RESERVADO ->
  In r (gravar_status_rp rid s rs).
Proof.
  intros Hnd Hres Hid Hst Hin Hr. apply gravar_status_rp_outras; [exact Hin|].
  intros E. assert (r = reserva) by (eapply NoDup_map_igual; eauto; congruence).
  subst. contradiction.
Qed.

(** X6.  RETIRADO and CANCELADO are final: with keys unique, a product
    reservation in one of these statuses is still in the table, with every
    column as it was, after any operation of the store, a customer or the
    sweep. *)
Theorem status_final_permanece o db r :
  chaves_reservas_produtos db -> In r (reservas_produtos db) ->
  status_final (ReservaProduto.status r) ->
  In r (reservas_produtos (executar o db)).
Proof.
  intros Hk Hin Hfinal. apply status_final_nao_reservado in Hfinal.
  destruct o; simpl.
  - exact Hin.
  - exact Hin.
  - unfold cadastrar_produto_com_imagem. now quebrar.
  - unfold remover_produto. now quebrar.
  - unfold adicionar_item_carrinho, inserir_ou_somar.
    repeat (quebrar; simpl; try exact Hin).
  - unfold remover_item_carrinho. repeat (quebrar; simpl; try exact Hin).
  - destruct (finalizar_reservas agora cliente_id db) as [novas ->].
    apply in_or_app. now left.
  - unfold marcar_retirada.
    destruct (find _ (reservas_produtos db)) as [reserva|] eqn:E; [|exact Hin].
    destruct (ReservaProduto.status reserva =? RESERVADO)%string eqn:Es;
      simpl; [|exact Hin].
    apply find_some in E. destruct E as [E _]. apply String.eqb_eq in Es.
    now apply gravar_status_rp_final with (reserva := reserva).
  - unfold cliente_marcar_retirada.
    destruct (find _ (reservas_produtos db)) as [reserva|] eqn:E; [|exact Hin].
    destruct (ReservaProduto.status reserva =? RESERVADO)%string eqn:Es;
      simpl; [|exact Hin].
    destruct (_ <? agora); simpl; [exact Hin|].
    apply find_some in E. destruct E as [E _]. apply String.eqb_eq in Es.
    now apply gravar_status_rp_final with (reserva := reserva).
  - unfold cancelar_expiradas.
    destruct (cancelar_todas (filter (expirada_2dias loja_id agora)
                                (reservas_produtos db)) db)
      as [db1 ok1] eqn:E1.
    apply (cancelar_todas_final _ _ _ _ r
             (expirada_2dias_reservado loja_id agora) Hk) in E1;
      [|exact Hin|exact Hfinal].
    destruct E1 as [Hin1 Hk1]. destruct ok1; [|exact Hin1].
    destruct (cancelar_todas (filter (expirada_4dias loja_id agora)
                                (reservas_produtos db1)) db1)
      as [db2 ok2] eqn:E2.
    apply (cancelar_todas_final _ _ _ _ r
             (expirada_4dias_reservado loja_id agora) Hk1) in E2;
      [|exact Hin1|exact Hfinal].
    destruct E2 as [Hin2 _]. now destruct ok2.
Qed.

(** ** Primary and foreign keys along the reachable states *)

Lemma NoDup_next_id ids : NoDup ids -> NoDup (ids ++ [next_id ids]).
Proof.
  intros H. apply NoDup_app; repeat split;
    [exact H|repeat constructor; easy|].
  intros x Hx [<-|[]]. now apply next_id_novo in Hx.
Qed.

Lemma gravar_status_rp_ids rid s rs :
  map ReservaProduto.id (gravar_status_rp rid s rs) = map ReservaProduto.id rs.
Proof.
  unfold gravar_status_rp. rewrite map_map. apply map_ext.
  intros r. now destruct (ReservaProduto.id r =? rid).
Qed.

Lemma gravar_quantidade_ids cid q cs :
  map Carrinho.id (gravar_quantidade cid q cs) = map Carrinho.id cs.
Proof.
  unfold gravar_quantidade. rewrite map_map. apply map_ext.
  intros i. now destruct (Carrinho.id i =? cid).
Qed.

Lemma abater_estoque_ids cart : forall ps,
  map Produto.id (fst (abater_estoque cart ps)) = map Produto.id ps.
Proof.
  induction cart as [|i rest IH]; intros ps; simpl; [easy|].
  destruct (produto_por_id (Carrinho.produto_id i) ps); [|easy].
  now rewrite IH, gravar_estoque_ids.
Qed.

Lemma criar_itens_chaves rid ps cart : forall acc its,
  criar_itens rid ps cart acc = Some its ->
  NoDup (map ItemReserva.id acc) -> NoDup (map ItemReserva.id its).
Proof.
  induction cart as [|i rest IH]; intros acc its H Hnd; simpl in H.
  - now inversion H; subst.
  - destruct (produto_por_id (Carrinho.produto_id i) ps); [|discriminate].
    eapply IH; [exact H|]. rewrite map_app. simpl.
    now apply NoDup_next_id.
Qed.

Lemma devolver_estoque_ids its : forall ps ps',
  devolver_estoque its ps = Some ps' -> map Produto.id ps' = map Produto.id ps.
Proof.
  induction its as [|it rest IH]; intros ps ps' H; simpl in H.
  - now inversion H.
  - destruct (produto_por_id (ItemReserva.produto_id it) ps); [|discriminate].
    apply IH in H. now rewrite H, gravar_estoque_ids.
Qed.

(** What a loop of the sweep keeps, whether it raises or not. *)
Lemma cancelar_todas_mantem L : forall db,
  let db' := fst (cancelar_todas L db) in
  map Produto.id (produtos db') = map Produto.id (produtos db)
  /\ map ReservaProduto.id (reservas_produtos db')
     = map ReservaProduto.id (reservas_produtos db)
  /\ itens_reserva db' = itens_reserva db
  /\ carrinho db' = carrinho db.
Proof.
  induction L as [|r rest IH]; intros db; simpl; [easy|].
  destruct (cancelar_uma r db) as [db1|] eqn:E; [|easy].
  unfold cancelar_uma in E.
  destruct (devolver_estoque _ _) as [ps|] eqn:Ed; [|discriminate].
  inversion E; subst db1. clear E.
  destruct (IH (com_produtos ps
                  (com_reservas_produtos
                     (gravar_status_rp (ReservaProduto.id r) CANCELADO
                        (reservas_produtos db)) db))) as [H1 [H2 [H3 H4]]].
  simpl in *. rewrite H1, H2, H3, H4.
  apply devolver_estoque_ids in Ed. rewrite Ed, gravar_status_rp_ids. easy.
Qed.

Lemma cancelar_expiradas_mantem agora loja_id db :
  let db' := fst (cancelar_expiradas agora loja_id db) in
  map Produto.id (produtos db') = map Produto.id (produtos db)
  /\ map ReservaProduto.id (reservas_produtos db')
     = map ReservaProduto.id (reservas_produtos db)
  /\ itens_reserva db' = itens_reserva db
  /\ carrinho db' = carrinho db.
Proof.
  unfold cancelar_expiradas.
  pose proof (cancelar_todas_mantem
                (filter (expirada_2dias loja_id agora) (reservas_produtos db))
                db) as H1.
  destruct (cancelar_todas _ db) as [db1 [|]]; simpl in H1; [|exact H1].
  pose proof (cancelar_todas_mantem
                (filter (expirada_4dias loja_id agora) (reservas_produtos db1))
                db1) as H2.
  destruct H1 as [A1 [A2 [A3 A4]]].
  destruct (cancelar_todas _ db1) as [db2 [|]]; simpl in *;
    destruct H2 as [B1 [B2 [B3 B4]]];
    rewrite B1, B2, B3, B4, A1, A2, A3, A4; easy.
Qed.

Lemma finalizar_chaves agora c db :
  chaves_primarias db -> chaves_primarias (fst (finalizar_carrinho agora c db)).
Proof.
  intros Hk. pose proof Hk as [K1 [K2 [K3 K4]]]. unfold finalizar_carrinho.
  set (cart := itens_do_cliente c (carrinho db)).
  destruct cart as [|i0 rest] eqn:Ec; [exact Hk|]. rewrite <- Ec.
  destruct (validar_carrinho (produtos db) cart None) as [e|[l|]];
    try exact Hk.
  pose proof (abater_estoque_ids cart (produtos db)) as Hids.
  destruct (abater_estoque cart (produtos db)) as [ps ok]. simpl in Hids.
  assert (Kp : NoDup (map Produto.id ps)) by (rewrite Hids; exact K1).
  destruct ok.
  2:{ repeat split; simpl; easy. }
  cbn [produtos com_reservas_produtos com_produtos itens_reserva
       reservas_produtos].
  assert (Kr : NoDup (map ReservaProduto.id
                        (reservas_produtos db ++
                           [ReservaProduto.mk
                              (next_id (map ReservaProduto.id (reservas_produtos db)))
                              c l agora RESERVADO (Some (agora + dias 2))]))).
  { rewrite map_app. simpl. now apply NoDup_next_id. }
  destruct (criar_itens _ ps cart (itens_reserva db)) as [its|] eqn:Ei.
  2:{ repeat split; simpl; easy. }
  apply criar_itens_chaves in Ei; [|exact K4].
  repeat split; simpl; try easy.
  unfold chaves_carrinho; simpl. rewrite limpar_carrinho_filter.
  now apply NoDup_map_filter.
Qed.

Lemma executar_chaves o db :
  chaves_primarias db -> chaves_primarias (executar o db).
Proof.
  intros Hk. pose proof Hk as [K1 [K2 [K3 K4]]].
  destruct o; simpl.
  - exact Hk.
  - exact Hk.
  - unfold cadastrar_produto_com_imagem. quebrar; [|exact Hk].
    repeat split; simpl; try easy.
    unfold chaves_produtos; simpl. rewrite map_app. simpl.
    now apply NoDup_next_id.
  - unfold remover_produto. quebrar; [|exact Hk].
    repeat split; simpl; try easy.
    unfold chaves_produtos, apagar_produto; simpl. now apply NoDup_map_filter.
  - unfold adicionar_item_carrinho.
    assert (Hins : chaves_primarias
                     (fst (inserir_ou_somar cliente_id produto_id
                             match quantidade with Some q => q | None => 1 end
                             db))).
    { unfold inserir_ou_somar. quebrar; repeat split; simpl; try easy.
      - unfold chaves_carrinho; simpl. now rewrite gravar_quantidade_ids.
      - unfold chaves_carrinho; simpl. rewrite map_app. simpl.
        now apply NoDup_next_id. }
    repeat (quebrar; try exact Hk; try exact Hins).
  - unfold remover_item_carrinho. repeat (quebrar; try exact Hk).
    repeat split; simpl; try easy.
    unfold chaves_carrinho, apagar_carrinho; simpl. now apply NoDup_map_filter.
  - now apply finalizar_chaves.
  - unfold marcar_retirada. repeat (quebrar; try exact Hk).
    repeat split; simpl; try easy.
    unfold chaves_reservas_produtos; simpl. now rewrite gravar_status_rp_ids.
  - unfold cliente_marcar_retirada. repeat (quebrar; try exact Hk).
    repeat split; simpl; try easy.
    unfold chaves_reservas_produtos; simpl. now rewrite gravar_status_rp_ids.
  - destruct (cancelar_expiradas_mantem agora loja_id db) as [H1 [H2 [H3 H4]]].
    unfold chaves_primarias, chaves_produtos, chaves_carrinho,
      chaves_reservas_produtos, chaves_itens_reserva.
    now rewrite H1, H2, H3, H4.
Qed.

(** X7.  The primary keys of products, cart lines, product reservations
    and line items are unique in every state the empty database reaches,
    whatever the requests. *)
Theorem chaves_primarias_alcancavel db :
  alcancavel qualquer db -> chaves_primarias db.
Proof.
  induction 1 as [|o db Hdb IH Ho].
  - repeat split; constructor.
  - now apply executar_chaves.
Qed.

Lemma produto_por_id_presente pid ps :
  In pid (map Produto.id ps) -> exists p, produto_por_id pid ps = Some p.
Proof.
  intros H. apply produto_por_id_existe. apply in_map_iff in H.
  destruct H as [p [Hp Hin]]. now exists p.
Qed.

Lemma produto_por_id_id pid ps p :
  produto_por_id pid ps = Some p -> In pid (map Produto.id ps).
Proof.
  intros H. apply produto_por_id_Some in H. destruct H as [H <-].
  now apply in_map.
Qed.

Lemma devolver_estoque_presentes its : forall ps,
  (forall it, In it its -> In (ItemReserva.produto_id it) (map Produto.id ps)) ->
  exists ps', devolver_estoque its ps = Some ps'.
Proof.
  induction its as [|it rest IH]; intros ps H; simpl; [eauto|].
  destruct (produto_por_id_presente (ItemReserva.produto_id it) ps) as [p Hp];
    [apply H; now left|].
  rewrite Hp. apply IH. intros x Hx. rewrite gravar_estoque_ids.
  apply H. now right.
Qed.

Lemma cancelar_todas_sem_erro L : forall db,
  (forall it, In it (itens_reserva db) ->
     In (ItemReserva.produto_id it) (map Produto.id (produtos db))) ->
  snd (cancelar_todas L db) = true.
Proof.
  induction L as [|r rest IH]; intros db H; simpl; [easy|].
  unfold cancelar_uma.
  destruct (devolver_estoque_presentes
              (itens_da_reserva (ReservaProduto.id r) (itens_reserva db))
              (produtos db)) as [ps Hps].
  { intros it Hit. apply filter_In in Hit. apply H. tauto. }
  rewrite Hps. apply IH. simpl. intros it Hit.
  apply devolver_estoque_ids in Hps. rewrite Hps. now apply H.
Qed.

Lemma cancelar_expiradas_sem_erro agora loja_id db :
  (forall it, In it (itens_reserva db) ->
     In (ItemReserva.produto_id it) (map Produto.id (produtos db))) ->
  snd (cancelar_expiradas agora loja_id db) = ExpiradasCanceladas.
Proof.
  intros H. unfold cancelar_expiradas.
  pose proof (cancelar_todas_sem_erro
                (filter (expirada_2dias loja_id agora) (reservas_produtos db))
                db H) as H1.
  pose proof (cancelar_todas_mantem
                (filter (expirada_2dias loja_id agora) (reservas_produtos db))
                db) as M1.
  destruct (cancelar_todas _ db) as [db1 ok1]. simpl in H1, M1. subst ok1.
  destruct M1 as [A1 [_ [A3 _]]].
  pose proof (cancelar_todas_sem_erro
                (filter (expirada_4dias loja_id agora) (reservas_produtos db1))
                db1) as H2.
  destruct (cancelar_todas _ db1) as [db2 ok2]. simpl in H2.
  rewrite H2; [reflexivity|]. rewrite A1, A3. exact H.
Qed.

Lemma abater_estoque_sem_erro cart : forall ps,
  (forall i, In i cart -> In (Carrinho.produto_id i) (map Produto.id ps)) ->
  snd (abater_estoque cart ps) = true.
Proof.
  induction cart as [|i rest IH]; intros ps H; simpl; [easy|].
  destruct (produto_por_id_presente (Carrinho.produto_id i) ps) as [p Hp];
    [apply H; now left|].
  rewrite Hp. apply IH. intros j Hj. rewrite gravar_estoque_ids.
  apply H. now right.
Qed.

Lemma criar_itens_presentes rid ps cart : forall acc,
  (forall i, In i cart -> In (Carrinho.produto_id i) (map Produto.id ps)) ->
  (forall it, In it acc -> In (ItemReserva.produto_id it) (map Produto.id ps)) ->
  exists its,
    criar_itens rid ps cart acc = Some its
    /\ forall it, In it its ->
         In (ItemReserva.produto_id it) (map Produto.id ps).
Proof.
  induction cart as [|i rest IH]; intros acc Hc Ha; simpl; [eauto|].
  destruct (produto_por_id_presente (Carrinho.produto_id i) ps) as [p Hp];
    [apply Hc; now left|].
  rewrite Hp. apply IH.
  - intros j Hj. apply Hc. now right.
  - intros it Hit. apply in_app_or in Hit. destruct Hit as [Hit|[<-|[]]].
    + now apply Ha.
    + simpl. apply produto_por_id_Some in Hp. destruct Hp as [Hp _].
      now apply in_map.
Qed.

(** With the foreign keys to products holding, a checkout answers neither
    the 404 for a missing product nor a 500, and keeps the foreign keys. *)
Lemma finalizar_referencias agora c db :
  referencias_a_produtos db ->
  referencias_a_produtos (fst (finalizar_carrinho agora c db))
  /\ snd (finalizar_carrinho agora c db) <> ProdutoNoCarrinhoNaoExiste
  /\ snd (finalizar_carrinho agora c db) <> FinalizarErro500.
Proof.
  intros Href. pose proof Href as [R1 R2]. unfold finalizar_carrinho.
  set (cart := itens_do_cliente c (carrinho db)).
  assert (Hcart : forall i, In i cart ->
            In (Carrinho.produto_id i) (map Produto.id (produtos db))).
  { intros i Hi. apply R1. unfold cart in Hi. apply filter_In in Hi. tauto. }
  destruct cart as [|i0 rest] eqn:Ec.
  { split; [exact Href|]. split; discriminate. }
  rewrite <- Ec in *.
  destruct (validar_carrinho (produtos db) cart None) as [e|x] eqn:Ev.
  - split; [exact Href|]. simpl. split; [|].
    + intros ->. clear Ec.
      assert (Hno : forall itens lo,
                (forall i, In i itens ->
                   In (Carrinho.produto_id i) (map Produto.id (produtos db))) ->
                validar_carrinho (produtos db) itens lo
                <> inl ProdutoNoCarrinhoNaoExiste).
      { induction itens as [|i r IH]; intros lo Hc; simpl; [discriminate|].
        destruct (produto_por_id_presente (Carrinho.produto_id i) (produtos db))
          as [p Hp]; [apply Hc; now left|].
        rewrite Hp.
        assert (Hr : forall lo', validar_carrinho (produtos db) r lo'
                                 <> inl ProdutoNoCarrinhoNaoExiste)
          by (intros lo'; apply IH; intros j Hj; apply Hc; now right).
        destruct lo as [l|].
        - destruct (negb (Produto.loja_id p =? l)); [discriminate|].
          destruct (_ <? _); [discriminate|apply Hr].
        - destruct (_ <? _); [discriminate|apply Hr]. }
      now apply (Hno cart None Hcart).
    + apply validar_inl in Ev.
      destruct Ev as [->|[[-> _]|[n [-> _]]]]; discriminate.
  - assert (exists l, x = Some l) as [l ->].
    { apply validar_inr in Ev. destruct Ev as [_ Hall].
      destruct (Hall i0) as [p [_ [Hx _]]]; [rewrite Ec; now left|]. eauto. }
    pose proof (abater_estoque_sem_erro cart (produtos db) Hcart) as Hok.
    pose proof (abater_estoque_ids cart (produtos db)) as Hids.
    destruct (abater_estoque cart (produtos db)) as [ps ok].
    simpl in Hok, Hids. subst ok.
    cbn [produtos com_reservas_produtos com_produtos itens_reserva
         reservas_produtos ReservaProduto.id].
    destruct (criar_itens_presentes
                (next_id (map ReservaProduto.id (reservas_produtos db)))
                ps cart (itens_reserva db)) as [its [Ei Hits]].
    { intros i Hi. rewrite Hids. now apply Hcart. }
    { intros it Hit. rewrite Hids. now apply R2. }
    rewrite Ei. simpl. split; [|split; discriminate].
    split; simpl.
    + intros i Hi. rewrite limpar_carrinho_filter in Hi.
      apply filter_In in Hi. rewrite Hids. apply R1. tauto.
    + exact Hits.
Qed.

Lemma executar_referencias o db :
  sem_remocao_de_produto o ->
  referencias_a_produtos db -> referencias_a_produtos (executar o db).
Proof.
  intros Ho Href. pose proof Href as [R1 R2].
  destruct o; simpl in *.
  - exact Href.
  - exact Href.
  - unfold cadastrar_produto_com_imagem. quebrar; [|exact Href].
    split; simpl; intros x Hx; rewrite map_app; apply in_or_app; left;
      [now apply R1|now apply R2].
  - contradiction.
  - unfold adicionar_item_carrinho.
    destruct (produto_id =? 0); [exact Href|].
    destruct (negb (existe cliente_id (clientes db))); [exact Href|].
    destruct (produto_por_id produto_id (produtos db)) as [p|] eqn:Ep;
      [|exact Href].
    assert (Hins : referencias_a_produtos
                     (fst (inserir_ou_somar cliente_id produto_id
                             match quantidade with Some q => q | None => 1 end
                             db))).
    { unfold inserir_ou_somar. quebrar; split; simpl; try exact R2.
      - intros i Hi. unfold gravar_quantidade in Hi. apply in_map_iff in Hi.
        destruct Hi as [j [<- Hj]].
        destruct (Carrinho.id j =? Carrinho.id t); simpl; now apply R1.
      - intros i Hi. apply in_app_or in Hi. destruct Hi as [Hi|[<-|[]]];
          [now apply R1|]. simpl. now apply produto_por_id_id in Ep. }
    repeat (quebrar; try exact Href; try exact Hins).
  - unfold remover_item_carrinho. repeat (quebrar; try exact Href).
    split; simpl; [|exact R2].
    intros i Hi. apply filter_In in Hi. apply R1. tauto.
  - now apply finalizar_referencias.
  - unfold marcar_retirada. repeat (quebrar; try exact Href).
  - unfold cliente_marcar_retirada. repeat (quebrar; try exact Href).
  - destruct (cancelar_expiradas_mantem agora loja_id db) as [H1 [_ [H3 H4]]].
    unfold referencias_a_produtos. now rewrite H1, H3, H4.
Qed.

(** X8.  As long as no product is removed, every cart line and every line
    item names a product of the table, in every reachable state; there
    the sweep never raises, and a checkout answers neither "product of
    the cart does not exist" nor a 500. *)
Theorem sem_remocao_sem_erro db :
  alcancavel sem_remocao_de_produto db ->
  referencias_a_produtos db
  /\ (forall agora loja_id,
        snd (cancelar_expiradas agora loja_id db) = ExpiradasCanceladas)
  /\ (forall agora c,
        snd (finalizar_carrinho agora c db) <> ProdutoNoCarrinhoNaoExiste
        /\ snd (finalizar_carrinho agora c db) <> FinalizarErro500).
Proof.
  intros Hdb.
  assert (Href : referencias_a_produtos db).
  { induction Hdb as [|o db Hdb IH Ho].
    - split; intros x [].
    - now apply executar_referencias. }
  split; [exact Href|]. split.
  - intros agora loja_id. apply cancelar_expiradas_sem_erro. apply Href.
  - intros agora c. now apply finalizar_referencias.
Qed.

(** ** A checkout followed by the expiry of its reservation *)

(** The checkout of a valid cart, as a database. *)
Lemma finalizar_carrinho_resultado agora c db l :
  let cart := itens_do_cliente c (carrinho db) in
  chaves_produtos db -> chaves_carrinho db ->
  cart <> [] ->
  (forall i, In i cart ->
     exists p, In p (produtos db)
               /\ Produto.id p = Carrinho.produto_id i
               /\ Produto.loja_id p = l
               /\ Carrinho.quantidade i <= Produto.quantidade_estoque p) ->
  exists rid novos,
    finalizar_carrinho agora c db =
      (mkDB (clientes db) (lojas db) (servicos db)
         (map (fun p => Produto.com_estoque
                          (Produto.quantidade_estoque p
                           - quantidade_pedida (Produto.id p) cart) p)
              (produtos db))
         (filter (fun i => negb (Carrinho.cliente_id i =? c)) (carrinho db))
         (reservas_produtos db
            ++ [ReservaProduto.mk rid c l agora RESERVADO (Some (agora + dias 2))])
         (itens_reserva db ++ novos)
         (servicos_horarios db) (reservas_servicos db),
       ReservaCriada rid (agora + dias 2))
    /\ ~ In rid (map ReservaProduto.id (reservas_produtos db))
    /\ Forall2 (item_da_linha rid (produtos db)) cart novos.
Proof.
  intros cart Hkp Hkc Hne Hall.
  assert (Hfound : forall i, In i cart ->
            exists p, produto_por_id (Carrinho.produto_id i) (produtos db) = Some p
                      /\ Produto.loja_id p = l
                      /\ Carrinho.quantidade i <= Produto.quantidade_estoque p).
  { intros i Hi. destruct (Hall i Hi) as [p [Hp [Hid [Hl Hq]]]].
    exists p. rewrite <- Hid. split; [now apply produto_por_id_NoDup|easy]. }
  unfold finalizar_carrinho. fold cart.
  rewrite (validar_sucesso (produtos db) cart l None (or_introl eq_refl) Hfound).
  destruct cart as [|i0 rest] eqn:Ec; [easy|]. rewrite <- Ec in *.
  erewrite abater_ajustar.
  2:{ apply ajustar_total; [exact Hkp|].
      intros d Hd. apply in_map_iff in Hd. destruct Hd as [i [<- Hi]].
      destruct (Hall i Hi) as [p Hp]. exists p. simpl. tauto. }
  simpl.
  edestruct (criar_itens_ok
               (next_id (map ReservaProduto.id (reservas_produtos db)))
               (fun p => Produto.quantidade_estoque p
                         + ajuste_total (Produto.id p)
                             (map (fun i => (Carrinho.produto_id i,
                                             - Carrinho.quantidade i)) cart))
               (produtos db) cart (itens_reserva db))
    as [novos [E F]].
  { intros i Hi. destruct (Hfound i Hi) as [p [Hp _]]. now exists p. }
  rewrite E. simpl.
  exists (next_id (map ReservaProduto.id (reservas_produtos db))), novos.
  split; [|split; [apply next_id_novo|exact F]].
  f_equal. unfold com_carrinho, com_itens_reserva, com_reservas_produtos,
    com_produtos; simpl.
  f_equal.
  - apply map_ext. intros p. rewrite ajuste_total_pedida. f_equal.
  - fold (itens_do_cliente c (carrinho db)). fold cart.
    unfold cart. now apply limpar_carrinho_do_cliente.
Qed.

(** The sweep without a raise, as a database. *)
Lemma cancelar_expiradas_resultado agora loja_id db :
  chaves_reservas_produtos db -> chaves_produtos db ->
  itens_com_produto loja_id agora db ->
  cancelar_expiradas agora loja_id db =
    (mkDB (clientes db) (lojas db) (servicos db)
       (map (fun p =>
               Produto.com_estoque
                 (Produto.quantidade_estoque p
                  + quantidade_devolvida (Produto.id p)
                      (filter (deve_cancelar loja_id agora) (reservas_produtos db))
                      (itens_reserva db)) p)
            (produtos db))
       (carrinho db)
       (map (fun r => if deve_cancelar loja_id agora r
                      then ReservaProduto.com_status CANCELADO r else r)
            (reservas_produtos db))
       (itens_reserva db) (servicos_horarios db) (reservas_servicos db),
     ExpiradasCanceladas).
Proof.
  intros Hkr Hkp Hint.
  unfold cancelar_expiradas.
  set (rs := reservas_produtos db).
  set (L1 := filter (expirada_2dias loja_id agora) rs).
  rewrite (cancelar_todas_total L1 db Hkp).
  2:{ intros r it Hr Hit Hid. apply filter_In in Hr. destruct Hr as [Hr Hp].
      apply (Hint r it); try easy. unfold deve_cancelar. now rewrite Hp. }
  cbn [reservas_produtos com_produtos com_reservas_produtos].
  fold rs.
  assert (HL2 : filter (expirada_4dias loja_id agora) (cancelar_em L1 rs)
                = filter (fun r => expirada_4dias loja_id agora r
                                   && negb (expirada_2dias loja_id agora r)) rs).
  { rewrite filter_cancelar_em by apply expirada_4dias_pede.
    apply filter_ext_in. intros r Hr. unfold L1.
    now rewrite esta_em_filter. }
  rewrite HL2.
  set (L2 := filter (fun r => expirada_4dias loja_id agora r
                              && negb (expirada_2dias loja_id agora r)) rs).
  rewrite cancelar_todas_total.
  2:{ unfold chaves_produtos in *; simpl. rewrite map_map. exact Hkp. }
  2:{ intros r it Hr Hit Hid. simpl in *.
      apply filter_In in Hr. destruct Hr as [Hr Hp].
      apply andb_true_iff in Hp. destruct Hp as [Hp _].
      destruct (Hint r it) as [p [Hp1 Hp2]]; try easy.
      { unfold deve_cancelar. rewrite Hp. apply orb_true_r. }
      eexists. split; [apply in_map; exact Hp1|exact Hp2]. }
  f_equal. unfold com_produtos, com_reservas_produtos; simpl. f_equal.
  - rewrite map_map. apply map_ext. intros p.
    unfold quantidade_devolvida, deve_cancelar. rewrite soma_filter_ou.
    fold rs L1 L2.
    destruct p; unfold Produto.com_estoque; simpl. f_equal. lia.
  - unfold cancelar_em. rewrite map_map. apply map_ext_in. intros r Hr.
    fold rs in Hr.
    assert (E1 : esta_em r L1 = expirada_2dias loja_id agora r)
      by (unfold L1; now apply esta_em_filter).
    assert (E2 : forall x, ReservaProduto.id x = ReservaProduto.id r ->
                   esta_em x L2 = expirada_4dias loja_id agora r
                                  && negb (expirada_2dias loja_id agora r)).
    { intros x Hx. transitivity (esta_em r L2).
      - unfold esta_em. now rewrite Hx.
      - unfold L2. now rewrite esta_em_filter. }
    rewrite E1. unfold deve_cancelar.
    destruct (expirada_2dias loja_id agora r) eqn:Ea.
    + rewrite E2 by easy. now rewrite andb_false_r.
    + rewrite E2 by easy. simpl. rewrite andb_true_r.
      now destruct (expirada_4dias loja_id agora r).
Qed.

Lemma NoDup_novo {A} (l : list A) x : NoDup l -> ~ In x l -> NoDup (l ++ [x]).
Proof.
  intros H Hx. apply NoDup_app; repeat split;
    [exact H|repeat constructor; easy|].
  intros y Hy [<-|[]]. contradiction.
Qed.

Lemma item_da_linha_reservada rid ps pid cart novos :
  Forall2 (item_da_linha rid ps) cart novos ->
  quantidade_reservada pid novos = quantidade_pedida pid cart
  /\ itens_da_reserva rid novos = novos
  /\ forall it, In it novos ->
       exists p, In p ps /\ Produto.id p = ItemReserva.produto_id it.
Proof.
  unfold quantidade_reservada, quantidade_pedida, soma, itens_da_reserva.
  induction 1 as [|i it cart novos [H1 [H2 [H3 [p [Hp _]]]]] F IH]; simpl.
  - repeat split. intros it [].
  - destruct IH as [IH1 [IH2 IH3]]. rewrite H1, H2, H3, Z.eqb_refl, IH1, IH2.
    repeat split. intros x [<-|Hx]; [|now apply IH3].
    apply produto_por_id_Some in Hp. exists p. rewrite H2. tauto.
Qed.

(** X9.  A checkout and the expiry of its reservation cancel out on the
    stock.  With keys unique and line items belonging to reservations of
    the table: after the checkout of a valid cart at [agora], a sweep of
    the store later than [agora + 2 days], at a time when no other
    reservation of the table is due, succeeds, gives every product the
    stock it had before the checkout, and leaves the new reservation
    CANCELADO. *)
Theorem finalizar_e_expirar agora agora' c db l :
  let cart := itens_do_cliente c (carrinho db) in
  chaves_produtos db -> chaves_carrinho db -> chaves_reservas_produtos db ->
  itens_com_reserva db ->
  cart <> [] ->
  (forall i, In i cart ->
     exists p, In p (produtos db)
               /\ Produto.id p = Carrinho.produto_id i
               /\ Produto.loja_id p = l
               /\ Carrinho.quantidade i <= Produto.quantidade_estoque p) ->
  agora + dias 2 < agora' ->
  (forall r, In r (reservas_produtos db) -> deve_cancelar l agora' r = false) ->
  exists rid db1 db2,
    finalizar_carrinho agora c db = (db1, ReservaCriada rid (agora + dias 2))
    /\ cancelar_expiradas agora' l db1 = (db2, ExpiradasCanceladas)
    /\ produtos db2 = produtos db
    /\ reservas_produtos db2
       = reservas_produtos db
         ++ [ReservaProduto.mk rid c l agora CANCELADO (Some (agora + dias 2))].
Proof.
  intros cart Hkp Hkc Hkr Hfk Hne Hall Htempo Hnenhuma.
  destruct (finalizar_carrinho_resultado agora c db l Hkp Hkc Hne Hall)
    as [rid [novos [E1 [Hrid F]]]].
  fold cart in E1, F.
  set (nova := ReservaProduto.mk rid c l agora RESERVADO (Some (agora + dias 2)))
    in *.
  set (db1 := mkDB (clientes db) (lojas db) (servicos db)
                (map (fun p => Produto.com_estoque
                                 (Produto.quantidade_estoque p
                                  - quantidade_pedida (Produto.id p) cart) p)
                     (produtos db))
                (filter (fun i => negb (Carrinho.cliente_id i =? c)) (carrinho db))
                (reservas_produtos db ++ [nova])
                (itens_reserva db ++ novos)
                (servicos_horarios db) (reservas_servicos db)) in *.
  assert (Hnova : deve_cancelar l agora' nova = true).
  { unfold deve_cancelar, expirada_2dias, nova.
    cbn [ReservaProduto.loja_id ReservaProduto.status
         ReservaProduto.data_limite].
    rewrite Z.eqb_refl. apply Z.ltb_lt in Htempo. rewrite Htempo.
    reflexivity. }
  assert (Hfiltro : filter (deve_cancelar l agora') (reservas_produtos db ++ [nova])
                    = [nova]).
  { rewrite filter_app, filter_nenhum by exact Hnenhuma.
    simpl. now rewrite Hnova. }
  assert (Hitens : forall pid,
            itens_da_reserva rid (itens_reserva db ++ novos) = novos
            /\ quantidade_reservada pid novos = quantidade_pedida pid cart).
  { intros pid.
    destruct (item_da_linha_reservada rid (produtos db) pid cart novos F)
      as [Hq [Hi _]].
    split; [|exact Hq]. unfold itens_da_reserva in *.
    rewrite filter_app, Hi, filter_nenhum; [reflexivity|].
    intros it Hit. apply Z.eqb_neq. intros E. apply Hrid.
    rewrite <- E. now apply Hfk. }
  assert (K1 : chaves_reservas_produtos db1).
  { unfold chaves_reservas_produtos, db1; simpl. rewrite map_app. simpl.
    now apply NoDup_novo. }
  assert (K2 : chaves_produtos db1).
  { unfold chaves_produtos, db1; simpl. rewrite map_map. exact Hkp. }
  assert (K3 : itens_com_produto l agora' db1).
  { intros r it Hr Hdeve Hit Hid. unfold db1 in *; simpl in *.
    apply in_app_or in Hr. destruct Hr as [Hr|[<-|[]]].
    { rewrite Hnenhuma in Hdeve by exact Hr. discriminate. }
    simpl in Hid. apply in_app_or in Hit. destruct Hit as [Hit|Hit].
    { exfalso. apply Hrid. rewrite <- Hid. now apply Hfk. }
    destruct (item_da_linha_reservada rid (produtos db) 0 cart novos F)
      as [_ [_ Hp]].
    destruct (Hp it Hit) as [p [Hp1 Hp2]].
    eexists. split; [apply in_map; exact Hp1|exact Hp2]. }
  pose proof (cancelar_expiradas_resultado agora' l db1 K1 K2 K3) as E2.
  exists rid, db1. eexists. split; [exact E1|]. split; [exact E2|].
  unfold db1; simpl. split.
  - rewrite map_map. rewrite <- (map_id (produtos db)) at 2.
    apply map_ext. intros p. fold nova. rewrite Hfiltro.
    unfold quantidade_devolvida, soma; simpl.
    destruct (Hitens (Produto.id p)) as [-> ->].
    destruct p; unfold Produto.com_estoque; simpl. f_equal. lia.
  - rewrite map_app. simpl. fold nova. rewrite Hnova. f_equal.
    rewrite <- (map_id (reservas_produtos db)) at 2. apply map_ext_in.
    intros r Hr. now rewrite Hnenhuma.
Qed.

(** ** Booking, cancelling, accepting and rejecting appointments *)

Lemma find_map_inv {A} (f : A -> bool) (g : A -> A) l :
  (forall x, f (g x) = f x) ->
  find f (map g l) = option_map g (find f l).
Proof.
  intros H. induction l as [|x xs IH]; simpl; [easy|].
  rewrite H. destruct (f x); [reflexivity|exact IH].
Qed.

Lemma find_unico {A B} (k : A -> B) (f : A -> bool) l x :
  NoDup (map k l) -> In x l -> f x = true ->
  (forall y, In y l -> f y = true -> k y = k x) ->
  find f l = Some x.
Proof.
  intros Hnd Hin Hf Hk. destruct (find f l) as [y|] eqn:E.
  - apply find_some in E. destruct E as [Hy Hfy]. f_equal.
    eapply NoDup_map_igual; eauto.
  - eapply find_none in E; [|exact Hin]. congruence.
Qed.

(** What an accepted booking was decided on and what it wrote. *)
Lemma agendar_servico_forma c sid hid db db' rid :
  agendar_servico c sid hid db = (db', ServicoAgendado rid) ->
  exists s h,
    hid <> 0 /\ existe c (clientes db) = true
    /\ find (fun x => Servico.id x =? sid) (servicos db) = Some s
    /\ In h (servicos_horarios db)
    /\ ServicoHorario.id h = hid /\ ServicoHorario.servico_id h = sid
    /\ ServicoHorario.is_disponivel h = true
    /\ rid = next_id (map ReservaServico.id (reservas_servicos db))
    /\ db' = com_servicos_horarios
               (gravar_disponivel hid false (servicos_horarios db))
               (com_reservas_servicos
                  (reservas_servicos db
                     ++ [ReservaServico.mk rid c (Servico.loja_id s) sid
                           (ServicoHorario.horario h) PENDENTE]) db).
Proof.
  unfold agendar_servico. intros H.
  destruct (hid =? 0) eqn:E0; [discriminate|].
  destruct (existe c (clientes db)) eqn:Ec; [|discriminate]. simpl in H.
  destruct (find _ (servicos db)) as [s|] eqn:Es; [|discriminate].
  destruct (find _ (servicos_horarios db)) as [h|] eqn:Eh; [|discriminate].
  destruct (filter _ (reservas_servicos db)); [|discriminate].
  apply find_some in Eh. destruct Eh as [Hin Eh].
  rewrite !andb_true_iff in Eh. destruct Eh as [[E1 E2] E3].
  apply Z.eqb_eq in E1, E2. apply Z.eqb_neq in E0.
  inversion H; subst. exists s, h. simpl. repeat split; try easy.
Qed.

(** X10.  A booking takes its slot: once a booking of the slot [hid] has
    been accepted, every further booking that names this slot, by any
    customer and for any service, is refused and changes nothing. *)
Theorem agendar_servico_tranca c sid hid db db' rid :
  agendar_servico c sid hid db = (db', ServicoAgendado rid) ->
  forall c' sid',
    exists e,
      agendar_servico c' sid' hid db' = (db', e)
      /\ (e = AgendarClienteNaoEncontrado
          \/ e = AgendarServicoNaoEncontrado
          \/ e = HorarioIndisponivel).
Proof.
  intros H c' sid'.
  destruct (agendar_servico_forma c sid hid db db' rid H)
    as [s [h [H0 [_ [_ [_ [_ [_ [_ [_ Hdb]]]]]]]]]].
  unfold agendar_servico.
  assert ((hid =? 0) = false) as -> by now apply Z.eqb_neq.
  destruct (negb (existe c' (clientes db'))); [eauto|].
  destruct (find _ (servicos db')); [|eauto].
  assert (Hnone : find (fun x => (ServicoHorario.id x =? hid)
                                 && (ServicoHorario.servico_id x =? sid')
                                 && ServicoHorario.is_disponivel x)
                       (servicos_horarios db') = None).
  { destruct (find _ (servicos_horarios db')) as [x|] eqn:E; [|easy].
    exfalso. apply find_some in E. destruct E as [Hx E].
    rewrite !andb_true_iff in E. destruct E as [[E1 _] E3].
    rewrite Hdb in Hx. simpl in Hx. unfold gravar_disponivel in Hx.
    apply in_map_iff in Hx. destruct Hx as [y [<- Hy]].
    destruct (ServicoHorario.id y =? hid) eqn:Ey; simpl in *;
      [discriminate|congruence]. }
  rewrite Hnone. eauto 6.
Qed.

Lemma gravar_status_rs_novo rid s rs nova :
  ReservaServico.id nova = rid ->
  rid = next_id (map ReservaServico.id rs) ->
  gravar_status_rs rid s (rs ++ [nova])
  = rs ++ [ReservaServico.com_status s nova].
Proof.
  intros Hid Hrid. unfold gravar_status_rs. rewrite map_app. simpl.
  rewrite Hid, Z.eqb_refl. f_equal.
  rewrite <- (map_id rs) at 2. apply map_ext_in. intros x Hx.
  assert (ReservaServico.id x < rid)
    by (rewrite Hrid; apply next_id_maior; now apply in_map).
  assert ((ReservaServico.id x =? rid) = false) as -> by (apply Z.eqb_neq; lia).
  reflexivity.
Qed.

Lemma find_reserva_nova c rid rs nova :
  ReservaServico.id nova = rid -> ReservaServico.cliente_id nova = c ->
  rid = next_id (map ReservaServico.id rs) ->
  find (fun r => (ReservaServico.id r =? rid)
                 && (ReservaServico.cliente_id r =? c)) (rs ++ [nova])
  = Some nova.
Proof.
  intros Hid Hc Hrid. apply find_app_novo.
  - destruct (find _ rs) as [x|] eqn:E; [|easy]. exfalso.
    apply find_some in E. destruct E as [Hx E].
    apply andb_true_iff in E. destruct E as [E _]. apply Z.eqb_eq in E.
    assert (ReservaServico.id x < rid)
      by (rewrite Hrid; apply next_id_maior; now apply in_map).
    lia.
  - now rewrite Hid, Hc, !Z.eqb_refl.
Qed.

Lemma gravar_disponivel_volta hid hs h :
  NoDup (map ServicoHorario.id hs) -> In h hs ->
  ServicoHorario.id h = hid -> ServicoHorario.is_disponivel h = true ->
  gravar_disponivel hid true (gravar_disponivel hid false hs) = hs.
Proof.
  intros Hnd Hin Hid Hdisp. unfold gravar_disponivel. rewrite map_map.
  rewrite <- (map_id hs) at 2. apply map_ext_in. intros x Hx.
  destruct (ServicoHorario.id x =? hid) eqn:E; simpl.
  - rewrite E. apply Z.eqb_eq in E.
    assert (x = h) by (eapply NoDup_map_igual; eauto; congruence). subst x.
    destruct h; simpl in *. now subst.
  - now rewrite E.
Qed.

(** A booking cancelled in time, as a database. *)
Lemma agendar_e_cancelar_forma agora c sid hid t db db1 rid :
  chaves_horarios db -> horarios_unicos (servicos_horarios db) ->
  agendar_servico c sid hid db = (db1, ServicoAgendado rid) ->
  In (hid, t) (listar_horarios_disponiveis sid db) ->
  uma_hora <= t - agora ->
  exists s h,
    find (fun x => Servico.id x =? sid) (servicos db) = Some s
    /\ existe c (clientes db) = true
    /\ find (fun x => (ServicoHorario.id x =? hid)
                      && (ServicoHorario.servico_id x =? sid)
                      && ServicoHorario.is_disponivel x)
            (servicos_horarios db) = Some h
    /\ ServicoHorario.horario h = t
    /\ cancelar_reserva agora c rid db1
       = (com_reservas_servicos
            (reservas_servicos db
               ++ [ReservaServico.mk rid c (Servico.loja_id s) sid t CANCELADO])
            db,
          ReservaCancelada).
Proof.
  intros Hk Hu H Hlist Htempo.
  destruct (agendar_servico_forma c sid hid db db1 rid H)
    as [s [h [H0 [Hc [Hs [Hin [Hid [Hsid [Hdisp [Hrid Hdb]]]]]]]]]].
  assert (Ht : ServicoHorario.horario h = t).
  { unfold listar_horarios_disponiveis in Hlist. apply in_map_iff in Hlist.
    destruct Hlist as [x [Hx Hxin]]. apply filter_In in Hxin.
    destruct Hxin as [Hxin _]. inversion Hx as [[Hx1 Hx2]].
    assert (x = h).
    { apply (NoDup_map_igual ServicoHorario.id (servicos_horarios db));
        [exact Hk|exact Hxin|exact Hin|congruence]. }
    now subst x. }
  exists s, h. split; [exact Hs|]. split; [exact Hc|]. split.
  { apply (find_unico ServicoHorario.id); try easy.
    - now rewrite Hid, Hsid, Hdisp, !Z.eqb_refl.
    - intros y _ Hy. rewrite !andb_true_iff in Hy.
      destruct Hy as [[Hy _] _]. apply Z.eqb_eq in Hy. congruence. }
  split; [exact Ht|].
  set (nova := ReservaServico.mk rid c (Servico.loja_id s) sid
                 (ServicoHorario.horario h) PENDENTE) in *.
  unfold cancelar_reserva. rewrite Hdb.
  cbn [reservas_servicos com_servicos_horarios com_reservas_servicos
       servicos_horarios].
  rewrite (find_reserva_nova c rid (reservas_servicos db) nova eq_refl eq_refl Hrid).
  cbn [ReservaServico.status ReservaServico.data_horario
       ReservaServico.servico_id ReservaServico.id nova].
  assert ((ServicoHorario.horario h - agora <? uma_hora) = false) as Hlt
    by (apply Z.ltb_ge; lia).
  change (String.eqb PENDENTE CANCELADO) with false.
  change (String.eqb PENDENTE REJEITADA) with false.
  change (String.eqb PENDENTE PENDENTE) with true.
  cbn [orb negb]. rewrite Hlt.
  rewrite (gravar_status_rs_novo rid CANCELADO (reservas_servicos db) nova
             eq_refl Hrid).
  assert (Hfind : find (horario_em sid (ServicoHorario.horario h))
                       (gravar_disponivel hid false (servicos_horarios db))
                  = Some (ServicoHorario.com_disponivel false h)).
  { unfold gravar_disponivel. rewrite find_map_inv.
    2:{ intros x. now destruct (ServicoHorario.id x =? hid). }
    rewrite (find_unico
               (fun x => (ServicoHorario.servico_id x, ServicoHorario.horario x))
               _ _ h Hu Hin).
    - simpl. now rewrite Hid, Z.eqb_refl.
    - unfold horario_em. now rewrite Hsid, !Z.eqb_refl.
    - intros y _ Hy. unfold horario_em in Hy. apply andb_true_iff in Hy.
      destruct Hy as [Hy1 Hy2]. apply Z.eqb_eq in Hy1, Hy2. congruence. }
  rewrite Hfind.
  cbn [ServicoHorario.id ServicoHorario.com_disponivel].
  rewrite Hid, (gravar_disponivel_volta hid (servicos_horarios db) h Hk Hin Hid Hdisp).
  unfold nova. rewrite Ht. now destruct db.
Qed.

(** X11.  Booking and cancelling give the slot back.  With slot keys
    unique and at most one slot per service and timestamp: a booking of a
    listed slot, cancelled by its customer at least one hour before the
    slot's time, leaves every table as it was before the booking, but for
    the appointment itself, which stays in the table as CANCELADO. *)
Theorem agendar_e_cancelar agora c sid hid t db db1 rid :
  chaves_horarios db -> horarios_unicos (servicos_horarios db) ->
  agendar_servico c sid hid db = (db1, ServicoAgendado rid) ->
  In (hid, t) (listar_horarios_disponiveis sid db) ->
  uma_hora <= t - agora ->
  exists loja_id,
    cancelar_reserva agora c rid db1
    = (com_reservas_servicos
         (reservas_servicos db
            ++ [ReservaServico.mk rid c loja_id sid t CANCELADO]) db,
       ReservaCancelada).
Proof.
  intros Hk Hu H Hlist Htempo.
  destruct (agendar_e_cancelar_forma agora c sid hid t db db1 rid
              Hk Hu H Hlist Htempo) as [s [h [_ [_ [_ [_ E]]]]]].
  now exists (Servico.loja_id s).
Qed.

Lemma inicio_do_dia_antes t : datetime_do_dia (date t) 0 0 0 <= t.
Proof.
  unfold datetime_do_dia, date, microssegundos_por_dia.
  pose proof (Z.mul_div_le t 86400000000 ltac:(lia)). lia.
Qed.

(** X12.  A cancelled appointment still counts for the one-per-day rule:
    after booking a listed slot and cancelling it in time, the same
    customer's request to book that slot again (a slot not later than
    23:59:59 of its day) is refused with "you already have an appointment
    on this day", although the slot is available. *)
Theorem cancelada_ainda_bloqueia agora c sid hid t db db1 rid :
  chaves_horarios db -> horarios_unicos (servicos_horarios db) ->
  agendar_servico c sid hid db = (db1, ServicoAgendado rid) ->
  In (hid, t) (listar_horarios_disponiveis sid db) ->
  uma_hora <= t - agora ->
  t <= datetime_do_dia (date t) 23 59 59 ->
  exists db2,
    cancelar_reserva agora c rid db1 = (db2, ReservaCancelada)
    /\ In (hid, t) (listar_horarios_disponiveis sid db2)
    /\ agendar_servico c sid hid db2 = (db2, JaTemAgendamentoNesteDia).
Proof.
  intros Hk Hu H Hlist Htempo Hfim.
  destruct (agendar_e_cancelar_forma agora c sid hid t db db1 rid
              Hk Hu H Hlist Htempo) as [s [h [Hs [Hc [Hh [Ht E]]]]]].
  destruct (agendar_servico_forma c sid hid db db1 rid H) as [_ [_ [H0 _]]].
  set (db2 := com_reservas_servicos
                (reservas_servicos db
                   ++ [ReservaServico.mk rid c (Servico.loja_id s) sid t
                         CANCELADO]) db) in *.
  exists db2. split; [exact E|]. split; [exact Hlist|].
  destruct (agendar_servico_janela c sid hid db2 s h H0 Hc Hs Hh) as [Hj _].
  apply Hj.
  exists (ReservaServico.mk rid c (Servico.loja_id s) sid t CANCELADO).
  rewrite Ht. split; [simpl; apply in_or_app; right; now left|].
  split; [reflexivity|].
  cbn [ReservaServico.data_horario].
  split; [apply inicio_do_dia_antes|exact Hfim].
Qed.

Lemma gravar_status_rs_status rid s rs x :
  In x (gravar_status_rs rid s rs) -> ReservaServico.id x = rid ->
  ReservaServico.status x = s.
Proof.
  unfold gravar_status_rs. intros Hx Hid. apply in_map_iff in Hx.
  destruct Hx as [y [<- Hy]].
  destruct (ReservaServico.id y =? rid) eqn:E; [reflexivity|].
  simpl in Hid. apply Z.eqb_neq in E. contradiction.
Qed.


(** X14.  An appointment the customer cancelled can still be accepted:
    after a successful cancellation, [aceitar_reserva] on the same
    appointment succeeds, the appointment is ACEITO, and the slots are as
    the cancellation left them, the freed slot still free. *)
Theorem aceitar_reserva_cancelada agora c rid db db1 :
  cancelar_reserva agora c rid db = (db1, ReservaCancelada) ->
  exists db2,
    aceitar_reserva rid db1 = (db2, ReservaAceita)
    /\ servicos_horarios db2 = servicos_horarios db1
    /\ (exists r, In r (reservas_servicos db2) /\ ReservaServico.id r = rid)
    /\ forall r, In r (reservas_servicos db2) -> ReservaServico.id r = rid ->
         ReservaServico.status r = ACEITO.
Proof.
  intros H.
  assert (Hres : exists r0,
            In r0 (reservas_servicos db) /\ ReservaServico.id r0 = rid
            /\ reservas_servicos db1
               = gravar_status_rs rid CANCELADO (reservas_servicos db)).
  { unfold cancelar_reserva in H.
    destruct (find _ (reservas_servicos db)) as [r0|] eqn:E; [|discriminate].
    apply find_some in E. destruct E as [Hin E].
    apply andb_true_iff in E. destruct E as [E _]. apply Z.eqb_eq in E.
    exists r0. split; [exact Hin|]. split; [exact E|].
    destruct (_ || _)%bool; [discriminate|].
    destruct (_ <? _); [discriminate|].
    destruct (negb _); [discriminate|].
    rewrite E in H.
    destruct (find _ _); inversion H; reflexivity. }
  destruct Hres as [r0 [Hin0 [Hid0 Hrs]]].
  unfold aceitar_reserva.
  destruct (find _ (reservas_servicos db1)) as [x|] eqn:Ex.
  2:{ exfalso.
      assert (Hc0 : In (ReservaServico.com_status CANCELADO r0)
                       (reservas_servicos db1)).
      { rewrite Hrs. unfold gravar_status_rs. apply in_map_iff.
        exists r0. now rewrite Hid0, Z.eqb_refl. }
      eapply find_none in Ex; [|exact Hc0]. simpl in Ex.
      rewrite Hid0, Z.eqb_refl in Ex. discriminate. }
  apply find_some in Ex. destruct Ex as [Hx Ex]. apply Z.eqb_eq in Ex.
  assert (Hst : ReservaServico.status x = CANCELADO).
  { rewrite Hrs in Hx.
    exact (gravar_status_rs_status rid CANCELADO _ x Hx Ex). }
  rewrite Hst. change (String.eqb CANCELADO ACEITO) with false.
  eexists. split; [reflexivity|]. split; [reflexivity|]. simpl. split.
  - exists (ReservaServico.com_status ACEITO x). split; [|exact Ex].
    unfold gravar_status_rs. apply in_map_iff. exists x.
    now rewrite Z.eqb_refl.
  - intros r Hr Hid. rewrite Ex in Hr.
    exact (gravar_status_rs_status rid ACEITO _ r Hr Hid).
Qed.

Lemma listar_sem_o_horario hid sid hs :
  map (fun h => (ServicoHorario.id h, ServicoHorario.horario h))
      (filter (fun h => (ServicoHorario.servico_id h =? sid)
                        && ServicoHorario.is_disponivel h)
              (gravar_disponivel hid false hs))
  = filter (fun x => negb (fst x =? hid))
      (map (fun h => (ServicoHorario.id h, ServicoHorario.horario h))
           (filter (fun h => (ServicoHorario.servico_id h =? sid)
                             && ServicoHorario.is_disponivel h) hs)).
Proof.
  unfold gravar_disponivel.
  induction hs as [|x xs IH]; [reflexivity|]. cbn [map filter].
  destruct (ServicoHorario.id x =? hid) eqn:E.
  - cbn [ServicoHorario.servico_id ServicoHorario.is_disponivel
         ServicoHorario.com_disponivel].
    rewrite andb_false_r.
    destruct ((ServicoHorario.servico_id x =? sid)
              && ServicoHorario.is_disponivel x); [|exact IH].
    cbn [map filter fst]. rewrite E. exact IH.
  - destruct ((ServicoHorario.servico_id x =? sid)
              && ServicoHorario.is_disponivel x); [|exact IH].
    cbn [map filter fst]. rewrite E. cbn [negb]. now rewrite IH.
Qed.

(** X15.  The list of available slots is what can be booked: a slot that
    [listar_horarios_disponiveis] does not show for the service cannot be
    booked for it (the request is refused and changes nothing), and an
    accepted booking removes its slot, and nothing else, from the list of
    every service. *)
Theorem listar_horarios_e_agendar c sid hid db :
  (~ In hid (map fst (listar_horarios_disponiveis sid db)) ->
   exists e, agendar_servico c sid hid db = (db, e))
  /\ forall db' rid,
       agendar_servico c sid hid db = (db', ServicoAgendado rid) ->
       In hid (map fst (listar_horarios_disponiveis sid db))
       /\ forall sid',
            listar_horarios_disponiveis sid' db'
            = filter (fun x => negb (fst x =? hid))
                     (listar_horarios_disponiveis sid' db).
Proof.
  split.
  - intros Hnot. unfold agendar_servico.
    destruct (hid =? 0); [eauto|].
    destruct (negb (existe c (clientes db))); [eauto|].
    destruct (find _ (servicos db)); [|eauto].
    destruct (find _ (servicos_horarios db)) as [h|] eqn:E; [|eauto].
    exfalso. apply Hnot. apply find_some in E. destruct E as [Hin E].
    rewrite !andb_true_iff in E. destruct E as [[E1 E2] E3].
    apply Z.eqb_eq in E1. unfold listar_horarios_disponiveis.
    rewrite map_map. simpl. apply in_map_iff. exists h. split; [exact E1|].
    apply filter_In. split; [exact Hin|]. now rewrite E2, E3.
  - intros db' rid H.
    destruct (agendar_servico_forma c sid hid db db' rid H)
      as [s [h [H0 [_ [_ [Hin [Hid [Hsid [Hdisp [_ Hdb]]]]]]]]]].
    split.
    + unfold listar_horarios_disponiveis. rewrite map_map. simpl.
      apply in_map_iff. exists h. split; [exact Hid|].
      apply filter_In. split; [exact Hin|].
      now rewrite Hsid, Hdisp, Z.eqb_refl.
    + intros sid'. rewrite Hdb. unfold listar_horarios_disponiveis.
      cbn [servicos_horarios com_servicos_horarios].
      apply listar_sem_o_horario.
Qed.

(** ** Customer accounts *)

Lemma find_cpf_none cpf cs :
  find (fun c => (Cliente.cpf c =? cpf)%string) cs = None ->
  ~ In cpf (map Cliente.cpf cs).
Proof.
  intros H Hin. apply in_map_iff in Hin. destruct Hin as [x [Hx Hin]].
  eapply find_none in H; [|exact Hin]. simpl in H.
  rewrite Hx, String.eqb_refl in H. discriminate.
Qed.

Lemma find_app_achado {A} (f : A -> bool) l l' y :
  find f l = Some y -> find f (l ++ l') = Some y.
Proof.
  induction l as [|z zs IH]; simpl; [discriminate|].
  destruct (f z); [easy|exact IH].
Qed.

(** X16.  Registration keeps the CPF a key: whatever is submitted, a
    table without two customers of one CPF and without two of one id is
    still such a table after [registrar_cliente], and a request that is
    not answered "registered" leaves the table as it was. *)
Theorem registrar_cliente_cpf_unico hash_password sal nome idade cpf senha cs :
  cpfs_unicos cs -> NoDup (map Cliente.id cs) ->
  let resposta :=
    Contas.registrar_cliente hash_password sal nome idade cpf senha cs in
  cpfs_unicos (fst resposta)
  /\ NoDup (map Cliente.id (fst resposta))
  /\ ((forall n, snd resposta <> ClienteRegistrado n) -> fst resposta = cs).
Proof.
  intros Hu Hk resposta. subst resposta. unfold Contas.registrar_cliente.
  destruct (_ || _)%bool; [simpl; easy|].
  destruct (find _ cs) as [x|] eqn:E; [simpl; easy|].
  simpl. split; [|split].
  - unfold cpfs_unicos. rewrite map_app. simpl.
    apply NoDup_novo; [exact Hu|now apply find_cpf_none].
  - rewrite map_app. simpl. now apply NoDup_next_id.
  - intros H. exfalso. now apply (H (next_id (map Cliente.id cs))).
Qed.

(** X17.  Registration and login fit together.  Provided the password
    check accepts a password against its own digest: after a successful
    registration the login with the same CPF and password answers the id
    the registration gave, a login with a password the check refuses
    against that digest answers "wrong password", and every customer
    registered before logs in as before. *)
Theorem registrar_e_login hash_password verify_password
    sal nome idade cpf senha cs cs' n :
  (forall sal s, verify_password s (hash_password sal s) = true) ->
  Contas.registrar_cliente hash_password sal nome idade cpf senha cs
    = (cs', ClienteRegistrado n) ->
  Contas.login_cliente verify_password cpf senha cs' = LoginRealizado n
  /\ (forall outra,
        outra <> ""%string ->
        verify_password outra (hash_password sal senha) = false ->
        Contas.login_cliente verify_password cpf outra cs' = SenhaIncorreta)
  /\ (forall cpf' senha' m,
        Contas.login_cliente verify_password cpf' senha' cs = LoginRealizado m ->
        Contas.login_cliente verify_password cpf' senha' cs' = LoginRealizado m).
Proof.
  intros Hv H. unfold Contas.registrar_cliente in H.
  destruct (vazia nome || (idade =? 0) || vazia cpf || vazia senha) eqn:Ev;
    [discriminate|].
  destruct (find _ cs) as [x|] eqn:E; [discriminate|].
  inversion H; subst cs' n. clear H.
  rewrite !orb_false_iff in Ev. destruct Ev as [[[_ _] Ecpf] Esenha].
  assert (Hfind : find (fun c => (Cliente.cpf c =? cpf)%string)
                       (cs ++ [Cliente.mk (next_id (map Cliente.id cs)) nome
                                 idade cpf (hash_password sal senha)])
                  = Some (Cliente.mk (next_id (map Cliente.id cs)) nome idade
                            cpf (hash_password sal senha))).
  { apply find_app_novo; [exact E|]. simpl. apply String.eqb_refl. }
  split; [|split].
  - unfold Contas.login_cliente. rewrite Ecpf, Esenha, Hfind. simpl.
    now rewrite Hv.
  - intros outra Hne Hno. unfold Contas.login_cliente.
    assert (vazia outra = false) as -> by (now apply String.eqb_neq).
    rewrite Ecpf, Hfind. simpl. now rewrite Hno.
  - intros cpf' senha' m. unfold Contas.login_cliente.
    destruct (vazia cpf' || vazia senha'); [intros Hd; discriminate Hd|].
    destruct (find (fun c => (Cliente.cpf c =? cpf')%string) cs) as [y|] eqn:Ey;
      [|intros Hd; discriminate Hd].
    assert (find (fun c => (Cliente.cpf c =? cpf')%string)
                 (cs ++ [Cliente.mk (next_id (map Cliente.id cs)) nome idade
                           cpf (hash_password sal senha)]) = Some y) as ->.
    { now apply find_app_achado. }
    easy.
Qed.

(** ** Listings *)

(** X18.  A registered product shows in its store's listing: after a
    successful [cadastrar_produto_com_imagem] the listing of the store is
    the one before followed by the new product, with the name, price and
    stock submitted, and the listing of every other store is as before. *)
Theorem cadastrar_e_listar loja_id nome preco estoque db db' pid :
  cadastrar_produto_com_imagem loja_id nome preco estoque db
    = (db', ProdutoCadastrado pid) ->
  (exists antes,
     listar_produtos_loja loja_id db = Some antes
     /\ listar_produtos_loja loja_id db'
        = Some (antes ++ [Produto.mk pid nome preco loja_id estoque]))
  /\ ~ In pid (map Produto.id (produtos db))
  /\ forall outra, outra <> loja_id ->
       listar_produtos_loja outra db' = listar_produtos_loja outra db.
Proof.
  unfold cadastrar_produto_com_imagem. intros H.
  destruct (existe loja_id (lojas db)) eqn:El; [|discriminate].
  inversion H; subst db' pid. clear H.
  unfold listar_produtos_loja.
  cbn [lojas produtos com_produtos]. rewrite El. split; [|split].
  - eexists. split; [reflexivity|]. rewrite filter_app. simpl.
    now rewrite Z.eqb_refl.
  - apply next_id_novo.
  - intros outra Hne. destruct (existe outra (lojas db)); [|reflexivity].
    rewrite filter_app. simpl.
    assert ((loja_id =? outra) = false) as ->
      by (apply Z.eqb_neq; congruence).
    now rewrite app_nil_r.
Qed.

(** ** The further properties at concrete databases *)

Lemma finalizar_carrinho_duas_vezes_witness :
  finalizar_carrinho 1000 1 db_exemplo_checkout
  = (fst (finalizar_carrinho 1000 1 db_exemplo_checkout),
     ReservaCriada 1 (1000 + dias 2))
  /\ finalizar_carrinho 2000 1 (fst (finalizar_carrinho 1000 1 db_exemplo_checkout))
     = (fst (finalizar_carrinho 1000 1 db_exemplo_checkout), CarrinhoVazio).
Proof.
  assert (H : finalizar_carrinho 1000 1 db_exemplo_checkout
              = (fst (finalizar_carrinho 1000 1 db_exemplo_checkout),
                 ReservaCriada 1 (1000 + dias 2)))
    by (vm_compute; reflexivity).
  split; [exact H|].
  exact (proj2 (finalizar_carrinho_duas_vezes 1000 2000 1 _ _ _ _ H)).
Defined.


Lemma adicionar_e_remover_witness :
  adicionar_item_carrinho 1 2 None db_exemplo_carrinho
  = (fst (adicionar_item_carrinho 1 2 None db_exemplo_carrinho), ProdutoAdicionado)
  /\ remover_item_carrinho 1 2
       (fst (adicionar_item_carrinho 1 2 None db_exemplo_carrinho))
     = (db_exemplo_carrinho, ItemRemovido).
Proof.
  assert (H : adicionar_item_carrinho 1 2 None db_exemplo_carrinho
              = (fst (adicionar_item_carrinho 1 2 None db_exemplo_carrinho),
                 ProdutoAdicionado))
    by (vm_compute; reflexivity).
  split; [exact H|].
  exact (adicionar_e_remover 1 2 None _ _ H).
Defined.

Lemma carrinho_da_loja_exemplo :
  carrinho_da_loja (produtos db_exemplo_carrinho)
    (itens_do_cliente 1 (carrinho db_exemplo_carrinho)) 1.
Proof.
  simpl. intros i [<-|[]]. exists (Produto.mk 1 "bike" 100 1 5).
  split; reflexivity.
Defined.

Lemma adicionar_mantem_uma_loja_witness :
  carrinho_da_loja (produtos db_exemplo_carrinho)
    (itens_do_cliente 1 (carrinho db_exemplo_carrinho)) 1
  /\ snd (finalizar_carrinho 1000 1
            (fst (adicionar_item_carrinho 1 2 (Some 1) db_exemplo_carrinho)))
     <> LojasDiferentes.
Proof.
  split; [exact carrinho_da_loja_exemplo|].
  exact (proj2 (adicionar_mantem_uma_loja 1 2 (Some 1) db_exemplo_carrinho 1
                  carrinho_da_loja_exemplo) 1000).
Defined.

Lemma reserva_exemplo_na_tabela :
  In reserva_exemplo (reservas_produtos db_exemplo_expiradas).
Proof. simpl. tauto. Defined.

Lemma marcar_retirada_de_outro_witness :
  chaves_reservas_produtos db_exemplo_expiradas
  /\ In reserva_exemplo (reservas_produtos db_exemplo_expiradas)
  /\ 2 <> ReservaProduto.loja_id reserva_exemplo
  /\ marcar_retirada 2 3 db_exemplo_expiradas
     = (db_exemplo_expiradas, ReservaNaoEncontrada).
Proof.
  assert (H : 2 <> ReservaProduto.loja_id reserva_exemplo)
    by (simpl; discriminate).
  split; [exact chaves_reservas_exemplo|].
  split; [exact reserva_exemplo_na_tabela|]. split; [exact H|].
  exact (proj1 (marcar_retirada_de_outro 0 db_exemplo_expiradas reserva_exemplo
                  2 2 chaves_reservas_exemplo reserva_exemplo_na_tabela) H).
Defined.

Lemma status_final_permanece_witness :
  chaves_reservas_produtos db_exemplo_expiradas
  /\ In reserva_retirada_exemplo (reservas_produtos db_exemplo_expiradas)
  /\ status_final (ReservaProduto.status reserva_retirada_exemplo)
  /\ In reserva_retirada_exemplo
        (reservas_produtos
           (executar (CancelarExpiradas (dias 5) 1) db_exemplo_expiradas)).
Proof.
  assert (H1 : In reserva_retirada_exemplo
                  (reservas_produtos db_exemplo_expiradas))
    by (simpl; tauto).
  assert (H2 : status_final (ReservaProduto.status reserva_retirada_exemplo))
    by (left; reflexivity).
  split; [exact chaves_reservas_exemplo|]. split; [exact H1|].
  split; [exact H2|].
  exact (status_final_permanece (CancelarExpiradas (dias 5) 1)
           db_exemplo_expiradas reserva_retirada_exemplo
           chaves_reservas_exemplo H1 H2).
Defined.

Lemma alcancavel_exemplo (permitida : operacao -> Prop) :
  permitida RegistrarLoja -> permitida (CadastrarProduto 1 "bike" 100 5) ->
  alcancavel permitida db_exemplo_alcancavel.
Proof.
  intros H1 H2. unfold db_exemplo_alcancavel.
  apply alcancavel_passo; [|exact H2].
  apply alcancavel_passo; [|exact H1]. apply alcancavel_vazio.
Defined.

Lemma chaves_produtos_checkout : chaves_produtos db_exemplo_checkout.
Proof. unfold chaves_produtos; simpl; chaves_distintas. Defined.

Lemma chaves_carrinho_checkout : chaves_carrinho db_exemplo_checkout.
Proof. unfold chaves_carrinho; simpl; chaves_distintas. Defined.

Lemma chaves_reservas_checkout : chaves_reservas_produtos db_exemplo_checkout.
Proof. unfold chaves_reservas_produtos; simpl; constructor. Defined.

Lemma linhas_validas_checkout :
  forall i, In i (itens_do_cliente 1 (carrinho db_exemplo_checkout)) ->
    exists p, In p (produtos db_exemplo_checkout)
              /\ Produto.id p = Carrinho.produto_id i
              /\ Produto.loja_id p = 1
              /\ Carrinho.quantidade i <= Produto.quantidade_estoque p.
Proof.
  simpl. intros i [<-|[<-|[]]].
  - exists (Produto.mk 1 "bike" 100 1 5). simpl.
    split; [now left|]. repeat split; lia.
  - exists (Produto.mk 2 "capacete" 30 1 4). simpl.
    split; [right; now left|]. repeat split; lia.
Defined.

Lemma finalizar_e_expirar_witness :
  chaves_produtos db_exemplo_checkout
  /\ chaves_carrinho db_exemplo_checkout
  /\ chaves_reservas_produtos db_exemplo_checkout
  /\ itens_com_reserva db_exemplo_checkout
  /\ itens_do_cliente 1 (carrinho db_exemplo_checkout) <> []
  /\ 1000 + dias 2 < 1000 + dias 3
  /\ exists rid db1 db2,
       finalizar_carrinho 1000 1 db_exemplo_checkout
       = (db1, ReservaCriada rid (1000 + dias 2))
       /\ cancelar_expiradas (1000 + dias 3) 1 db1 = (db2, ExpiradasCanceladas)
       /\ produtos db2 = produtos db_exemplo_checkout.
Proof.
  assert (H1 : itens_com_reserva db_exemplo_checkout) by (intros it []).
  assert (H2 : itens_do_cliente 1 (carrinho db_exemplo_checkout) <> [])
    by (simpl; discriminate).
  assert (H3 : 1000 + dias 2 < 1000 + dias 3) by (unfold dias; lia).
  assert (H4 : forall r, In r (reservas_produtos db_exemplo_checkout) ->
                 deve_cancelar 1 (1000 + dias 3) r = false)
    by (intros r []).
  split; [exact chaves_produtos_checkout|].
  split; [exact chaves_carrinho_checkout|].
  split; [exact chaves_reservas_checkout|]. split; [exact H1|].
  split; [exact H2|]. split; [exact H3|].
  destruct (finalizar_e_expirar 1000 (1000 + dias 3) 1 db_exemplo_checkout 1
              chaves_produtos_checkout chaves_carrinho_checkout
              chaves_reservas_checkout H1 H2 linhas_validas_checkout H3 H4)
    as [rid [db1 [db2 [E1 [E2 [E3 _]]]]]].
  exists rid, db1, db2. split; [exact E1|]. split; [exact E2|exact E3].
Defined.

Lemma agendar_exemplo :
  agendar_servico 1 2 2 db_exemplo_agenda
  = (fst (agendar_servico 1 2 2 db_exemplo_agenda), ServicoAgendado 1).
Proof. vm_compute. reflexivity. Defined.

Lemma chaves_horarios_agenda : chaves_horarios db_exemplo_agenda.
Proof. unfold chaves_horarios; simpl; chaves_distintas. Defined.

Lemma horarios_unicos_agenda :
  horarios_unicos (servicos_horarios db_exemplo_agenda).
Proof. unfold horarios_unicos; simpl; chaves_distintas. Defined.

Lemma horario_listado_agenda :
  In (2, horario_manha) (listar_horarios_disponiveis 2 db_exemplo_agenda).
Proof. simpl. now left. Defined.

Lemma duas_horas_antes : uma_hora <= horario_manha - (horario_manha - minutos 120).
Proof. unfold uma_hora, minutos. lia. Defined.

Lemma agendar_servico_tranca_witness :
  agendar_servico 1 2 2 db_exemplo_agenda
  = (fst (agendar_servico 1 2 2 db_exemplo_agenda), ServicoAgendado 1)
  /\ exists e,
       agendar_servico 1 2 2 (fst (agendar_servico 1 2 2 db_exemplo_agenda))
       = (fst (agendar_servico 1 2 2 db_exemplo_agenda), e).
Proof.
  split; [exact agendar_exemplo|].
  destruct (agendar_servico_tranca 1 2 2 _ _ 1 agendar_exemplo 1 2)
    as [e [E _]].
  now exists e.
Defined.

Lemma agendar_e_cancelar_witness :
  chaves_horarios db_exemplo_agenda
  /\ horarios_unicos (servicos_horarios db_exemplo_agenda)
  /\ In (2, horario_manha) (listar_horarios_disponiveis 2 db_exemplo_agenda)
  /\ uma_hora <= horario_manha - (horario_manha - minutos 120)
  /\ exists loja_id,
       cancelar_reserva (horario_manha - minutos 120) 1 1
         (fst (agendar_servico 1 2 2 db_exemplo_agenda))
       = (com_reservas_servicos
            (reservas_servicos db_exemplo_agenda
               ++ [ReservaServico.mk 1 1 loja_id 2 horario_manha CANCELADO])
            db_exemplo_agenda,
          ReservaCancelada).
Proof.
  split; [exact chaves_horarios_agenda|].
  split; [exact horarios_unicos_agenda|].
  split; [exact horario_listado_agenda|]. split; [exact duas_horas_antes|].
  exact (agendar_e_cancelar (horario_manha - minutos 120) 1 2 2 horario_manha
           _ _ 1 chaves_horarios_agenda horarios_unicos_agenda
           agendar_exemplo horario_listado_agenda duas_horas_antes).
Defined.

Lemma cancelada_ainda_bloqueia_witness :
  horario_manha <= datetime_do_dia (date horario_manha) 23 59 59
  /\ exists db2,
       cancelar_reserva (horario_manha - minutos 120) 1 1
         (fst (agendar_servico 1 2 2 db_exemplo_agenda))
       = (db2, ReservaCancelada)
       /\ agendar_servico 1 2 2 db2 = (db2, JaTemAgendamentoNesteDia).
Proof.
  assert (H : horario_manha <= datetime_do_dia (date horario_manha) 23 59 59)
    by (vm_compute; discriminate).
  split; [exact H|].
  destruct (cancelada_ainda_bloqueia (horario_manha - minutos 120) 1 2 2
              horario_manha _ _ 1 chaves_horarios_agenda
              horarios_unicos_agenda agendar_exemplo horario_listado_agenda
              duas_horas_antes H) as [db2 [E1 [_ E2]]].
  exists db2. split; [exact E1|exact E2].
Defined.


Lemma aceitar_reserva_cancelada_witness :
  cancelar_reserva (horario_manha - minutos 120) 1 1 db_exemplo_cancelar
  = (fst (cancelar_reserva (horario_manha - minutos 120) 1 1 db_exemplo_cancelar),
     ReservaCancelada)
  /\ exists db2,
       aceitar_reserva 1
         (fst (cancelar_reserva (horario_manha - minutos 120) 1 1
                 db_exemplo_cancelar))
       = (db2, ReservaAceita).
Proof.
  assert (H : cancelar_reserva (horario_manha - minutos 120) 1 1
                db_exemplo_cancelar
              = (fst (cancelar_reserva (horario_manha - minutos 120) 1 1
                        db_exemplo_cancelar), ReservaCancelada))
    by (vm_compute; reflexivity).
  split; [exact H|].
  destruct (aceitar_reserva_cancelada _ 1 1 _ _ H) as [db2 [E _]].
  now exists db2.
Defined.

Lemma listar_horarios_e_agendar_witness :
  In 2 (map fst (listar_horarios_disponiveis 2 db_exemplo_agenda))
  /\ listar_horarios_disponiveis 2 (fst (agendar_servico 1 2 2 db_exemplo_agenda))
     = filter (fun x => negb (fst x =? 2))
              (listar_horarios_disponiveis 2 db_exemplo_agenda).
Proof.
  destruct (proj2 (listar_horarios_e_agendar 1 2 2 db_exemplo_agenda)
              _ 1 agendar_exemplo) as [H1 H2].
  split; [exact H1|exact (H2 2)].
Defined.

Lemma verify_hash_exemplo sal s : verify_exemplo s (hash_exemplo sal s) = true.
Proof. destruct sal; simpl; apply String.eqb_refl. Defined.

Lemma registrar_e_login_witness :
  (forall sal s, verify_exemplo s (hash_exemplo sal s) = true)
  /\ Contas.login_cliente verify_exemplo "123" "segredo"
       (fst (Contas.registrar_cliente hash_exemplo "sal" "Ana" 30
               "123" "segredo" []))
     = LoginRealizado 1.
Proof.
  split; [exact verify_hash_exemplo|].
  assert (H : Contas.registrar_cliente hash_exemplo "sal" "Ana" 30
                "123" "segredo" []
              = (fst (Contas.registrar_cliente hash_exemplo "sal" "Ana" 30
                        "123" "segredo" []), ClienteRegistrado 1))
    by (vm_compute; reflexivity).
  exact (proj1 (registrar_e_login hash_exemplo verify_exemplo "sal" "Ana" 30
                  "123" "segredo" [] _ 1 verify_hash_exemplo H)).
Defined.

Lemma cadastrar_e_listar_witness :
  cadastrar_produto_com_imagem 1 "bomba" 25 3 db_exemplo_checkout
  = (fst (cadastrar_produto_com_imagem 1 "bomba" 25 3 db_exemplo_checkout),
     ProdutoCadastrado 4)
  /\ listar_produtos_loja 2
       (fst (cadastrar_produto_com_imagem 1 "bomba" 25 3 db_exemplo_checkout))
     = listar_produtos_loja 2 db_exemplo_checkout.
Proof.
  assert (H : cadastrar_produto_com_imagem 1 "bomba" 25 3 db_exemplo_checkout
              = (fst (cadastrar_produto_com_imagem 1 "bomba" 25 3
                        db_exemplo_checkout), ProdutoCadastrado 4))
    by (vm_compute; reflexivity).
  split; [exact H|].
  destruct (cadastrar_e_listar 1 "bomba" 25 3 _ _ 4 H) as [_ [_ H2]].
  apply H2. discriminate.
Defined.

(** X20.  New slots show in the store's view of the service: after
    [criar_horarios_servico], whatever the flush setting and the parser,
    [listar_horarios_servico] answers the list it answered before followed
    by the new slots, each of them available and at the timestamp of a
    string of the request that parses; every string of the request that
    parses has an entry at its timestamp in the list. *)
Theorem criar_e_listar_horarios autoflush fromisoformat
    loja_id servico_id hs db s :
  find (fun s => (Servico.id s =? servico_id) && (Servico.loja_id s =? loja_id))
       (servicos db) = Some s ->
  let db' := fst (criar_horarios_servico autoflush fromisoformat loja_id
                    servico_id (Some hs) db) in
  exists antes novas,
    listar_horarios_servico loja_id servico_id db = Some antes
    /\ listar_horarios_servico loja_id servico_id db' = Some (antes ++ novas)
    /\ (forall x, In x novas ->
          snd x = true
          /\ exists h_str, In h_str hs
                           /\ fromisoformat h_str = Some (snd (fst x)))
    /\ forall h_str h, In h_str hs -> fromisoformat h_str = Some h ->
         exists x, In x (antes ++ novas) /\ snd (fst x) = h.
Proof.
  intros Hs db'.
  destruct (criar_horarios_loop_spec autoflush fromisoformat servico_id hs
              (servicos_horarios db) []) as [novos [E [Hn [Hc _]]]].
  simpl in E, Hc.
  assert (Hdb : db' = com_servicos_horarios (servicos_horarios db ++ novos) db).
  { subst db'. unfold criar_horarios_servico. now rewrite Hs, E. }
  assert (Hfiltro : filter (fun h => ServicoHorario.servico_id h =? servico_id)
                           novos = novos).
  { apply filter_todos. intros n Hin. destruct (Hn n Hin) as [A _].
    now apply Z.eqb_eq. }
  eexists. exists (map (fun h => (ServicoHorario.id h, ServicoHorario.horario h,
                                   ServicoHorario.is_disponivel h)) novos).
  split; [unfold listar_horarios_servico; rewrite Hs; reflexivity|].
  split; [|split].
  - rewrite Hdb. unfold listar_horarios_servico. simpl. rewrite Hs.
    now rewrite filter_app, map_app, Hfiltro.
  - intros x Hx. apply in_map_iff in Hx. destruct Hx as [n [<- Hin]].
    destruct (Hn n Hin) as [_ [B [C _]]]. simpl. split; [exact B|exact C].
  - intros h_str h H1 H2. destruct (Hc h_str h H1 H2) as [x [Hx1 Hx2]].
    unfold horario_em in Hx2. apply andb_true_iff in Hx2.
    destruct Hx2 as [Hx2 Hx3]. apply Z.eqb_eq in Hx3.
    exists (ServicoHorario.id x, ServicoHorario.horario x,
            ServicoHorario.is_disponivel x).
    split; [|exact Hx3]. rewrite <- map_app. apply in_map_iff.
    exists x. split; [reflexivity|]. rewrite <- Hfiltro, <- filter_app.
    apply filter_In. split; [exact Hx1|exact Hx2].
Qed.

Lemma criar_e_listar_horarios_witness :
  find (fun s => (Servico.id s =? 1) && (Servico.loja_id s =? 1))
       (servicos db_exemplo_horarios) = Some (Servico.mk 1 1)
  /\ exists antes novas,
       listar_horarios_servico 1 1 db_exemplo_horarios = Some antes
       /\ listar_horarios_servico 1 1
            (fst (criar_horarios_servico true fromisoformat_exemplo 1 1
                    (Some horarios_exemplo) db_exemplo_horarios))
          = Some (antes ++ novas).
Proof.
  assert (H : find (fun s => (Servico.id s =? 1) && (Servico.loja_id s =? 1))
                   (servicos db_exemplo_horarios) = Some (Servico.mk 1 1))
    by reflexivity.
  split; [exact H|].
  destruct (criar_e_listar_horarios true fromisoformat_exemplo 1 1
              horarios_exemplo db_exemplo_horarios (Servico.mk 1 1) H)
    as [antes [novas [E1 [E2 _]]]].
  exists antes, novas. split; [exact E1|exact E2].
Defined.

(** ** The reservation core in the terms of the rows

    The statements below name the rows a handler leaves by their
    constructors and the literals of [main.py], so that they say what is
    in each column afterwards. *)



Lemma alcancavel_todas permitida ops :
  forall db, alcancavel permitida db -> Forall permitida ops ->
    alcancavel permitida (executar_todas ops db).
Proof.
  unfold executar_todas.
  induction ops as [|o ops IH]; simpl; intros db Hdb Hops; [exact Hdb|].
  inversion Hops; subst. apply IH; [|assumption].
  now apply alcancavel_passo.
Qed.

(** C1.  With primary keys unique, a non-empty cart whose lines all name
    existing products of the store [l], none asking more than its
    product's stock: the checkout answers the id of a new reservation and
    [agora + 2 days]; the stock of each product is what it was less the
    quantities of the customer's lines that name it, the other columns of
    the product untouched; the reservations table gains one row, of this
    customer and store, "RESERVADO", created at [agora] and expiring at
    [agora + 2 days]; the line items gained are one per cart line, in
    order, with the new reservation's id, the line's product and quantity
    and that product's price; no cart line of the customer remains and the
    other customers' lines stay; nothing else changes.  No operation
    rewrites or deletes a line item afterwards. *)
Theorem finalizar_carrinho_sucesso agora c db l :
  let cart := filter (fun i => Carrinho.cliente_id i =? c) (carrinho db) in
  NoDup (map Produto.id (produtos db)) ->
  NoDup (map Carrinho.id (carrinho db)) ->
  cart <> [] ->
  (forall i, In i cart ->
     exists p, In p (produtos db)
               /\ Produto.id p = Carrinho.produto_id i
               /\ Produto.loja_id p = l
               /\ Carrinho.quantidade i <= Produto.quantidade_estoque p) ->
  exists rid novos,
    finalizar_carrinho agora c db =
      (mkDB (clientes db) (lojas db) (servicos db)
         (map (fun p =>
                 Produto.mk (Produto.id p) (Produto.nome_produto p)
                   (Produto.preco p) (Produto.loja_id p)
                   (Produto.quantidade_estoque p
                    - soma (fun i => if Carrinho.produto_id i =? Produto.id p
                                     then Carrinho.quantidade i else 0) cart))
              (produtos db))
         (filter (fun i => negb (Carrinho.cliente_id i =? c)) (carrinho db))
         (reservas_produtos db
            ++ [ReservaProduto.mk rid c l agora "RESERVADO"
                  (Some (agora + 2 * 86400000000))])
         (itens_reserva db ++ novos)
         (servicos_horarios db) (reservas_servicos db),
       ReservaCriada rid (agora + 2 * 86400000000))
    /\ ~ In rid (map ReservaProduto.id (reservas_produtos db))
    /\ Forall2 (fun i it =>
                  ItemReserva.reserva_id it = rid
                  /\ ItemReserva.produto_id it = Carrinho.produto_id i
                  /\ ItemReserva.quantidade it = Carrinho.quantidade i
                  /\ forall p, In p (produtos db) ->
                       Produto.id p = Carrinho.produto_id i ->
                       ItemReserva.preco_unitario it = Produto.preco p)
               cart novos
    /\ forall o d, exists mais,
         itens_reserva (executar o d) = itens_reserva d ++ mais.
Proof.
  intros cart Hkp Hkc Hne Hall.
  destruct (finalizar_carrinho_resultado agora c db l Hkp Hkc Hne Hall)
    as [rid [novos [E [Hrid F]]]].
  exists rid, novos.
  split; [exact E|]. split; [exact Hrid|]. split.
  - eapply Forall2_impl; [|exact F].
    intros i it [H1 [H2 [H3 [p [Hp H4]]]]].
    split; [exact H1|]. split; [exact H2|]. split; [exact H3|].
    intros p' Hin Hid. rewrite <- Hid in Hp.
    rewrite (produto_por_id_NoDup _ _ Hkp Hin) in Hp.
    injection Hp as <-. exact H4.
  - intros o d. apply itens_reserva_so_cresce.
Qed.

(** C6.  For a reservation [r] of the table (keys unique), with
    [retirada] the database in which the row of [r]'s id has "RETIRADO"
    in its status column and every other column and row is as before:
    when [r] is "RESERVADO", the store's path answers success with
    [retirada] whatever the clock, and the customer's path is refused
    with the database unchanged if [agora] is past
    [data_reserva + 4 days] and otherwise answers success with
    [retirada]; after the store's path every row of [r]'s id reads
    "RETIRADO" and the other rows are still there.  When [r] is in any
    other status both paths are refused and change nothing. *)
Theorem marcar_retirada_loja_e_cliente agora db r :
  NoDup (map ReservaProduto.id (reservas_produtos db)) ->
  In r (reservas_produtos db) ->
  let retirada :=
    mkDB (clientes db) (lojas db) (servicos db) (produtos db) (carrinho db)
      (map (fun x =>
              if ReservaProduto.id x =? ReservaProduto.id r
              then ReservaProduto.mk (ReservaProduto.id x)
                     (ReservaProduto.cliente_id x) (ReservaProduto.loja_id x)
                     (ReservaProduto.data_reserva x) "RETIRADO"
                     (ReservaProduto.data_limite x)
              else x)
           (reservas_produtos db))
      (itens_reserva db) (servicos_horarios db) (reservas_servicos db) in
  let da_loja :=
    marcar_retirada (ReservaProduto.loja_id r) (ReservaProduto.id r) db in
  let do_cliente :=
    cliente_marcar_retirada agora (ReservaProduto.cliente_id r)
      (ReservaProduto.id r) db in
  (ReservaProduto.status r = "RESERVADO"%string ->
     da_loja = (retirada, MarcadaComoRetirada)
     /\ (ReservaProduto.data_reserva r + 4 * 86400000000 < agora ->
         do_cliente = (db, PassaramQuatroDias))
     /\ (agora <= ReservaProduto.data_reserva r + 4 * 86400000000 ->
         do_cliente = (retirada, MarcadaComoRetirada))
     /\ (forall x, In x (reservas_produtos (fst da_loja)) ->
           ReservaProduto.id x = ReservaProduto.id r ->
           ReservaProduto.status x = "RETIRADO"%string)
     /\ In (ReservaProduto.mk (ReservaProduto.id r)
              (ReservaProduto.cliente_id r) (ReservaProduto.loja_id r)
              (ReservaProduto.data_reserva r) "RETIRADO"
              (ReservaProduto.data_limite r))
           (reservas_produtos (fst da_loja))
     /\ (forall x, In x (reservas_produtos db) -> x <> r ->
           In x (reservas_produtos (fst da_loja))))
  /\ (ReservaProduto.status r <> "RESERVADO"%string ->
      da_loja = (db, StatusInvalido) /\ do_cliente = (db, StatusInvalido)).
Proof.
  intros Hk Hin retirada da_loja do_cliente.
  assert (Hl : find (fun x => (ReservaProduto.id x =? ReservaProduto.id r)
                              && (ReservaProduto.loja_id x =? ReservaProduto.loja_id r))
                    (reservas_produtos db) = Some r).
  { apply (find_por_chave ReservaProduto.id
             (fun x => ReservaProduto.loja_id x =? ReservaProduto.loja_id r));
      [exact Hk|exact Hin|apply Z.eqb_refl]. }
  assert (Hc : find (fun x => (ReservaProduto.id x =? ReservaProduto.id r)
                              && (ReservaProduto.cliente_id x
                                  =? ReservaProduto.cliente_id r))
                    (reservas_produtos db) = Some r).
  { apply (find_por_chave ReservaProduto.id
             (fun x => ReservaProduto.cliente_id x =? ReservaProduto.cliente_id r));
      [exact Hk|exact Hin|apply Z.eqb_refl]. }
  split.
  - intros Hs.
    assert (Es : (ReservaProduto.status r =? RESERVADO)%string = true)
      by (rewrite Hs; reflexivity).
    assert (Hloja : da_loja = (retirada, MarcadaComoRetirada)).
    { subst da_loja. unfold marcar_retirada. rewrite Hl, Es. reflexivity. }
    split; [exact Hloja|]. split; [|split; [|split; [|split]]].
    + intros Hlt. subst do_cliente. unfold cliente_marcar_retirada.
      rewrite Hc, Es. cbn [negb]. cbv zeta.
      assert ((ReservaProduto.data_reserva r + dias 4 <? agora) = true) as ->
        by (apply Z.ltb_lt; unfold dias; lia).
      reflexivity.
    + intros Hle. subst do_cliente. unfold cliente_marcar_retirada.
      rewrite Hc, Es. cbn [negb]. cbv zeta.
      assert ((ReservaProduto.data_reserva r + dias 4 <? agora) = false) as ->
        by (apply Z.ltb_ge; unfold dias; lia).
      reflexivity.
    + rewrite Hloja. cbn [fst reservas_produtos retirada].
      intros x Hx Hid. apply in_map_iff in Hx. destruct Hx as [y [<- Hy]].
      destruct (ReservaProduto.id y =? ReservaProduto.id r) eqn:E;
        [reflexivity|].
      apply Z.eqb_neq in E. contradiction.
    + rewrite Hloja. cbn [fst reservas_produtos retirada].
      apply in_map_iff. exists r. split; [|exact Hin].
      now rewrite Z.eqb_refl.
    + rewrite Hloja. cbn [fst reservas_produtos retirada].
      intros x Hx Hne. apply in_map_iff. exists x. split; [|exact Hx].
      destruct (ReservaProduto.id x =? ReservaProduto.id r) eqn:E;
        [|reflexivity].
      exfalso. apply Hne. apply Z.eqb_eq in E.
      now apply (NoDup_map_igual ReservaProduto.id (reservas_produtos db)).
  - intros Hs.
    assert (E : (ReservaProduto.status r =? RESERVADO)%string = false)
      by (now apply String.eqb_neq).
    subst da_loja do_cliente.
    unfold marcar_retirada, cliente_marcar_retirada.
    rewrite Hl, Hc, E. split; reflexivity.
Qed.



(** C8.  For an appointment [r] of the table (keys unique), cancelled by
    its customer at [agora]: in status "CANCELADO" or "REJEITADA" the
    cancellation is refused as already cancelled or rejected; otherwise,
    when [data_horario - agora] is less than one hour (as at 30 minutes
    before) it is refused as too late; in status "PENDENTE" or "ACEITO"
    with at least one hour left (as at 2 hours before) it succeeds, the
    row of [r]'s id reads "CANCELADO" in its status column, and the first
    slot of [r]'s service at [r]'s timestamp has [true] in its
    availability column, or, when there is no such slot, the slots are as
    they were; every other column, row and table is untouched.  A refusal
    changes nothing. *)
Theorem cancelar_reserva_regras agora db r :
  NoDup (map ReservaServico.id (reservas_servicos db)) ->
  In r (reservas_servicos db) ->
  let st := ReservaServico.status r in
  let resposta :=
    cancelar_reserva agora (ReservaServico.cliente_id r) (ReservaServico.id r) db in
  let cancelado (x : ReservaServico.t) :=
    ReservaServico.mk (ReservaServico.id x) (ReservaServico.cliente_id x)
      (ReservaServico.loja_id x) (ReservaServico.servico_id x)
      (ReservaServico.data_horario x) "CANCELADO" in
  let do_horario (h : ServicoHorario.t) : bool :=
    (ServicoHorario.servico_id h =? ReservaServico.servico_id r)
    && (ServicoHorario.horario h =? ReservaServico.data_horario r) in
  (st = "CANCELADO"%string \/ st = "REJEITADA"%string ->
   resposta = (db, JaCanceladaOuRejeitada))
  /\ (st <> "CANCELADO"%string -> st <> "REJEITADA"%string ->
      ReservaServico.data_horario r - agora < 3600 * 1000000 ->
      resposta = (db, MenosDeUmaHora))
  /\ (st <> "CANCELADO"%string -> st <> "REJEITADA"%string ->
      agora = ReservaServico.data_horario r - 30 * 60 * 1000000 ->
      resposta = (db, MenosDeUmaHora))
  /\ (st = "PENDENTE"%string \/ st = "ACEITO"%string ->
      3600 * 1000000 <= ReservaServico.data_horario r - agora ->
      resposta =
        (mkDB (clientes db) (lojas db) (servicos db) (produtos db)
           (carrinho db) (reservas_produtos db) (itens_reserva db)
           (match find do_horario (servicos_horarios db) with
            | Some h =>
                map (fun x =>
                       if ServicoHorario.id x =? ServicoHorario.id h
                       then ServicoHorario.mk (ServicoHorario.id x)
                              (ServicoHorario.servico_id x)
                              (ServicoHorario.horario x) true
                       else x)
                    (servicos_horarios db)
            | None => servicos_horarios db
            end)
           (map (fun x => if ReservaServico.id x =? ReservaServico.id r
                          then cancelado x else x)
                (reservas_servicos db)),
         ReservaCancelada))
  /\ (st = "PENDENTE"%string \/ st = "ACEITO"%string ->
      agora = ReservaServico.data_horario r - 120 * 60 * 1000000 ->
      snd resposta = ReservaCancelada
      /\ In (cancelado r) (reservas_servicos (fst resposta))
      /\ (forall x, In x (reservas_servicos (fst resposta)) ->
            ReservaServico.id x = ReservaServico.id r ->
            ReservaServico.status x = "CANCELADO"%string)
      /\ forall h, find do_horario (servicos_horarios db) = Some h ->
           In (ServicoHorario.mk (ServicoHorario.id h)
                 (ServicoHorario.servico_id h) (ServicoHorario.horario h) true)
              (servicos_horarios (fst resposta))
           /\ forall x, In x (servicos_horarios (fst resposta)) ->
                ServicoHorario.id x = ServicoHorario.id h ->
                ServicoHorario.is_disponivel x = true).
Proof.
  intros Hk Hin st resposta cancelado do_horario.
  assert (Hf : find (fun x => (ReservaServico.id x =? ReservaServico.id r)
                              && (ReservaServico.cliente_id x
                                  =? ReservaServico.cliente_id r))
                    (reservas_servicos db) = Some r).
  { apply (find_por_chave ReservaServico.id
             (fun x => ReservaServico.cliente_id x =? ReservaServico.cliente_id r));
      [exact Hk|exact Hin|apply Z.eqb_refl]. }
  set (depois :=
         (mkDB (clientes db) (lojas db) (servicos db) (produtos db)
            (carrinho db) (reservas_produtos db) (itens_reserva db)
            (match find do_horario (servicos_horarios db) with
             | Some h =>
                 map (fun x =>
                        if ServicoHorario.id x =? ServicoHorario.id h
                        then ServicoHorario.mk (ServicoHorario.id x)
                               (ServicoHorario.servico_id x)
                               (ServicoHorario.horario x) true
                        else x)
                     (servicos_horarios db)
             | None => servicos_horarios db
             end)
            (map (fun x => if ReservaServico.id x =? ReservaServico.id r
                           then cancelado x else x)
                 (reservas_servicos db)))).
  assert (Hok : st = "PENDENTE"%string \/ st = "ACEITO"%string ->
                3600 * 1000000 <= ReservaServico.data_horario r - agora ->
                resposta = (depois, ReservaCancelada)).
  { intros Hst Hle. subst resposta depois. unfold cancelar_reserva.
    rewrite Hf. fold st.
    assert ((ReservaServico.data_horario r - agora <? uma_hora) = false) as ->
      by (apply Z.ltb_ge; unfold uma_hora; lia).
    destruct Hst as [-> | ->]; simpl; fold do_horario;
      unfold horario_em; fold do_horario;
      destruct (find do_horario (servicos_horarios db)); reflexivity. }
  assert (Htarde : st <> "CANCELADO"%string -> st <> "REJEITADA"%string ->
                   ReservaServico.data_horario r - agora < 3600 * 1000000 ->
                   resposta = (db, MenosDeUmaHora)).
  { intros H1 H2 Hlt. subst resposta. unfold cancelar_reserva. rewrite Hf.
    fold st. apply String.eqb_neq in H1, H2.
    unfold CANCELADO, REJEITADA. rewrite H1, H2. simpl.
    assert ((ReservaServico.data_horario r - agora <? uma_hora) = true) as ->
      by (apply Z.ltb_lt; unfold uma_hora; lia).
    reflexivity. }
  split; [|split; [exact Htarde|split; [|split; [exact Hok|]]]].
  - intros Hst. subst resposta. unfold cancelar_reserva. rewrite Hf. fold st.
    destruct Hst as [-> | ->]; reflexivity.
  - intros H1 H2 ->. apply Htarde; [exact H1|exact H2|lia].
  - intros Hst ->. rewrite Hok; [|exact Hst|lia].
    cbn [fst snd]. split; [reflexivity|].
    split; [|split].
    + subst depois. cbn [reservas_servicos]. apply in_map_iff. exists r.
      split; [|exact Hin]. now rewrite Z.eqb_refl.
    + subst depois. cbn [reservas_servicos]. intros x Hx Hid.
      apply in_map_iff in Hx. destruct Hx as [y [<- Hy]].
      destruct (ReservaServico.id y =? ReservaServico.id r) eqn:E;
        [reflexivity|].
      apply Z.eqb_neq in E. contradiction.
    + intros h Hh. subst depois. cbn [servicos_horarios]. rewrite Hh. split.
      * apply in_map_iff. exists h. rewrite Z.eqb_refl.
        split; [reflexivity|]. apply find_some in Hh. tauto.
      * intros x Hx Hid. apply in_map_iff in Hx. destruct Hx as [y [<- Hy]].
        destruct (ServicoHorario.id y =? ServicoHorario.id h) eqn:E;
          [reflexivity|].
        apply Z.eqb_neq in E. contradiction.
Qed.

(** X19.  An accepted booking shows in the agendas.  With [s] the service
    booked and [h] the slot the handler found, the new appointment is the
    row of the answered id, of the customer, of the store [s] belongs to,
    at [h]'s time and "PENDENTE"; the pair of [h] was listed as available;
    the customer's agenda is the one before followed by that row; the
    agenda of [s]'s store is the one before followed by that row, and is
    still refused if that store does not exist; the agendas of the other
    stores and of the other customers are as before. *)
Theorem agendar_e_ver_agenda c sid hid db db' rid :
  agendar_servico c sid hid db = (db', ServicoAgendado rid) ->
  exists s h nova,
    find (fun x => Servico.id x =? sid) (servicos db) = Some s
    /\ find (fun x => (ServicoHorario.id x =? hid)
                      && (ServicoHorario.servico_id x =? sid)
                      && ServicoHorario.is_disponivel x)
            (servicos_horarios db) = Some h
    /\ nova = ReservaServico.mk rid c (Servico.loja_id s) sid
                (ServicoHorario.horario h) "PENDENTE"
    /\ In (hid, ServicoHorario.horario h) (listar_horarios_disponiveis sid db)
    /\ ver_agenda_cliente c db' = ver_agenda_cliente c db ++ [nova]
    /\ (forall antes,
          ver_agenda_reservas (Servico.loja_id s) db = Some antes ->
          ver_agenda_reservas (Servico.loja_id s) db' = Some (antes ++ [nova]))
    /\ (ver_agenda_reservas (Servico.loja_id s) db = None ->
        ver_agenda_reservas (Servico.loja_id s) db' = None)
    /\ (forall outra, outra <> Servico.loja_id s ->
          ver_agenda_reservas outra db' = ver_agenda_reservas outra db)
    /\ (forall outro, outro <> c ->
          ver_agenda_cliente outro db' = ver_agenda_cliente outro db).
Proof.
  unfold agendar_servico. intros H.
  destruct (hid =? 0) eqn:E0; [discriminate|].
  destruct (existe c (clientes db)) eqn:Ec; [|discriminate]. simpl in H.
  destruct (find (fun x => Servico.id x =? sid) (servicos db))
    as [s|] eqn:Es; [|discriminate].
  destruct (find (fun x => (ServicoHorario.id x =? hid)
                           && (ServicoHorario.servico_id x =? sid)
                           && ServicoHorario.is_disponivel x)
                 (servicos_horarios db)) as [h|] eqn:Eh; [|discriminate].
  destruct (filter _ (reservas_servicos db)); [|discriminate].
  injection H as Hdb Hrid.
  exists s, h,
    (ReservaServico.mk rid c (Servico.loja_id s) sid
       (ServicoHorario.horario h) "PENDENTE").
  split; [reflexivity|]. split; [reflexivity|]. split; [reflexivity|].
  pose proof (find_some _ _ Eh) as [Hin Hp].
  rewrite !andb_true_iff in Hp. destruct Hp as [[E1 E2] E3].
  apply Z.eqb_eq in E1, E2.
  split.
  { unfold listar_horarios_disponiveis. apply in_map_iff. exists h.
    split; [now rewrite E1|]. apply filter_In. split; [exact Hin|].
    now rewrite E2, E3, Z.eqb_refl. }
  subst db'. unfold ver_agenda_cliente, ver_agenda_reservas.
  cbn [reservas_servicos lojas com_servicos_horarios com_reservas_servicos].
  rewrite <- Hrid. unfold PENDENTE.
  split; [|split; [|split; [|split]]].
  - rewrite filter_app. cbn [filter ReservaServico.cliente_id].
    now rewrite Z.eqb_refl.
  - intros antes Ha.
    destruct (existe (Servico.loja_id s) (lojas db)); [|discriminate].
    injection Ha as <-. rewrite filter_app.
    cbn [filter ReservaServico.loja_id]. now rewrite Z.eqb_refl.
  - intros Ha.
    destruct (existe (Servico.loja_id s) (lojas db)); [discriminate|].
    reflexivity.
  - intros outra Hne. destruct (existe outra (lojas db)); [|reflexivity].
    rewrite filter_app. cbn [filter ReservaServico.loja_id].
    assert ((Servico.loja_id s =? outra) = false) as ->
      by (apply Z.eqb_neq; congruence).
    now rewrite app_nil_r.
  - intros outro Hne. rewrite filter_app.
    cbn [filter ReservaServico.cliente_id].
    assert ((c =? outro) = false) as -> by (apply Z.eqb_neq; congruence).
    now rewrite app_nil_r.
Qed.

(** ** The statements above at the example databases *)

Lemma carrinho_do_cliente_checkout :
  filter (fun i => Carrinho.cliente_id i =? 1) (carrinho db_exemplo_checkout)
  = [Carrinho.mk 1 1 1 3; Carrinho.mk 3 1 2 1].
Proof. reflexivity. Defined.

Lemma finalizar_carrinho_sucesso_witness :
  NoDup (map Produto.id (produtos db_exemplo_checkout))
  /\ NoDup (map Carrinho.id (carrinho db_exemplo_checkout))
  /\ filter (fun i => Carrinho.cliente_id i =? 1) (carrinho db_exemplo_checkout)
     <> []
  /\ (exists rid novos,
        finalizar_carrinho 1000 1 db_exemplo_checkout
        = (mkDB [1; 2] [1; 2] []
             [Produto.mk 1 "bike" 100 1 2; Produto.mk 2 "capacete" 30 1 3;
              Produto.mk 3 "luva" 10 2 7]
             [Carrinho.mk 2 2 1 1]
             [ReservaProduto.mk rid 1 1 1000 "RESERVADO" (Some 172800001000)]
             novos [] [],
           ReservaCriada rid 172800001000)
        /\ map (fun it => (ItemReserva.reserva_id it, ItemReserva.produto_id it,
                           ItemReserva.quantidade it,
                           ItemReserva.preco_unitario it)) novos
           = [(rid, 1, 3, 100); (rid, 2, 1, 30)])
  /\ finalizar_carrinho 1000 1 db_exemplo_checkout
     = (mkDB [1; 2] [1; 2] []
          [Produto.mk 1 "bike" 100 1 2; Produto.mk 2 "capacete" 30 1 3;
           Produto.mk 3 "luva" 10 2 7]
          [Carrinho.mk 2 2 1 1]
          [ReservaProduto.mk 1 1 1 1000 "RESERVADO" (Some 172800001000)]
          [ItemReserva.mk 1 1 1 3 100; ItemReserva.mk 2 1 2 1 30] [] [],
        ReservaCriada 1 172800001000).
Proof.
  assert (H3 : filter (fun i => Carrinho.cliente_id i =? 1)
                      (carrinho db_exemplo_checkout) <> [])
    by (rewrite carrinho_do_cliente_checkout; discriminate).
  split; [exact chaves_produtos_checkout|].
  split; [exact chaves_carrinho_checkout|].
  split; [exact H3|].
  destruct (finalizar_carrinho_sucesso 1000 1 db_exemplo_checkout 1
              chaves_produtos_checkout chaves_carrinho_checkout H3
              linhas_validas_checkout)
    as [rid [novos [E [_ [F _]]]]].
  split; [|vm_compute; reflexivity].
  exists rid, novos. split; [rewrite E; reflexivity|].
  rewrite carrinho_do_cliente_checkout in F.
  inversion F as [|i1 a l1 r1 Ha F1]; subst.
  inversion F1 as [|i2 b l2 r2 Hb F2]; subst.
  inversion F2; subst.
  destruct Ha as [A1 [A2 [A3 A4]]]. destruct Hb as [B1 [B2 [B3 B4]]].
  cbn [map].
  rewrite A1, A2, A3, B1, B2, B3.
  rewrite (A4 (Produto.mk 1 "bike" 100 1 5) (or_introl eq_refl) eq_refl).
  rewrite (B4 (Produto.mk 2 "capacete" 30 1 4)
             (or_intror (or_introl eq_refl)) eq_refl).
  reflexivity.
Defined.

Lemma marcar_retirada_loja_e_cliente_witness :
  NoDup (map ReservaProduto.id (reservas_produtos db_exemplo_expiradas))
  /\ In reserva_exemplo (reservas_produtos db_exemplo_expiradas)
  /\ In reserva_retirada_exemplo (reservas_produtos db_exemplo_expiradas)
  /\ ReservaProduto.status reserva_exemplo = "RESERVADO"%string
  /\ ReservaProduto.status reserva_retirada_exemplo <> "RESERVADO"%string
  /\ ReservaProduto.data_reserva reserva_exemplo + 4 * 86400000000
     < 9 * 86400000000
  /\ 8 * 86400000000
     <= ReservaProduto.data_reserva reserva_exemplo + 4 * 86400000000
  /\ marcar_retirada 1 3 db_exemplo_expiradas
     = (mkDB [1; 2] [1; 2] []
          [Produto.mk 1 "bike" 100 1 2; Produto.mk 2 "capacete" 30 1 0;
           Produto.mk 3 "luva" 10 2 7]
          []
          [ReservaProduto.mk 1 1 1 0 "RESERVADO" (Some 172800000000);
           ReservaProduto.mk 2 1 1 0 "RETIRADO" (Some 172800000000);
           ReservaProduto.mk 3 2 1 345600000000 "RETIRADO" (Some 518400000000);
           ReservaProduto.mk 4 2 1 0 "RESERVADO" None;
           ReservaProduto.mk 5 1 2 0 "RESERVADO" (Some 172800000000)]
          [ItemReserva.mk 1 1 1 3 100; ItemReserva.mk 2 1 2 1 30;
           ItemReserva.mk 3 2 1 1 100; ItemReserva.mk 4 3 2 2 30;
           ItemReserva.mk 5 4 1 1 100; ItemReserva.mk 6 5 3 1 10]
          [] [],
        MarcadaComoRetirada)
  /\ cliente_marcar_retirada (9 * 86400000000) 2 3 db_exemplo_expiradas
     = (db_exemplo_expiradas, PassaramQuatroDias)
  /\ cliente_marcar_retirada (8 * 86400000000) 2 3 db_exemplo_expiradas
     = marcar_retirada 1 3 db_exemplo_expiradas
  /\ marcar_retirada 1 2 db_exemplo_expiradas
     = (db_exemplo_expiradas, StatusInvalido)
  /\ cliente_marcar_retirada (8 * 86400000000) 1 2 db_exemplo_expiradas
     = (db_exemplo_expiradas, StatusInvalido).
Proof.
  assert (H1 : In reserva_exemplo (reservas_produtos db_exemplo_expiradas))
    by (simpl; tauto).
  assert (H2 : In reserva_retirada_exemplo
                  (reservas_produtos db_exemplo_expiradas))
    by (simpl; tauto).
  assert (H3 : ReservaProduto.status reserva_exemplo = "RESERVADO"%string)
    by reflexivity.
  assert (H4 : ReservaProduto.status reserva_retirada_exemplo
               <> "RESERVADO"%string)
    by discriminate.
  assert (H5 : ReservaProduto.data_reserva reserva_exemplo + 4 * 86400000000
               < 9 * 86400000000)
    by (unfold reserva_exemplo, dias; simpl; lia).
  assert (H6 : 8 * 86400000000
               <= ReservaProduto.data_reserva reserva_exemplo
                  + 4 * 86400000000)
    by (unfold reserva_exemplo, dias; simpl; lia).
  split; [exact chaves_reservas_exemplo|]. split; [exact H1|].
  split; [exact H2|]. split; [exact H3|]. split; [exact H4|].
  split; [exact H5|]. split; [exact H6|].
  destruct (marcar_retirada_loja_e_cliente (9 * 86400000000)
              db_exemplo_expiradas reserva_exemplo
              chaves_reservas_exemplo H1) as [Hok9 _].
  destruct (Hok9 H3) as [Hloja [Htarde _]].
  destruct (marcar_retirada_loja_e_cliente (8 * 86400000000)
              db_exemplo_expiradas reserva_exemplo
              chaves_reservas_exemplo H1) as [Hok8 _].
  destruct (Hok8 H3) as [_ [_ [Hcedo _]]].
  destruct (marcar_retirada_loja_e_cliente (8 * 86400000000)
              db_exemplo_expiradas reserva_retirada_exemplo
              chaves_reservas_exemplo H2) as [_ Hnao].
  destruct (Hnao H4) as [Hnl Hnc].
  split; [|split; [|split; [|split]]].
  - etransitivity; [exact Hloja|]. vm_compute. reflexivity.
  - exact (Htarde H5).
  - etransitivity; [exact (Hcedo H6)|]. symmetry. exact Hloja.
  - exact Hnl.
  - exact Hnc.
Defined.




Lemma cancelar_reserva_regras_witness :
  NoDup (map ReservaServico.id (reservas_servicos db_exemplo_cancelar))
  /\ In agendamento_exemplo (reservas_servicos db_exemplo_cancelar)
  /\ In agendamento_exemplo (reservas_servicos db_exemplo_sem_horario)
  /\ In (ReservaServico.mk 1 1 1 1 horario_manha "REJEITADA")
        (reservas_servicos db_exemplo_rejeitada)
  /\ cancelar_reserva (horario_manha - 30 * 60 * 1000000) 1 1
       db_exemplo_cancelar
     = (db_exemplo_cancelar, MenosDeUmaHora)
  /\ cancelar_reserva (horario_manha - 120 * 60 * 1000000) 1 1
       db_exemplo_cancelar
     = (mkDB [1] [1] [Servico.mk 1 1] [] [] [] []
          [ServicoHorario.mk 1 1 horario_manha true]
          [ReservaServico.mk 1 1 1 1 horario_manha "CANCELADO"],
        ReservaCancelada)
  /\ cancelar_reserva (horario_manha - 120 * 60 * 1000000) 1 1
       db_exemplo_sem_horario
     = (mkDB [1] [1] [Servico.mk 1 1] [] [] [] []
          [ServicoHorario.mk 1 1 horario_noite false]
          [ReservaServico.mk 1 1 1 1 horario_manha "CANCELADO"],
        ReservaCancelada)
  /\ cancelar_reserva (horario_manha - 120 * 60 * 1000000) 1 1
       db_exemplo_rejeitada
     = (db_exemplo_rejeitada, JaCanceladaOuRejeitada).
Proof.
  assert (H1 : NoDup (map ReservaServico.id
                        (reservas_servicos db_exemplo_cancelar)))
    by (simpl; chaves_distintas).
  assert (H2 : In agendamento_exemplo (reservas_servicos db_exemplo_cancelar))
    by (simpl; tauto).
  assert (H3 : In (ReservaServico.mk 1 1 1 1 horario_manha "REJEITADA")
                  (reservas_servicos db_exemplo_rejeitada))
    by (simpl; tauto).
  assert (Hdif : 3600 * 1000000
                 <= ReservaServico.data_horario agendamento_exemplo
                    - (horario_manha - 120 * 60 * 1000000))
    by (unfold agendamento_exemplo; simpl; lia).
  split; [exact H1|]. split; [exact H2|]. split; [exact H2|].
  split; [exact H3|].
  split; [|split; [|split]].
  - destruct (cancelar_reserva_regras (horario_manha - 30 * 60 * 1000000)
                db_exemplo_cancelar agendamento_exemplo H1 H2)
      as [_ [_ [H30 _]]].
    refine (H30 _ _ eq_refl); discriminate.
  - destruct (cancelar_reserva_regras (horario_manha - 120 * 60 * 1000000)
                db_exemplo_cancelar agendamento_exemplo H1 H2)
      as [_ [_ [_ [Hok _]]]].
    etransitivity; [exact (Hok (or_introl eq_refl) Hdif)|].
    vm_compute. reflexivity.
  - destruct (cancelar_reserva_regras (horario_manha - 120 * 60 * 1000000)
                db_exemplo_sem_horario agendamento_exemplo H1 H2)
      as [_ [_ [_ [Hok _]]]].
    etransitivity; [exact (Hok (or_introl eq_refl) Hdif)|].
    vm_compute. reflexivity.
  - destruct (cancelar_reserva_regras (horario_manha - 120 * 60 * 1000000)
                db_exemplo_rejeitada
                (ReservaServico.mk 1 1 1 1 horario_manha "REJEITADA") H1 H3)
      as [Hja _].
    exact (Hja (or_intror eq_refl)).
Defined.

Lemma agendar_e_ver_agenda_witness :
  agendar_servico 1 2 2 db_exemplo_agendas
  = (fst (agendar_servico 1 2 2 db_exemplo_agendas), ServicoAgendado 3)
  /\ ver_agenda_cliente 1 (fst (agendar_servico 1 2 2 db_exemplo_agendas))
     = [ReservaServico.mk 2 1 2 3 (horario_manha - 86400000000) "PENDENTE";
        ReservaServico.mk 3 1 1 2 horario_manha "PENDENTE"]
  /\ ver_agenda_reservas 1 (fst (agendar_servico 1 2 2 db_exemplo_agendas))
     = Some [ReservaServico.mk 1 2 1 1 horario_noite "ACEITO";
             ReservaServico.mk 3 1 1 2 horario_manha "PENDENTE"]
  /\ ver_agenda_reservas 2 (fst (agendar_servico 1 2 2 db_exemplo_agendas))
     = Some [ReservaServico.mk 2 1 2 3 (horario_manha - 86400000000) "PENDENTE"]
  /\ ver_agenda_cliente 2 (fst (agendar_servico 1 2 2 db_exemplo_agendas))
     = [ReservaServico.mk 1 2 1 1 horario_noite "ACEITO"].
Proof.
  assert (Ha : agendar_servico 1 2 2 db_exemplo_agendas
               = (fst (agendar_servico 1 2 2 db_exemplo_agendas),
                  ServicoAgendado 3))
    by (vm_compute; reflexivity).
  split; [exact Ha|].
  destruct (agendar_e_ver_agenda 1 2 2 _ _ 3 Ha)
    as [s [h [nova [Hs [Hh [Hn [_ [Hc [Hl [_ [Hol Hoc]]]]]]]]]]].
  assert (Es : s = Servico.mk 2 1)
    by (vm_compute in Hs; injection Hs as <-; reflexivity).
  assert (Eh : ServicoHorario.horario h = horario_manha)
    by (vm_compute in Hh; injection Hh as <-; reflexivity).
  rewrite Es, Eh in Hn. cbn [Servico.loja_id] in Hn.
  rewrite Es in Hl, Hol. cbn [Servico.loja_id] in Hl, Hol.
  rewrite Hn in Hc, Hl.
  split; [|split; [|split]].
  - etransitivity; [exact Hc|]. reflexivity.
  - exact (Hl [ReservaServico.mk 1 2 1 1 horario_noite "ACEITO"] eq_refl).
  - etransitivity; [apply Hol; discriminate|]. reflexivity.
  - etransitivity; [apply Hoc; discriminate|]. reflexivity.
Defined.

Lemma alcancavel_exemplo_geral : alcancavel qualquer db_exemplo_geral.
Proof.
  apply alcancavel_todas; [apply alcancavel_vazio|]. repeat constructor.
Defined.

Lemma chaves_primarias_alcancavel_witness :
  alcancavel qualquer db_exemplo_geral
  /\ chaves_primarias db_exemplo_geral
  /\ map Produto.id (produtos db_exemplo_geral) = [2; 3]
  /\ map Carrinho.id (carrinho db_exemplo_geral) = [2]
  /\ map ReservaProduto.id (reservas_produtos db_exemplo_geral) = [1; 2; 3]
  /\ map ItemReserva.id (itens_reserva db_exemplo_geral) = [1; 2; 3; 4].
Proof.
  split; [exact alcancavel_exemplo_geral|].
  split; [exact (chaves_primarias_alcancavel _ alcancavel_exemplo_geral)|].
  repeat split; vm_compute; reflexivity.
Defined.

Lemma alcancavel_exemplo_reservas :
  alcancavel sem_remocao_de_produto db_exemplo_reservas.
Proof.
  apply alcancavel_todas; [apply alcancavel_vazio|]. repeat constructor.
Defined.

Lemma sem_remocao_sem_erro_witness :
  alcancavel sem_remocao_de_produto db_exemplo_reservas
  /\ db_exemplo_reservas
     = mkDB [1; 2] [1] []
         [Produto.mk 1 "bike" 100 1 2; Produto.mk 2 "capacete" 30 1 3]
         [Carrinho.mk 1 1 2 2]
         [ReservaProduto.mk 1 1 1 0 "RESERVADO" (Some 172800000000);
          ReservaProduto.mk 2 2 1 86400000000 "RETIRADO" (Some 259200000000)]
         [ItemReserva.mk 1 1 1 2 100; ItemReserva.mk 2 1 2 1 30;
          ItemReserva.mk 3 2 1 1 100]
         [] []
  /\ referencias_a_produtos db_exemplo_reservas
  /\ snd (cancelar_expiradas 259200000000 1 db_exemplo_reservas)
     = ExpiradasCanceladas
  /\ snd (finalizar_carrinho 259200000000 1 db_exemplo_reservas)
     <> ProdutoNoCarrinhoNaoExiste
  /\ snd (finalizar_carrinho 259200000000 1 db_exemplo_reservas)
     <> FinalizarErro500
  /\ map (fun r => (ReservaProduto.id r, ReservaProduto.status r))
         (reservas_produtos
            (fst (cancelar_expiradas 259200000000 1 db_exemplo_reservas)))
     = [(1, "CANCELADO"%string); (2, "RETIRADO"%string)]
  /\ snd (finalizar_carrinho 259200000000 1 db_exemplo_reservas)
     = ReservaCriada 3 432000000000.
Proof.
  split; [exact alcancavel_exemplo_reservas|].
  split; [vm_compute; reflexivity|].
  destruct (sem_remocao_sem_erro _ alcancavel_exemplo_reservas)
    as [Href [Hsweep Hcheckout]].
  split; [exact Href|]. split; [exact (Hsweep 259200000000 1)|].
  split; [exact (proj1 (Hcheckout 259200000000 1))|].
  split; [exact (proj2 (Hcheckout 259200000000 1))|].
  split; vm_compute; reflexivity.
Defined.

Lemma registrar_cliente_cpf_unico_witness :
  cpfs_unicos clientes_exemplo
  /\ NoDup (map Cliente.id clientes_exemplo)
  /\ Contas.registrar_cliente hash_exemplo "c" "Carla" 41 "123" "outra"
       clientes_exemplo
     = (clientes_exemplo, CpfJaCadastrado)
  /\ cpfs_unicos
       (fst (Contas.registrar_cliente hash_exemplo "c" "Carla" 41 "789"
               "outra" clientes_exemplo))
  /\ map (fun x => (Cliente.id x, Cliente.cpf x))
         (fst (Contas.registrar_cliente hash_exemplo "c" "Carla" 41 "789"
                 "outra" clientes_exemplo))
     = [(1, "123"%string); (2, "456"%string); (3, "789"%string)].
Proof.
  assert (H1 : cpfs_unicos clientes_exemplo).
  { unfold cpfs_unicos, clientes_exemplo; simpl.
    repeat (constructor; [simpl; intuition discriminate|]). constructor. }
  assert (H2 : NoDup (map Cliente.id clientes_exemplo))
    by (simpl; chaves_distintas).
  split; [exact H1|]. split; [exact H2|].
  destruct (registrar_cliente_cpf_unico hash_exemplo "c" "Carla" 41 "123"
              "outra" clientes_exemplo H1 H2) as [_ [_ Hrecusa]].
  destruct (registrar_cliente_cpf_unico hash_exemplo "c" "Carla" 41 "789"
              "outra" clientes_exemplo H1 H2) as [Hcpf _].
  split; [|split; [exact Hcpf|vm_compute; reflexivity]].
  rewrite (surjective_pairing
             (Contas.registrar_cliente hash_exemplo "c" "Carla" 41 "123"
                "outra" clientes_exemplo)).
  rewrite Hrecusa; [reflexivity|]. intros n. discriminate.
Defined.
